(** * RedditInsight: the analytics pipeline of [reddit_analyzer.py]

    A shallow embedding of [RedditAnalyzer] and the properties its
    specification states about it.  The embedding follows the Python
    source method by method and keeps its names.

    Conventions of the model.
    - A Python [str] is a [string] read as a sequence of code points
      below 256; the character classes below are Python's own on that
      range.
    - Python [int] is [Z]; Python [float] is the binary64 [float] of the
      kernel.
    - A Python [dict] whose key set matters is a [gmap]; the fixed-shape
      dicts built for posts, comments and scored items are records; a
      [Counter], whose insertion order decides ties, is an association
      list; the one [set] literal is the list of its entries.
    - A call that may raise returns a [result].
    - [TextBlob], [round], float formatting, the zone of the host and
      the clock are not part of the source: the analyzer is stated
      over them as section variables. *)

From Stdlib Require Import ZArith NArith String Ascii List PrimFloat Uint63 Lia.
From stdpp Require Import gmap strings list fin_maps sorting.

Set Warnings "-inexact-float".
Local Open Scope string_scope.

(** ** Exceptions and the error monad

    Instances of [Exception], the class that the handlers of the
    analyzer catch; [OtherError] stands for any class not named
    here. *)

Inductive exn : Type :=
  | KeyError (key : string)
  | TypeError (msg : string)
  | ValueError (msg : string)
  | OtherError (msg : string).

(** [str(e)]: a [KeyError] prints the [repr] of its key. *)
Definition str_exn (e : exn) : string :=
  match e with
  | KeyError k => "'" ++ k ++ "'"
  | TypeError m | ValueError m | OtherError m => m
  end.

Inductive result (A : Type) : Type :=
  | Ok (a : A)
  | Raise (e : exn).
Arguments Ok {A} a.
Arguments Raise {A} e.

Global Instance result_ret : MRet result := fun _ a => Ok a.
Global Instance result_bind : MBind result := fun _ _ f m =>
  match m with
  | Ok a => f a
  | Raise e => Raise e
  end.

Global Instance result_fmap : FMap result := fun _ _ f m =>
  match m with
  | Ok a => Ok (f a)
  | Raise e => Raise e
  end.

(** ** Python text primitives *)

Module Py.

Definition ord (c : ascii) : N := N_of_ascii c.

Definition between (lo hi : N) (c : ascii) : bool :=
  ((lo <=? ord c) && (ord c <=? hi))%N.

(** [str.isspace] on one character, which is also the class [\s] of
    [re] and the separator set of [str.split()] and [str.strip()]. *)
Definition isspace (c : ascii) : bool :=
  match ord c with
  | 9 | 10 | 11 | 12 | 13 | 28 | 29 | 30 | 31 | 32 | 133 | 160 => true
  | _ => false
  end%N.

(** The classes [[a-z]], [[A-Z]], [[a-zA-Z]] and [[0-9]]. *)
Definition is_lower (c : ascii) : bool := between 97 122 c.
Definition is_upper (c : ascii) : bool := between 65 90 c.
Definition is_letter (c : ascii) : bool := is_lower c || is_upper c.
Definition is_digit (c : ascii) : bool := between 48 57 c.
Definition is_hex (c : ascii) : bool :=
  is_digit c || between 97 102 c || between 65 70 c.

(** The class [\w] of [re] on a [str] pattern: [str.isalnum] or the
    underscore. *)
Definition is_word (c : ascii) : bool :=
  is_letter c || is_digit c || (ord c =? 95)%N
  || match ord c with
     | 170 | 178 | 179 | 181 | 185 | 186 | 188 | 189 | 190 => true
     | _ => false
     end%N
  || between 192 214 c || between 216 246 c || between 248 255 c.

(** [str.lower] on one character. *)
Definition lower_char (c : ascii) : ascii :=
  if is_upper c || between 192 214 c || between 216 222 c
  then ascii_of_N (ord c + 32)
  else c.

Fixpoint lower (s : string) : string :=
  match s with
  | "" => ""
  | String c r => String (lower_char c) (lower r)
  end.

Fixpoint lstrip (s : string) : string :=
  match s with
  | "" => ""
  | String c r => if isspace c then lstrip r else s
  end.

Fixpoint rstrip (s : string) : string :=
  match s with
  | "" => ""
  | String c r =>
      match rstrip r with
      | "" => if isspace c then "" else String c ""
      | r' => String c r'
      end
  end.

(** [s.strip()] *)
Definition strip (s : string) : string := rstrip (lstrip s).

(** Truth value of a [str]: non-empty. *)
Definition truthy (s : string) : bool :=
  match s with "" => false | _ => true end.

(** [sep.join(l)] *)
Fixpoint join (sep : string) (l : list string) : string :=
  match l with
  | [] => ""
  | [s] => s
  | s :: r => s ++ sep ++ join sep r
  end.

(** [s.split()]: the maximal runs of non-space characters, [cur]
    holding the run being read, reversed. *)
Fixpoint split_go (cur : string) (s : string) : list string :=
  match s with
  | "" => match cur with "" => [] | _ => [String.rev cur] end
  | String c r =>
      if isspace c
      then match cur with
           | "" => split_go "" r
           | _ => String.rev cur :: split_go "" r
           end
      else split_go (String c cur) r
  end.
Definition split (s : string) : list string := split_go "" s.

(** [len(s)] *)
Definition len (s : string) : Z := Z.of_nat (String.length s).

(** *** [re.sub(pattern, '', s)]

    [m s] is the length of the match of the pattern at the start of
    [s], if there is one; none of the patterns used matches the empty
    string.  The scan goes left to right, drops each match and
    resumes right after it; [skip] counts the characters of the
    current match still to drop. *)
Fixpoint sub_go (m : string → option nat) (skip : nat) (s : string) : string :=
  match s with
  | "" => ""
  | String c r =>
      match skip with
      | S k => sub_go m k r
      | O =>
          match m s with
          | Some (S k) => sub_go m k r
          | _ => String c (sub_go m 0 r)
          end
      end
  end.
Definition re_sub (m : string → option nat) (s : string) : string :=
  sub_go m 0 s.

(** Length of the longest prefix whose characters satisfy [p]: a
    greedy [[class]*] with nothing after it. *)
Fixpoint span (p : ascii → bool) (s : string) : nat :=
  match s with
  | String c r => if p c then S (span p r) else O
  | "" => O
  end.

Fixpoint drop (n : nat) (s : string) : string :=
  match n, s with
  | S k, String _ r => drop k r
  | _, _ => s
  end.

(** [s.startswith(p)] *)
Definition startswith (p s : string) : bool := String.prefix p s.

(** The class [[^a-zA-Z\s]] is dropped character by character. *)
Fixpoint keep (p : ascii → bool) (s : string) : string :=
  match s with
  | "" => ""
  | String c r => if p c then String c (keep p r) else keep p r
  end.

End Py.

(** ** Content records

    The dicts that [_get_user_content] builds for each submission and
    each comment. *)

Record post : Type := Post {
  post_id : string;
  post_title : string;
  post_text : string;
  post_score : Z;
  post_created_utc : Z;
  post_subreddit : string;
  post_num_comments : Z;
  post_url : string
}.

Record comment : Type := Comment {
  comment_id : string;
  comment_text : string;
  comment_score : Z;
  comment_created_utc : Z;
  comment_subreddit : string;
  comment_parent_id : string
}.

(** ** [collections.Counter]

    A [Counter] keeps its keys in the order of first insertion.
    [most_common(n)] is [heapq.nlargest(n, items, key=count)], that is
    [sorted(items, key=count, reverse=True)[:n]]: a stable sort, so
    equal counts stay in insertion order. *)

Module Counter.

Definition t : Type := list (string * Z).

(** [c[k] += 1] *)
Fixpoint incr (k : string) (c : t) : t :=
  match c with
  | [] => [(k, 1%Z)]
  | (k', n) :: r =>
      if String.eqb k k' then (k', (n + 1)%Z) :: r else (k', n) :: incr k r
  end.

(** [Counter(l)] *)
Definition of_list (l : list string) : t :=
  fold_left (fun c k => incr k c) l [].

Fixpoint insert_desc (x : string * Z) (l : t) : t :=
  match l with
  | [] => [x]
  | y :: r => if (x.2 <? y.2)%Z then y :: insert_desc x r else x :: y :: r
  end.

Definition sorted_desc (c : t) : t := foldr insert_desc [] c.

Definition most_common (n : nat) (c : t) : t := take n (sorted_desc c).

End Counter.

(** ** KeywordExtractor: [_extract_keywords] *)

(** [w in s] for a set of strings given by its entries. *)
Definition str_in (w : string) (s : list string) : bool :=
  existsb (String.eqb w) s.

(** The set literal [stop_words], entry by entry as written; the
    analyzer only ever tests membership in it. *)
Definition stop_words : list string := [
    (* Articles *)
    "the"; "a"; "an";
    (* Prepositions *)
    "in"; "on"; "at"; "to"; "for"; "of"; "with"; "by"; "from"; "up"; "about"; "into";
    "through"; "during"; "before"; "after"; "above"; "below"; "between"; "among";
    "under"; "over"; "across"; "against"; "within"; "without"; "toward"; "towards";
    "beside"; "behind"; "beneath"; "beyond"; "inside"; "outside"; "upon"; "underneath";
    "off"; "out"; "down"; "near"; "around"; "along"; "throughout"; "concerning";
    "regarding"; "despite"; "except"; "including"; "excluding"; "according";
    (* Conjunctions *)
    "and"; "or"; "but"; "nor"; "yet"; "so"; "if"; "although"; "though"; "because";
    "since"; "unless"; "while"; "whereas"; "however"; "therefore"; "moreover";
    "furthermore"; "nevertheless"; "nonetheless"; "meanwhile"; "otherwise"; "hence";
    (* Pronouns *)
    "i"; "you"; "he"; "she"; "it"; "we"; "they"; "me"; "him"; "her"; "us"; "them";
    "my"; "your"; "his"; "hers"; "its"; "our"; "their"; "mine"; "yours"; "ours";
    "theirs"; "myself"; "yourself"; "himself"; "herself"; "itself"; "ourselves";
    "yourselves"; "themselves"; "this"; "that"; "these"; "those"; "who"; "whom";
    "whose"; "which"; "what"; "whoever"; "whomever"; "whatever"; "whichever";
    "someone"; "somebody"; "something"; "anyone"; "anybody"; "anything"; "everyone";
    "everybody"; "everything"; "no one"; "nobody"; "nothing"; "one"; "ones";
    (* Auxiliary Verbs *)
    "is"; "are"; "was"; "were"; "be"; "been"; "being"; "have"; "has"; "had"; "having";
    "do"; "does"; "did"; "doing"; "will"; "would"; "could"; "should"; "may"; "might";
    "must"; "shall"; "can"; "ought"; "used"; "need"; "dare"; "am";
    (* Adverbs of Degree/Frequency *)
    "very"; "quite"; "rather"; "too"; "so"; "enough"; "pretty"; "fairly"; "really";
    "extremely"; "incredibly"; "absolutely"; "completely"; "totally"; "entirely";
    "always"; "never"; "often"; "sometimes"; "usually"; "frequently"; "rarely";
    "seldom"; "occasionally"; "constantly"; "continually"; "regularly"; "normally";
    "generally"; "typically"; "commonly"; "mostly"; "mainly"; "largely"; "mostly";
    "almost"; "nearly"; "barely"; "hardly"; "scarcely"; "just"; "only"; "even";
    "still"; "yet"; "already"; "soon"; "later"; "now"; "then"; "here"; "there";
    "everywhere"; "somewhere"; "anywhere"; "nowhere";
    (* Interjections/Filler Words *)
    "oh"; "ah"; "wow"; "hey"; "well"; "um"; "uh"; "hmm"; "yeah"; "yes"; "no"; "okay";
    "ok"; "sure"; "right"; "like"; "actually"; "basically"; "literally"; "seriously";
    "honestly"; "obviously"; "clearly"; "definitely"; "probably"; "maybe"; "perhaps";
    "possibly"; "certainly"; "surely"; "indeed"; "truly"; "really"; "quite"; "rather";
    (* Negations and Contractions *)
    "not"; "don't"; "doesn't"; "didn't"; "won't"; "wouldn't"; "can't"; "couldn't";
    "shouldn't"; "isn't"; "aren't"; "wasn't"; "weren't"; "haven't"; "hasn't";
    "hadn't"; "mustn't"; "needn't"; "daren't"; "shan't"; "ain't";
    (* Politeness and Social Words *)
    "thank"; "thanks"; "thank you"; "please"; "sorry"; "excuse"; "pardon"; "welcome";
    "hello"; "hi"; "bye"; "goodbye"; "farewell"; "greetings"; "cheers"; "regards";
    (* Emphasis and Agreement Words *)
    "exactly"; "absolutely"; "totally"; "completely"; "perfectly"; "precisely";
    "correct"; "right"; "true"; "false"; "wrong"; "agree"; "disagree"; "yep"; "nope";
    "uh-huh"; "mm-hmm"; "yup"; "nah"; "yeah"; "yea"; "aye";
    (* Internet Slang and Abbreviations *)
    "lol"; "lmao"; "rofl"; "omg"; "wtf"; "tbh"; "imo"; "imho"; "fyi"; "btw"; "aka";
    "etc"; "ie"; "eg"; "vs"; "tho"; "thru"; "ur"; "u"; "r"; "n"; "w/"; "w/o";
    (* Comprehensive Verb Filtering - All Types of Verbs *)
    (* Action Verbs - Physical Actions *)
    "walk"; "run"; "jump"; "sit"; "stand"; "move"; "dance"; "swim"; "fly"; "drive";
    "ride"; "climb"; "fall"; "drop"; "lift"; "carry"; "hold"; "grab"; "push"; "pull";
    "throw"; "catch"; "kick"; "hit"; "touch"; "reach"; "stretch"; "bend"; "turn";
    "open"; "close"; "lock"; "unlock"; "enter"; "exit"; "arrive"; "leave"; "return";
    (* Action Verbs - Mental Actions *)
    "think"; "know"; "understand"; "remember"; "forget"; "learn"; "study"; "teach";
    "believe"; "doubt"; "wonder"; "imagine"; "dream"; "hope"; "wish"; "want"; "need";
    "love"; "hate"; "like"; "dislike"; "prefer"; "choose"; "decide"; "plan"; "intend";
    "expect"; "assume"; "suppose"; "guess"; "realize"; "recognize"; "notice"; "observe";
    (* Action Verbs - Communication *)
    "say"; "tell"; "speak"; "talk"; "whisper"; "shout"; "yell"; "scream"; "call";
    "ask"; "answer"; "reply"; "respond"; "explain"; "describe"; "mention"; "announce";
    "declare"; "state"; "claim"; "argue"; "discuss"; "debate"; "complain"; "suggest";
    "recommend"; "advise"; "warn"; "promise"; "threaten"; "invite"; "request"; "demand";
    (* Action Verbs - Creation/Destruction *)
    "make"; "create"; "build"; "construct"; "produce"; "generate"; "develop"; "design";
    "write"; "draw"; "paint"; "compose"; "form"; "shape"; "mold"; "craft"; "cook";
    "bake"; "prepare"; "fix"; "repair"; "restore"; "break"; "destroy"; "damage";
    "ruin"; "demolish"; "tear"; "cut"; "slice"; "chop"; "burn"; "melt"; "freeze";
    (* Action Verbs - Possession/Transfer *)
    "have"; "own"; "possess"; "get"; "obtain"; "acquire"; "receive"; "take"; "give";
    "offer"; "provide"; "supply"; "deliver"; "send"; "bring"; "fetch"; "collect";
    "gather"; "save"; "keep"; "store"; "hide"; "lose"; "find"; "discover"; "locate";
    "buy"; "sell"; "trade"; "exchange"; "share"; "lend"; "borrow"; "rent"; "lease";
    (* Action Verbs - Senses and Perception *)
    "see"; "look"; "watch"; "stare"; "glance"; "peek"; "observe"; "view"; "notice";
    "hear"; "listen"; "sound"; "smell"; "taste"; "feel"; "touch"; "sense"; "perceive";
    (* Action Verbs - Technology and Work *)
    "work"; "operate"; "function"; "run"; "start"; "stop"; "pause"; "continue"; "finish";
    "complete"; "begin"; "end"; "play"; "record"; "save"; "load"; "download"; "upload";
    "install"; "update"; "delete"; "remove"; "add"; "insert"; "copy"; "paste"; "edit";
    "modify"; "change"; "adjust"; "configure"; "setup"; "connect"; "disconnect"; "sync";
    (* Linking Verbs and State of Being *)
    "be"; "am"; "is"; "are"; "was"; "were"; "being"; "been"; "become"; "seem"; "appear";
    "look"; "sound"; "smell"; "taste"; "feel"; "remain"; "stay"; "grow"; "turn"; "get";
    "prove"; "act"; "serve"; "represent"; "constitute"; "equal"; "measure"; "weigh";
    (* Helping/Auxiliary Verbs (already included above but ensuring completeness) *)
    "will"; "would"; "shall"; "should"; "may"; "might"; "must"; "can"; "could"; "ought";
    "do"; "does"; "did"; "have"; "has"; "had"; "let"; "help"; "allow"; "permit"; "enable";
    (* Action Verbs - Social Interactions *)
    "meet"; "greet"; "visit"; "join"; "participate"; "attend"; "celebrate"; "party";
    "marry"; "divorce"; "date"; "befriend"; "follow"; "lead"; "guide"; "support";
    "help"; "assist"; "serve"; "cooperate"; "collaborate"; "compete"; "fight"; "argue";
    "apologize"; "forgive"; "blame"; "accuse"; "defend"; "protect"; "attack"; "threaten";
    (* Action Verbs - Emotional/Mental States *)
    "worry"; "fear"; "panic"; "relax"; "calm"; "enjoy"; "suffer"; "struggle"; "cope";
    "manage"; "handle"; "deal"; "face"; "confront"; "avoid"; "escape"; "flee"; "hide";
    "ignore"; "acknowledge"; "accept"; "reject"; "approve"; "disapprove"; "appreciate";
    "value"; "respect"; "admire"; "envy"; "jealous"; "proud"; "ashamed"; "embarrassed";
    (* Action Verbs - Time and Process *)
    "happen"; "occur"; "take place"; "last"; "continue"; "proceed"; "advance"; "progress";
    "develop"; "evolve"; "mature"; "age"; "expire"; "end"; "conclude"; "result"; "cause";
    "lead"; "contribute"; "influence"; "affect"; "impact"; "determine"; "control"; "manage";
    (* Action Verbs - Movement and Direction *)
    "travel"; "journey"; "migrate"; "wander"; "roam"; "explore"; "navigate"; "direct";
    "guide"; "lead"; "follow"; "chase"; "pursue"; "hunt"; "search"; "seek"; "find";
    "approach"; "retreat"; "advance"; "withdraw"; "emerge"; "surface"; "dive"; "sink";
    (* Action Verbs - Health and Body *)
    "eat"; "drink"; "swallow"; "chew"; "bite"; "taste"; "digest"; "breathe"; "inhale";
    "exhale"; "cough"; "sneeze"; "yawn"; "sleep"; "wake"; "rest"; "exercise"; "stretch";
    "hurt"; "heal"; "recover"; "improve"; "worsen"; "suffer"; "ache"; "bleed"; "bruise";
    (* Numbers and basic descriptors that don't add context *)
    "one"; "two"; "three"; "four"; "five"; "six"; "seven"; "eight"; "nine"; "ten";
    "first"; "second"; "third"; "last"; "next"; "previous"; "another"; "other";
    "same"; "different"; "new"; "old"; "young"; "big"; "small"; "large"; "little";
    "good"; "bad"; "best"; "worst"; "better"; "worse"; "great"; "nice"; "fine";
    "long"; "short"; "high"; "low"; "much"; "many"; "few"; "more"; "most"; "less";
    "least"; "all"; "some"; "any"; "each"; "every"; "both"; "either"; "neither";
    "such"; "own"; "back"; "way"; "also"; "too"; "either"
  ].

Definition deleted_marker : string := "[deleted]".

Definition char_in (cs : list ascii) (c : ascii) : bool :=
  existsb (Ascii.eqb c) cs.

(** One iteration of the group
    [(?:[a-zA-Z]|[0-9]|[$-_@.&+]|[!*\\(\\),]|(?:%[0-9a-fA-F][0-9a-fA-F]))]
    under [+]: the alternatives are tried in order, and since nothing
    follows the group the first one that matches is kept. *)
Fixpoint url_body (s : string) : nat :=
  match s with
  | "" => O
  | String c r =>
      if Py.is_letter c then S (url_body r)
      else if Py.is_digit c then S (url_body r)
      else if Py.between 36 95 c || char_in ["@"; "."; "&"; "+"]%char c
      then S (url_body r)
      else if char_in ["!"; "*"; "\"; "("; "\"; ")"; ","]%char c
      then S (url_body r)
      else
        match r with
        | String h1 (String h2 r2) =>
            if Ascii.eqb c "%" && Py.is_hex h1 && Py.is_hex h2
            then S (S (S (url_body r2)))
            else O
        | _ => O
        end
  end.

(** [http[s]?://(...)+] at the start of [s]. *)
Definition match_url (s : string) : option nat :=
  if Py.startswith "http" s then
    let s1 := Py.drop 4 s in
    let opt := if Py.startswith "s" s1 then 1 else 0 in
    let s2 := Py.drop opt s1 in
    if Py.startswith "://" s2 then
      match url_body (Py.drop 3 s2) with
      | O => None
      | S n => Some (4 + opt + 3 + S n)
      end
    else None
  else None.

(** [u/\w+] and [r/\w+] at the start of [s]. *)
Definition match_mention (sigil : ascii) (s : string) : option nat :=
  match s with
  | String c (String "/" r) =>
      if Ascii.eqb c sigil then
        match Py.span Py.is_word r with
        | O => None
        | S n => Some (2 + S n)
        end
      else None
  | _ => None
  end.

(** The four [re.sub] calls. *)
Definition clean_text (all_text : string) : string :=
  let cleaned_text := Py.re_sub match_url all_text in
  let cleaned_text := Py.re_sub (match_mention "u") cleaned_text in
  let cleaned_text := Py.re_sub (match_mention "r") cleaned_text in
  Py.keep (fun c => Py.is_letter c || Py.isspace c) cleaned_text.

(** [words = cleaned_text.lower().split()] *)
Definition words (all_text : string) : list string :=
  Py.split (Py.lower (clean_text all_text)).

(** [[word for word in words if len(word) > 2 and word not in stop_words]] *)
Definition filtered_words (ws : list string) : list string :=
  List.filter (fun word => (2 <? Py.len word)%Z && negb (str_in word stop_words)) ws.

(** [' '.join([comment['text'] for comment in comments_data
               if comment['text'] and comment['text'] != '[deleted]'])] *)
Definition all_text (comments_data : list comment) : string :=
  Py.join " "
    (map comment_text
       (List.filter (fun c => Py.truthy (comment_text c)
                              && negb (String.eqb (comment_text c) deleted_marker))
          comments_data)).

Record keyword : Type := Keyword { word : string; count : Z }.

Definition _extract_keywords (comments_data : list comment) (top_n : nat)
  : list keyword :=
  match comments_data with
  | [] => []
  | _ =>
      if negb (Py.truthy (Py.strip (all_text comments_data))) then []
      else
        let word_counter := Counter.of_list (filtered_words (words (all_text comments_data))) in
        map (fun wc => Keyword wc.1 wc.2) (Counter.most_common top_n word_counter)
  end.

(** ** [datetime]

    [fromtimestamp] with whole seconds.  Without [tz] it gives the
    local time of the host, whose zone is the function [utcoffset]:
    the seconds east of UTC in force at an instant. *)

Module Datetime.

Local Open Scope Z_scope.

Definition DAYS_IN_MONTH (month : Z) : Z :=
  match month with
  | 1 => 31 | 2 => 28 | 3 => 31 | 4 => 30 | 5 => 31 | 6 => 30
  | 7 => 31 | 8 => 31 | 9 => 30 | 10 => 31 | 11 => 30 | 12 => 31
  | _ => -1
  end.

Definition DAYS_BEFORE_MONTH (month : Z) : Z :=
  match month with
  | 1 => 0 | 2 => 31 | 3 => 59 | 4 => 90 | 5 => 120 | 6 => 151
  | 7 => 181 | 8 => 212 | 9 => 243 | 10 => 273 | 11 => 304 | 12 => 334
  | _ => -1
  end.

Definition DI400Y : Z := 146097.
Definition DI100Y : Z := 36524.
Definition DI4Y : Z := 1461.

(** Ordinal of 1970-01-01 and of 9999-12-31, day 1 being 0001-01-01. *)
Definition EPOCH_ORDINAL : Z := 719163.
Definition MAX_ORDINAL : Z := 3652059.

Record date : Type := Date { year : Z; month : Z; day : Z }.

(** [_ord2ymd] of the [datetime] module. *)
Definition ord2ymd (ordinal : Z) : date :=
  let n := ordinal - 1 in
  let n400 := n / DI400Y in
  let n := n mod DI400Y in
  let year := n400 * 400 + 1 in
  let n100 := n / DI100Y in
  let n := n mod DI100Y in
  let n4 := n / DI4Y in
  let n := n mod DI4Y in
  let n1 := n / 365 in
  let n := n mod 365 in
  let year := year + n100 * 100 + n4 * 4 + n1 in
  if (n1 =? 4) || (n100 =? 4) then Date (year - 1) 12 31
  else
    let leapyear := (n1 =? 3) && (negb (n4 =? 24) || (n100 =? 3)) in
    let month := Z.shiftr (n + 50) 5 in
    let preceding :=
      DAYS_BEFORE_MONTH month + (if (2 <? month) && leapyear then 1 else 0) in
    if n <? preceding then
      let month := month - 1 in
      let preceding :=
        preceding - (DAYS_IN_MONTH month + (if (month =? 2) && leapyear then 1 else 0)) in
      Date year month (n - preceding + 1)
    else Date year month (n - preceding + 1).

Definition digit (d : Z) : string :=
  String (ascii_of_N (48 + Z.to_N (d mod 10))) "".

(** Decimal rendering of a non-negative number, [width] digits. *)
Fixpoint digits (width : nat) (n : Z) : string :=
  match width with
  | O => ""
  | S w => digits w (n / 10) ++ digit n
  end.

(** [tz] argument of [fromtimestamp]: [None], or [timezone.utc]. *)
Inductive tzinfo : Type := utc.

(** Dates outside years 1 to 9999 raise [ValueError]; the message names
    the first year beyond the end that was passed. *)
Definition fromtimestamp (utcoffset : Z → Z) (timestamp : Z) (tz : option tzinfo)
  : result date :=
  let offset := match tz with None => utcoffset timestamp | Some utc => 0 end in
  let ordinal := EPOCH_ORDINAL + (timestamp + offset) / 86400 in
  if ordinal <? 1 then Raise (ValueError "year 0 is out of range")
  else if MAX_ORDINAL <? ordinal then Raise (ValueError "year 10000 is out of range")
  else Ok (ord2ymd ordinal).

(** [strftime('%Y-%m-%d')], for the four-digit years 1000 to 9999. *)
Definition strftime_ymd (d : date) : string :=
  digits 4 (year d) ++ "-" ++ digits 2 (month d) ++ "-" ++ digits 2 (day d).

End Datetime.

(** ** Dynamically typed values

    What the sentiment dict holds. *)

Record scored : Type := Scored {
  scored_type : string;
  scored_polarity : float;
  scored_subjectivity : float;
  scored_score : Z;
  scored_created_utc : Z
}.

Inductive value : Type :=
  | VInt (z : Z)
  | VFloat (f : float)
  | VStr (s : string)
  | VList (l : list scored).

(** [float(z)]; the ints that reach a float operation are counts and
    small literals, all below 2^53 in magnitude. *)
Definition float_of_Z (z : Z) : float :=
  match z with
  | Z0 => 0%float
  | Zpos _ => PrimFloat.of_uint63 (Uint63.of_Z z)
  | Zneg p => PrimFloat.opp (PrimFloat.of_uint63 (Uint63.of_Z (Zpos p)))
  end.

Definition as_number (op : string) (v : value) : result float :=
  match v with
  | VInt z => Ok (float_of_Z z)
  | VFloat f => Ok f
  | VStr _ =>
      Raise (TypeError ("'" ++ op ++ "' not supported between instances of 'str' and 'float'"))
  | VList _ =>
      Raise (TypeError ("'" ++ op ++ "' not supported between instances of 'list' and 'float'"))
  end.

(** [v > x] and [v < x] against a float literal. *)
Definition py_gt (v : value) (x : float) : result bool :=
  f ← as_number ">" v; Ok (PrimFloat.ltb x f).
Definition py_lt (v : value) (x : float) : result bool :=
  f ← as_number "<" v; Ok (PrimFloat.ltb f x).

(** [v == 0] *)
Definition py_eq_zero (v : value) : bool :=
  match v with
  | VInt z => (z =? 0)%Z
  | VFloat f => PrimFloat.eqb f 0%float
  | _ => false
  end.

(** [format(v, '.1f')] given the rendering of floats. *)
Definition py_format (format_1f : float → string) (v : value) : result string :=
  match v with
  | VInt z => Ok (format_1f (float_of_Z z))
  | VFloat f => Ok (format_1f f)
  | VStr _ => Raise (ValueError "Unknown format code 'f' for object of type 'str'")
  | VList _ => Raise (TypeError "unsupported format string passed to list.__format__")
  end.

(** [d[key]] *)
Definition getitem (d : gmap string value) (key : string) : result value :=
  match d !! key with
  | Some v => Ok v
  | None => Raise (KeyError key)
  end.

(** ** The platform client

    What [praw] hands to the analyzer.  Reading [created_utc] is the
    first access that reaches the platform and fails for an absent or
    suspended account.  A listing yields its items, already in the
    shape [_get_user_content] gives them, and may then raise. *)

Record redditor : Type := Redditor {
  user_name : string;
  user_created_utc : result Z;
  user_link_karma : option Z;
  user_comment_karma : option Z;
  user_verified : option bool;
  user_is_gold : option bool;
  user_submissions_new : nat → list post * option exn;
  user_comments_new : nat → list comment * option exn
}.

(** [getattr(obj, name, default)] *)
Definition getattr {A} (field : option A) (default : A) : A :=
  match field with
  | Some a => a
  | None => default
  end.

Definition dquote : string := String (ascii_of_N 34) "".

(** ** The analyzer *)

Section RedditAnalyzer.

(** [TextBlob(text).sentiment]: polarity and subjectivity. *)
Variable sentiment : string → result (float * float).
(** The built-in [round(x, ndigits)]. *)
Variable round : float → Z → float.
(** [f"{x:.1f}"] *)
Variable format_1f : float → string.
(** The local zone of the host. *)
Variable utcoffset : Z → Z.
(** [datetime.now(timezone.utc)], in epoch seconds. *)
Variable now : Z.

(** *** SentimentAggregator: [_analyze_sentiment] *)

Fixpoint analyze_posts (posts_data : list post) (sentiments : list scored)
  : result (list scored) :=
  match posts_data with
  | [] => Ok sentiments
  | post :: rest =>
      let text := post_title post ++ " " ++ post_text post in
      if Py.truthy (Py.strip text) then
        '(polarity, subjectivity) ← sentiment text;
        analyze_posts rest
          (sentiments ++ [Scored "post" polarity subjectivity
                            (post_score post) (post_created_utc post)])
      else analyze_posts rest sentiments
  end.

Fixpoint analyze_comments (comments_data : list comment) (sentiments : list scored)
  : result (list scored) :=
  match comments_data with
  | [] => Ok sentiments
  | comment :: rest =>
      if Py.truthy (Py.strip (comment_text comment))
         && negb (String.eqb (comment_text comment) deleted_marker) then
        '(polarity, subjectivity) ← sentiment (comment_text comment);
        analyze_comments rest
          (sentiments ++ [Scored "comment" polarity subjectivity
                            (comment_score comment) (comment_created_utc comment)])
      else analyze_comments rest sentiments
  end.

(** The list [sentiments] as it stands after both loops. *)
Definition sentiments_of (posts_data : list post) (comments_data : list comment)
  : result (list scored) :=
  sentiments ← analyze_posts posts_data [];
  analyze_comments comments_data sentiments.

Definition _get_sentiment_summary (sentiment_analysis : gmap string value)
  : result string :=
  polarity ← getitem sentiment_analysis "overall_polarity";
  positive_ratio ← getitem sentiment_analysis "positive_ratio";
  positive ← py_gt polarity 0.3%float;
  if (positive : bool) then
    p ← py_format format_1f positive_ratio;
    Ok ("Generally positive outlook (" ++ p ++ "% positive content)")
  else
    negative ← py_lt polarity (-0.3)%float;
    if (negative : bool) then
      negative_ratio ← getitem sentiment_analysis "negative_ratio";
      n ← py_format format_1f negative_ratio;
      Ok ("Tends toward criticism (" ++ n ++ "% negative content)")
    else
      p ← py_format format_1f positive_ratio;
      negative_ratio ← getitem sentiment_analysis "negative_ratio";
      n ← py_format format_1f negative_ratio;
      Ok ("Balanced perspective (" ++ p ++ "% positive, " ++ n ++ "% negative)").

(** [sum(key(s) for s in sentiments)], starting from the int [0]. *)
Definition sum_floats (key : scored → float) (sentiments : list scored) : float :=
  fold_left (fun acc s => PrimFloat.add acc (key s)) sentiments 0%float.

(** [sum(1 for s in sentiments if p(s))] *)
Definition count_if (p : scored → bool) (sentiments : list scored) : Z :=
  Z.of_nat (length (List.filter p sentiments)).

(** [round(k / total * 100, 1)] *)
Definition ratio (k total : Z) : float :=
  round (PrimFloat.mul (PrimFloat.div (float_of_Z k) (float_of_Z total)) 100%float) 1.

(** The dict returned when nothing was scored. *)
Definition empty_sentiment : gmap string value :=
  list_to_map [
    ("overall_polarity", VInt 0);
    ("overall_subjectivity", VInt 0);
    ("positive_ratio", VInt 0);
    ("negative_ratio", VInt 0);
    ("neutral_ratio", VInt 0);
    ("sentiment_distribution", VList [])
  ].

Definition _analyze_sentiment (posts_data : list post) (comments_data : list comment)
  : result (gmap string value) :=
  sentiments ← sentiments_of posts_data comments_data;
  match sentiments with
  | [] => Ok empty_sentiment
  | _ =>
      let total := Z.of_nat (length sentiments) in
      let avg_polarity :=
        PrimFloat.div (sum_floats scored_polarity sentiments) (float_of_Z total) in
      let avg_subjectivity :=
        PrimFloat.div (sum_floats scored_subjectivity sentiments) (float_of_Z total) in
      let positive := count_if (fun s => PrimFloat.ltb 0.1%float (scored_polarity s)) sentiments in
      let negative := count_if (fun s => PrimFloat.ltb (scored_polarity s) (-0.1)%float) sentiments in
      let neutral := (total - positive - negative)%Z in
      sentiment_summary ← _get_sentiment_summary (list_to_map [
        ("overall_polarity", VFloat (round avg_polarity 3));
        ("positive_ratio", VFloat (ratio positive total));
        ("negative_ratio", VFloat (ratio negative total))
      ]);
      Ok (list_to_map [
        ("overall_polarity", VFloat (round avg_polarity 3));
        ("overall_subjectivity", VFloat (round avg_subjectivity 3));
        ("positive_ratio", VFloat (ratio positive total));
        ("negative_ratio", VFloat (ratio negative total));
        ("neutral_ratio", VFloat (ratio neutral total));
        ("sentiment_distribution", VList sentiments);
        ("total_analyzed", VInt total);
        ("sentiment_summary", VStr sentiment_summary)
      ])
  end.

(** *** TimelineBuilder: [_create_timeline] *)

(** The value of the [defaultdict]: posts, comments, total_score. *)
Record bucket : Type := Bucket {
  bucket_posts : Z;
  bucket_comments : Z;
  bucket_total_score : Z
}.

(** [timeline[date][field] += k], the missing key starting from the
    default bucket. *)
Definition bump (f : bucket → bucket) (date : string)
    (timeline : gmap string bucket) : gmap string bucket :=
  <[date := f (default (Bucket 0 0 0) (timeline !! date))]> timeline.

Definition add_posts (k : Z) (b : bucket) : bucket :=
  Bucket (bucket_posts b + k) (bucket_comments b) (bucket_total_score b).
Definition add_comments (k : Z) (b : bucket) : bucket :=
  Bucket (bucket_posts b) (bucket_comments b + k) (bucket_total_score b).
Definition add_total_score (k : Z) (b : bucket) : bucket :=
  Bucket (bucket_posts b) (bucket_comments b) (bucket_total_score b + k).

(** [datetime.fromtimestamp(created_utc).strftime('%Y-%m-%d')] *)
Definition timeline_date (created_utc : Z) : result string :=
  Datetime.strftime_ymd <$> Datetime.fromtimestamp utcoffset created_utc None.

Fixpoint process_posts (posts_data : list post) (timeline : gmap string bucket)
  : result (gmap string bucket) :=
  match posts_data with
  | [] => Ok timeline
  | post :: rest =>
      date ← timeline_date (post_created_utc post);
      process_posts rest
        (bump (add_total_score (post_score post)) date (bump (add_posts 1) date timeline))
  end.

Fixpoint process_comments (comments_data : list comment) (timeline : gmap string bucket)
  : result (gmap string bucket) :=
  match comments_data with
  | [] => Ok timeline
  | comment :: rest =>
      date ← timeline_date (comment_created_utc comment);
      process_comments rest
        (bump (add_total_score (comment_score comment)) date
           (bump (add_comments 1) date timeline))
  end.

Record timeline_entry : Type := TimelineEntry {
  date : string;
  posts : Z;
  comments : Z;
  total_activity : Z;
  total_score : Z
}.

(** Order of [sorted(timeline.items())]: the keys are distinct, so
    two items are always told apart by their date strings. *)
Definition item_le (a b : string * bucket) : Prop := String.le a.1 b.1.

Definition _create_timeline (posts_data : list post) (comments_data : list comment)
  : result (list timeline_entry) :=
  timeline ← process_posts posts_data ∅;
  timeline ← process_comments comments_data timeline;
  Ok (map (fun item =>
             TimelineEntry item.1 (bucket_posts item.2) (bucket_comments item.2)
               (bucket_posts item.2 + bucket_comments item.2)
               (bucket_total_score item.2))
        (merge_sort item_le (map_to_list timeline))).

(** *** CharacterProfiler: [_analyze_character] *)

Record profile : Type := Profile {
  personality_traits : list string;
  communication_style : string;
  engagement_level : string;
  content_focus : list string
}.

Definition insufficient_profile : profile :=
  Profile ["Insufficient data for analysis"] "Unknown" "Unknown" [].

Definition _analyze_character (sentiment_analysis : gmap string value)
    (posts_data : list post) (comments_data : list comment) : result profile :=
  insufficient ←
    (if bool_decide (size sentiment_analysis = 0) then Ok true
     else py_eq_zero <$> getitem sentiment_analysis "total_analyzed");
  if (insufficient : bool) then Ok insufficient_profile
  else
    polarity ← getitem sentiment_analysis "overall_polarity";
    subjectivity ← getitem sentiment_analysis "overall_subjectivity";
    optimistic ← py_gt polarity 0.2%float;
    tone ← (if (optimistic : bool) then Ok "Optimistic"
            else critical ← py_lt polarity (-0.2)%float;
                 Ok (if (critical : bool) then "Critical" else "Balanced"));
    opinionated ← py_gt subjectivity 0.6%float;
    style ← (if (opinionated : bool) then Ok "Opinionated"
             else factual ← py_lt subjectivity 0.3%float;
                  Ok (if (factual : bool) then "Factual" else "Moderate"));
    let total_posts := Z.of_nat (length posts_data) in
    let total_comments := Z.of_nat (length comments_data) in
    let traits : list string :=
      ([tone; style]
       ++ (if (total_comments <? total_posts)%Z then ["Content Creator"]
           else if (total_posts * 3 <? total_comments)%Z then ["Active Commenter"]
           else []))%list in
    expressive ← py_gt subjectivity 0.7%float;
    communication_style ←
      (if (expressive : bool) then Ok "Expressive and Personal"
       else objective ← py_lt subjectivity 0.3%float;
            Ok (if (objective : bool) then "Objective and Factual"
                else "Balanced and Thoughtful"));
    let total_activity := (total_posts + total_comments)%Z in
    let engagement_level :=
      if (50 <? total_activity)%Z then "Highly Active"
      else if (20 <? total_activity)%Z then "Moderately Active"
      else "Casual User" in
    let subreddit_counter :=
      Counter.of_list (map post_subreddit posts_data ++ map comment_subreddit comments_data) in
    let content_focus := map fst (Counter.most_common 5 subreddit_counter) in
    Ok (Profile traits communication_style engagement_level content_focus).

(** *** [_get_user_info] and [_get_user_content] *)

Record user_info : Type := UserInfo {
  info_username : string;
  info_post_karma : Z;
  info_comment_karma : Z;
  info_total_karma : Z;
  info_account_created : string;
  info_account_age_days : Z;
  info_account_age_years : float;
  info_is_verified : bool;
  info_has_premium : bool
}.

(** [None] is the empty dict returned when anything in the body
    raises. *)
Definition _get_user_info (user : redditor) : option user_info :=
  let body : result user_info :=
    created_utc ← user_created_utc user;
    created_date ← Datetime.fromtimestamp utcoffset created_utc (Some Datetime.utc);
    let account_age_days := ((now - created_utc) / 86400)%Z in
    Ok (UserInfo (user_name user)
          (getattr (user_link_karma user) 0%Z)
          (getattr (user_comment_karma user) 0%Z)
          (getattr (user_link_karma user) 0 + getattr (user_comment_karma user) 0)%Z
          (Datetime.strftime_ymd created_date)
          account_age_days
          (round (PrimFloat.div (float_of_Z account_age_days) 365.25%float) 1)
          (getattr (user_verified user) false)
          (getattr (user_is_gold user) false)) in
  match body with
  | Ok info => Some info
  | Raise _ => None
  end.

(** Each loop appends until the listing ends or raises; the
    exception is logged and what was appended is kept. *)
Definition _get_user_content (user : redditor) (limit : nat)
  : list post * list comment :=
  let posts_data :=
    match user_submissions_new user limit with
    | (items, None) => items
    | (items, Some _) => items
    end in
  let comments_data :=
    match user_comments_new user limit with
    | (items, None) => items
    | (items, Some _) => items
    end in
  (posts_data, comments_data).

(** *** AnalysisOrchestrator: [analyze_user] *)

Record content_stats : Type := ContentStats {
  total_posts : Z;
  total_comments : Z;
  total_content : Z
}.

Inductive response : Type :=
  | Failure (error : string)
  | Analysis (username : string) (info : option user_info)
      (sentiment_analysis : gmap string value)
      (timeline_data : list timeline_entry)
      (top_keywords : list keyword)
      (character_analysis : profile)
      (stats : content_stats).

(** The ['success'] key. *)
Definition success (r : response) : bool :=
  match r with
  | Failure _ => false
  | Analysis _ _ _ _ _ _ _ => true
  end.

(** The body of the outer [try]. *)
Definition analyze_user_body (reddit : string → result redditor) (username : string)
  : result response :=
  user ← reddit username;
  match user_created_utc user with
  | Raise _ =>
      Ok (Failure ("User " ++ dquote ++ username ++ dquote
                     ++ " not found or account is suspended"))
  | Ok user_created =>
      let user_data := _get_user_info user in
      let posts_data := (_get_user_content user 100).1 in
      let comments_data := (_get_user_content user 100).2 in
      sentiment_analysis ← _analyze_sentiment posts_data comments_data;
      timeline_data ← _create_timeline posts_data comments_data;
      let top_keywords := _extract_keywords comments_data 10 in
      character_analysis ← _analyze_character sentiment_analysis posts_data comments_data;
      Ok (Analysis username user_data sentiment_analysis timeline_data top_keywords
            character_analysis
            (ContentStats (Z.of_nat (length posts_data)) (Z.of_nat (length comments_data))
               (Z.of_nat (length posts_data) + Z.of_nat (length comments_data))))
  end.

(** [reddit] is [self.reddit]: [None] when the client could not be
    set up. *)
Definition analyze_user (reddit : option (string → result redditor)) (username : string)
  : response :=
  match reddit with
  | None => Failure "Reddit API not properly configured. Please check API credentials."
  | Some reddit =>
      match analyze_user_body reddit username with
      | Ok r => r
      | Raise e => Failure ("Failed to analyze user: " ++ str_exn e)
      end
  end.

End RedditAnalyzer.

(** ** Definitions used in the statements *)

Fixpoint all_chars (p : ascii → bool) (s : string) : bool :=
  match s with
  | "" => true
  | String c r => p c && all_chars p r
  end.

Fixpoint has_char (c : ascii) (s : string) : bool :=
  match s with
  | "" => false
  | String c' r => Ascii.eqb c c' || has_char c r
  end.

Definition letter_or_space (c : ascii) : bool := Py.is_letter c || Py.isspace c.
Definition lower_or_space (c : ascii) : bool := Py.is_lower c || Py.isspace c.

(** A comment enters the keyword text when its body, as it stands, is
    neither empty nor the deletion marker. *)
Definition keyword_body (c : comment) : option string :=
  if decide (comment_text c ≠ "" ∧ comment_text c ≠ "[deleted]")
  then Some (comment_text c)
  else None.

(** A scorer that never raises. *)
Definition total_scorer (score : string → float * float) (text : string)
  : result (float * float) :=
  Ok (score text).

(** What one post and one comment contribute to [sentiments], stated
    on their texts alone, the scorer being total. *)
Definition post_scored_item (score : string → float * float) (p : post) : option scored :=
  let text := post_title p ++ " " ++ post_text p in
  if decide (Py.strip text ≠ "")
  then Some (Scored "post" (score text).1 (score text).2 (post_score p) (post_created_utc p))
  else None.

Definition comment_scored_item (score : string → float * float) (c : comment)
  : option scored :=
  let text := comment_text c in
  if decide (Py.strip text ≠ "" ∧ text ≠ "[deleted]")
  then Some (Scored "comment" (score text).1 (score text).2
               (comment_score c) (comment_created_utc c))
  else None.

(** [sum(f(x) for x in l)] *)
Definition sum_by {A : Type} (f : A → Z) (l : list A) : Z :=
  foldr (fun x acc => (f x + acc)%Z) 0%Z l.

(** Total of one field over all the buckets of the timeline dict. *)
Definition field_total (g : bucket → Z) (timeline : gmap string bucket) : Z :=
  sum_by (g ∘ snd) (map_to_list timeline).

(** [a < b] on two strings, as Python compares [str]. *)
Definition str_lt (a b : string) : Prop := (a ?= b)%string = Lt.

(** Local times from 1970 to the end of year 9999. *)
Definition representable (utcoffset : Z → Z) (timestamp : Z) : Prop :=
  (0 ≤ timestamp + utcoffset timestamp < 253402300800)%Z.

(** A stage of the pipeline, run in the order of [analyze_user] on the
    fetched content, raises [e]. *)
Definition stage_raises (sentiment : string → result (float * float))
    (round : float → Z → float) (format_1f : float → string) (utcoffset : Z → Z)
    (posts_data : list post) (comments_data : list comment) (e : exn) : Prop :=
  _analyze_sentiment sentiment round format_1f posts_data comments_data = Raise e
  ∨ ∃ summary,
      _analyze_sentiment sentiment round format_1f posts_data comments_data = Ok summary
      ∧ (_create_timeline utcoffset posts_data comments_data = Raise e
         ∨ ∃ timeline,
             _create_timeline utcoffset posts_data comments_data = Ok timeline
             ∧ _analyze_character summary posts_data comments_data = Raise e).

(** ** Sample inputs *)

Definition sample_comment (body : string) (created_utc : Z) : comment :=
  Comment "c1" body 5 created_utc "hiking" "t3_p1".

Definition sample_post (title body : string) : post :=
  Post "p1" title body 7 0 "hiking" 0 "".

(** A scorer that finds every text neutral, and one that fails. *)
Definition flat_scorer (text : string) : result (float * float) :=
  Ok (0%float, 0%float).

Definition failing_scorer (text : string) : result (float * float) :=
  Raise (OtherError "corpus not found").

Definition plain_round (x : float) (ndigits : Z) : float := x.
Definition plain_format (x : float) : string := "0.0".

(** A host on UTC, and one two hours east of it. *)
Definition host_utc (timestamp : Z) : Z := 0.
Definition utc_plus_2 (timestamp : Z) : Z := 7200.

(** A summary of one scored item with the given polarity. *)
Definition summary_with_polarity (polarity : float) : gmap string value :=
  list_to_map [
    ("overall_polarity", VFloat polarity);
    ("overall_subjectivity", VFloat 0.5);
    ("total_analyzed", VInt 1)
  ].

(** An account with no submissions and one deleted comment. *)
Definition quiet_user : redditor :=
  Redditor "quiet" (Ok 1600000000%Z) None None None None
    (fun _ => ([], None))
    (fun _ => ([sample_comment "[deleted]" 1700000000], None)).

(** An account with one ordinary comment. *)
Definition one_comment_user : redditor :=
  Redditor "talker" (Ok 1600000000%Z) None None None None
    (fun _ => ([], None))
    (fun _ => ([sample_comment "hello" 1700000000], None)).


(** ** The rest of the class: [__init__] *)

(** [os.environ.get(key, default)] *)
Definition environ_get (environ : gmap string string) (key default : string) : string :=
  match environ !! key with
  | Some v => v
  | None => default
  end.

(** [praw.Reddit(client_id, client_secret, user_agent)] builds the
    client, and [reddit.user.me()] is the connection test; either may
    raise.  The result is [self.reddit]. *)
Definition __init__ (environ : gmap string string)
    (Reddit : string → string → string → result (string → result redditor))
    (user_me : (string → result redditor) → result unit)
  : option (string → result redditor) :=
  let body : result (string → result redditor) :=
    reddit ← Reddit (environ_get environ "REDDIT_CLIENT_ID" "default_client_id")
                    (environ_get environ "REDDIT_CLIENT_SECRET" "default_secret")
                    (environ_get environ "REDDIT_USER_AGENT" "RedditUserAnalyzer/1.0");
    _ ← user_me reddit;
    Ok reddit in
  match body with
  | Ok reddit => Some reddit
  | Raise _ => None
  end.

(** ** The web front end: [app.py]

    A route answers with JSON, a redirect or a template.  Nothing in
    the body of [analyze_user] raises in this model, so its handler
    for unexpected errors is not reached. *)

Module App.

Inductive page : Type :=
  | redirect (endpoint : string) (username : string)
  | render_template (name : string) (status : Z).

(** [@app.route('/')] *)
Definition index : page := render_template "index.html" 200.

(** [@app.route('/results')]; [form_username] is what
    [request.form] holds under ['username'], if anything. *)
Definition results (method : string) (form_username : option string) : page :=
  if String.eqb method "POST" then
    let username := Py.strip (getattr form_username "") in
    let username := if Py.startswith "u/" username then Py.drop 2 username else username in
    redirect "results" username
  else render_template "results.html" 200.

(** [@app.errorhandler(404)] *)
Definition not_found : page := render_template "index.html" 404.

Section Routes.

Variable sentiment : string → result (float * float).
Variable round : float → Z → float.
Variable format_1f : float → string.
Variable utcoffset : Z → Z.
Variable now : Z.
(** The [reddit] attribute of the module-level [reddit_analyzer]. *)
Variable reddit : option (string → result redditor).

(** [@app.route('/analyze')] *)
Definition analyze_user (form_username : option string) : response :=
  let username := Py.strip (getattr form_username "") in
  if negb (Py.truthy username) then Failure "Please enter a valid Reddit username"
  else
    let username := if Py.startswith "u/" username then Py.drop 2 username else username in
    let analysis_result :=
      analyze_user sentiment round format_1f utcoffset now reddit username in
    if success analysis_result then analysis_result
    else
      Failure (match analysis_result with
               | Failure error => error
               | Analysis _ _ _ _ _ _ _ => "Analysis failed"
               end).

End Routes.

End App.

(** ** More definitions used in the statements *)

(** [c[k]], which is 0 for a key that is not there. *)
Fixpoint counter_get (k : string) (c : Counter.t) : Z :=
  match c with
  | [] => 0%Z
  | (k', n) :: r => if String.eqb k k' then n else counter_get k r
  end.

(** How many times [w] occurs in [l]. *)
Definition occurrences (w : string) (l : list string) : Z :=
  Z.of_nat (length (List.filter (String.eqb w) l)).

(** The distinct elements of [l], each at its first appearance. *)
Fixpoint first_appearances (l : list string) : list string :=
  match l with
  | [] => []
  | x :: r => x :: List.filter (fun y => negb (String.eqb y x)) (first_appearances r)
  end.

(** The token stream that [_extract_keywords] counts. *)
Definition keyword_stream (comments_data : list comment) : list string :=
  filtered_words (words (all_text comments_data)).

(** The calendar day, counted from 1970-01-01, of an instant on the
    clock of the host. *)
Definition local_day (utcoffset : Z → Z) (timestamp : Z) : Z :=
  ((timestamp + utcoffset timestamp) / 86400)%Z.

(** The summary of one neutral post and one neutral comment. *)
Definition two_item_summary : gmap string value :=
  list_to_map [
    ("overall_polarity", VFloat 0);
    ("overall_subjectivity", VFloat 0);
    ("positive_ratio", VFloat 0);
    ("negative_ratio", VFloat 0);
    ("neutral_ratio", VFloat 100);
    ("sentiment_distribution", VList [Scored "post" 0 0 7 0; Scored "comment" 0 0 5 0]);
    ("total_analyzed", VInt 2);
    ("sentiment_summary", VStr "Balanced perspective (0.0% positive, 0.0% negative)")
  ].

(** The texts that [_analyze_sentiment] builds from its input. *)
Definition analyzable_texts (posts_data : list post) (comments_data : list comment)
  : list string :=
  map (fun p => post_title p ++ " " ++ post_text p) posts_data
  ++ map comment_text comments_data.

(** The communities of all posts, then of all comments. *)
Definition communities (posts_data : list post) (comments_data : list comment)
  : list string :=
  map post_subreddit posts_data ++ map comment_subreddit comments_data.

(** The shape of a profile computed past the guard of
    [_analyze_character]: the two labels that depend on the counts
    alone, and the labels read off the summary left open. *)
Definition activity_trait (posts_data : list post) (comments_data : list comment)
  : list string :=
  if (Z.of_nat (length comments_data) <? Z.of_nat (length posts_data))%Z
  then ["Content Creator"]
  else if (Z.of_nat (length posts_data) * 3 <? Z.of_nat (length comments_data))%Z
       then ["Active Commenter"] else [].

Definition engagement_of (posts_data : list post) (comments_data : list comment)
  : string :=
  if (50 <? Z.of_nat (length posts_data) + Z.of_nat (length comments_data))%Z
  then "Highly Active"
  else if (20 <? Z.of_nat (length posts_data) + Z.of_nat (length comments_data))%Z
       then "Moderately Active" else "Casual User".

Definition computed_profile (posts_data : list post) (comments_data : list comment)
    (p : profile) : Prop :=
  ∃ tone style communication,
    p = Profile ([tone; style] ++ activity_trait posts_data comments_data)%list
          communication
          (engagement_of posts_data comments_data)
          (Counter.most_common 5
             (Counter.of_list (communities posts_data comments_data))).*1
    ∧ tone ∈ ["Optimistic"; "Critical"; "Balanced"]
    ∧ style ∈ ["Opinionated"; "Factual"; "Moderate"]
    ∧ communication ∈ ["Expressive and Personal"; "Objective and Factual";
                       "Balanced and Thoughtful"].

(** The three failure messages of [analyze_user]. *)
Definition not_configured_message : string :=
  "Reddit API not properly configured. Please check API credentials.".

Definition not_found_message (username : string) : string :=
  "User " ++ dquote ++ username ++ dquote ++ " not found or account is suspended".

Definition failed_message (e : exn) : string :=
  "Failed to analyze user: " ++ str_exn e.

(** The creation times of all posts, then of all comments. *)
Definition creation_times (posts_data : list post) (comments_data : list comment)
  : list Z :=
  map post_created_utc posts_data ++ map comment_created_utc comments_data.

(** An account with one post and two comments, one of them deleted,
    whose comment listing ends on an error. *)
Definition active_user : redditor :=
  Redditor "walker" (Ok 1600000000%Z) (Some 12%Z) None None None
    (fun _ => ([sample_post "Trip report" "[deleted]"], None))
    (fun _ => ([sample_comment "hello" 0; sample_comment "[deleted]" 0],
               Some (OtherError "timeout"))).

(** An account whose first read fails. *)
Definition suspended_user : redditor :=
  Redditor "ghost" (Raise (OtherError "received 404 HTTP response")) None None None None
    (fun _ => ([], None)) (fun _ => ([], None)).

(** Local times that a [datetime] can hold: years 1 to 9999. *)
Definition datable (utcoffset : Z → Z) (timestamp : Z) : Prop :=
  (-62135596800 ≤ timestamp + utcoffset timestamp < 253402300800)%Z.

(** The item created at [timestamp] is filed under [date]. *)
Definition on_date (utcoffset : Z → Z) (date : string) (timestamp : Z) : bool :=
  match timeline_date utcoffset timestamp with
  | Ok date' => String.eqb date' date
  | Raise _ => false
  end.

Definition posts_on (utcoffset : Z → Z) (date : string) (posts_data : list post)
  : list post :=
  List.filter (fun p => on_date utcoffset date (post_created_utc p)) posts_data.

Definition comments_on (utcoffset : Z → Z) (date : string) (comments_data : list comment)
  : list comment :=
  List.filter (fun c => on_date utcoffset date (comment_created_utc c)) comments_data.

(** The timeline entry of one day, computed from the items filed
    under it. *)
Definition day_entry (utcoffset : Z → Z) (posts_data : list post)
    (comments_data : list comment) (date : string) : timeline_entry :=
  let day_posts := posts_on utcoffset date posts_data in
  let day_comments := comments_on utcoffset date comments_data in
  TimelineEntry date
    (Z.of_nat (length day_posts)) (Z.of_nat (length day_comments))
    (Z.of_nat (length day_posts) + Z.of_nat (length day_comments))
    (sum_by post_score day_posts + sum_by comment_score day_comments).

(** The user name that the two routes pass on. *)
Definition normalised (form_username : option string) : string :=
  let username := Py.strip (getattr form_username "") in
  if Py.startswith "u/" username then Py.drop 2 username else username.

(** One post on the first day of 1970 and two comments on one day of
    2023, with the timeline of a host two hours east of UTC. *)
Definition two_day_posts : list post := [sample_post "Trip report" "[deleted]"].
Definition two_day_comments : list comment :=
  [sample_comment "hello" 1700000000; sample_comment "" 1700000500].
Definition two_day_timeline : list timeline_entry :=
  [TimelineEntry "1970-01-01" 1 0 1 7; TimelineEntry "2023-11-15" 0 2 2 10].
Local Open Scope list_scope.

(** * Properties *)

(** ** Text helpers *)

Lemma truthy_nonempty (s : string) : Py.truthy s = true ↔ s ≠ "".
Proof. destruct s; simpl; split; (done || intros; done). Qed.

Lemma str_in_true (w : string) (s : list string) : str_in w s = true ↔ w ∈ s.
Proof.
  unfold str_in. rewrite existsb_exists. split.
  - intros (x & Hin & ->%String.eqb_eq). by apply list_elem_of_In.
  - intros Hin. exists w. split; [by apply list_elem_of_In|apply String.eqb_refl].
Qed.

Lemma str_in_false (w : string) (s : list string) : str_in w s = false ↔ w ∉ s.
Proof. rewrite <- str_in_true. by destruct (str_in w s). Qed.

(** ** Tokens are made of lower-case letters *)

Lemma keep_all_chars (p : ascii → bool) (s : string) :
  all_chars p (Py.keep p s) = true.
Proof.
  induction s as [|c r IH]; simpl; [done|].
  destruct (p c) eqn:Hc; simpl; [by rewrite Hc|done].
Qed.

Lemma lower_char_letter_or_space (c : ascii) :
  letter_or_space c = true → lower_or_space (Py.lower_char c) = true.
Proof.
  destruct c as [[] [] [] [] [] [] [] []]; vm_compute; intros H; try done.
Qed.

Lemma lower_all_chars (s : string) :
  all_chars letter_or_space s = true → all_chars lower_or_space (Py.lower s) = true.
Proof.
  induction s as [|c r IH]; simpl; [done|].
  intros [Hc Hr]%andb_true_iff.
  by rewrite lower_char_letter_or_space, IH.
Qed.

Lemma rev_app_all_chars (p : ascii → bool) (a b : string) :
  all_chars p a = true → all_chars p b = true →
  all_chars p (String.rev_app a b) = true.
Proof.
  revert b. induction a as [|c r IH]; simpl; intros b Ha Hb; [done|].
  apply andb_true_iff in Ha as [Hc Hr].
  apply IH; [done|]. simpl. by rewrite Hc, Hb.
Qed.

Lemma split_go_all_chars (cur s w : string) :
  all_chars Py.is_lower cur = true →
  all_chars lower_or_space s = true →
  w ∈ Py.split_go cur s →
  all_chars Py.is_lower w = true.
Proof.
  revert cur. induction s as [|c r IH]; simpl; intros cur Hcur Hs Hw.
  - destruct cur as [|c' cur'].
    + by apply elem_of_nil in Hw.
    + apply list_elem_of_singleton in Hw as ->.
      by apply rev_app_all_chars.
  - apply andb_true_iff in Hs as [Hc Hr].
    destruct (Py.isspace c) eqn:Hsp.
    + destruct cur as [|c' cur'].
      * by apply (IH "").
      * apply elem_of_cons in Hw as [->|Hw].
        -- by apply rev_app_all_chars.
        -- by apply (IH "").
    + apply (IH (String c cur)); [|done..].
      simpl. rewrite Hcur, andb_true_r.
      unfold lower_or_space in Hc. rewrite Hsp, orb_false_r in Hc. done.
Qed.

Lemma all_chars_has_char (p : ascii → bool) (c : ascii) (s : string) :
  all_chars p s = true → has_char c s = true → p c = true.
Proof.
  induction s as [|c' r IH]; simpl; [done|].
  intros [Hc Hr]%andb_true_iff [Heq|Hin]%orb_true_iff.
  - by apply Ascii.eqb_eq in Heq as ->.
  - by apply IH.
Qed.

Lemma words_lower_case (text w : string) :
  w ∈ words text → all_chars Py.is_lower w = true.
Proof.
  unfold words, Py.split. apply split_go_all_chars; [done|].
  apply lower_all_chars. unfold clean_text. apply keep_all_chars.
Qed.

(** ** KeywordExtractor *)

(** C10. A stop-word entry that contains an apostrophe or a space is
    never equal to a token, since tokens consist of lower-case letters
    only; so from a comment "don't" the token "dont", which is not a
    stop word although "don't" is one, survives the filter and is
    ranked. *)
Theorem quoted_and_spaced_stop_words_never_match :
  (∀ text w s : string,
     w ∈ words text → s ∈ stop_words →
     (has_char "'" s || has_char " " s) = true → w ≠ s)
  ∧ "don't" ∈ stop_words
  ∧ ("dont" ∉ stop_words)
  ∧ words "don't" = ["dont"]
  ∧ ∀ (id subreddit parent : string) (score created : Z),
      _extract_keywords [Comment id "don't" score created subreddit parent] 10
      = [Keyword "dont" 1].
Proof.
  split; [|split; [|split; [|split]]].
  - intros text w s Hw _ Hs ->.
    apply words_lower_case in Hw.
    apply orb_true_iff in Hs as [Hs|Hs];
      by apply (all_chars_has_char _ _ _ Hw) in Hs.
  - apply str_in_true. vm_compute. reflexivity.
  - apply str_in_false. vm_compute. reflexivity.
  - vm_compute. reflexivity.
  - intros. vm_compute. reflexivity.
Qed.

Lemma quoted_and_spaced_stop_words_never_match_witness :
  "dont" ≠ "don't".
Proof.
  apply (proj1 quoted_and_spaced_stop_words_never_match "don't" "dont" "don't").
  - vm_compute. left.
  - apply str_in_true. vm_compute. reflexivity.
  - vm_compute. reflexivity.
Defined.

(** C8. With no posts and the single comment "I love hiking mountains",
    the ranking is hiking then mountains, one occurrence each: "i" is
    too short, "love" is a stop word, and the two survivors keep the
    order in which they appear. *)
Theorem keywords_of_hiking_comment (id subreddit parent : string) (score created : Z) :
  _extract_keywords [Comment id "I love hiking mountains" score created subreddit parent] 10
  = [Keyword "hiking" 1; Keyword "mountains" 1]
  ∧ words "I love hiking mountains" = ["i"; "love"; "hiking"; "mountains"]
  ∧ (Py.len "i" ≤ 2)%Z
  ∧ "love" ∈ stop_words
  ∧ filtered_words ["i"; "love"; "hiking"; "mountains"] = ["hiking"; "mountains"]
  ∧ Counter.most_common 10 [("hiking", 1%Z); ("mountains", 1%Z)]
    = [("hiking", 1%Z); ("mountains", 1%Z)].
Proof.
  split; [|split; [|split; [|split; [|split]]]].
  - vm_compute. reflexivity.
  - vm_compute. reflexivity.
  - vm_compute. discriminate.
  - apply str_in_true. vm_compute. reflexivity.
  - vm_compute. reflexivity.
  - vm_compute. reflexivity.
Qed.

Lemma keyword_filter_spec (c : comment) :
  Py.truthy (comment_text c) && negb (String.eqb (comment_text c) deleted_marker)
  ↔ comment_text c ≠ "" ∧ comment_text c ≠ "[deleted]".
Proof.
  rewrite andb_True, negb_True, !Is_true_true, truthy_nonempty.
  rewrite String.eqb_eq. done.
Qed.

Lemma all_text_keyword_bodies (comments_data : list comment) :
  all_text comments_data = Py.join " " (omap keyword_body comments_data).
Proof.
  unfold all_text. f_equal.
  induction comments_data as [|c rest IH]; [done|].
  cbn [omap list_omap List.filter]. unfold keyword_body at 1.
  destruct (Py.truthy _ && negb _) eqn:Hkeep.
  - rewrite decide_True by (apply keyword_filter_spec; by rewrite Hkeep).
    cbn [map]. by rewrite IH.
  - rewrite decide_False; [done|]. rewrite <- keyword_filter_spec, Hkeep. by intros ?.
Qed.

Lemma extract_keywords_no_text (comments_data : list comment) (top_n : nat) :
  all_text comments_data = "" → _extract_keywords comments_data top_n = [].
Proof. unfold _extract_keywords. intros ->. by destruct comments_data. Qed.

(** C5, as the code has it. The keyword text joins the bodies of the
    comments whose body, untrimmed, is neither empty nor exactly the
    deletion marker; a comment with an empty body or the exact marker
    changes nothing in the ranking, while the marker padded with
    spaces is read as text and ranks the word "deleted". *)
Theorem keyword_text_takes_raw_bodies (comments_data : list comment) :
  all_text comments_data = Py.join " " (omap keyword_body comments_data)
  ∧ (∀ (before after : list comment) (c : comment) (top_n : nat),
       comments_data = before ++ c :: after →
       comment_text c = "" ∨ comment_text c = "[deleted]" →
       _extract_keywords comments_data top_n = _extract_keywords (before ++ after) top_n)
  ∧ _extract_keywords [sample_comment " [deleted] " 0] 10 = [Keyword "deleted" 1].
Proof.
  split; [apply all_text_keyword_bodies|]. split; [|vm_compute; reflexivity].
  intros before after c top_n -> Hbody.
  assert (all_text (before ++ c :: after) = all_text (before ++ after)) as Htext.
  { rewrite !all_text_keyword_bodies, !omap_app. cbn [omap list_omap].
    unfold keyword_body at 2. rewrite decide_False; [done|].
    intros [Hne Hnd]. by destruct Hbody. }
  destruct (before ++ after) as [|c' rest] eqn:Hrest.
  - apply app_eq_nil in Hrest as [-> ->]. simpl in Htext.
    by apply extract_keywords_no_text.
  - unfold _extract_keywords. rewrite Htext. by destruct before.
Qed.

Lemma keyword_text_takes_raw_bodies_witness :
  _extract_keywords [sample_comment "[deleted]" 0; sample_comment "try kayaking" 0] 10
  = _extract_keywords [sample_comment "try kayaking" 0] 10.
Proof.
  apply (proj1 (proj2 (keyword_text_takes_raw_bodies
                         [sample_comment "[deleted]" 0; sample_comment "try kayaking" 0]))
           [] [sample_comment "try kayaking" 0] (sample_comment "[deleted]" 0) 10).
  - reflexivity.
  - right. reflexivity.
Defined.

(** C5 as stated fails: a body that trims to the deletion marker is
    still read, and its word is ranked. *)
Lemma padded_marker_comment_is_ranked :
  Py.strip " [deleted] " = deleted_marker
  ∧ _extract_keywords [sample_comment " [deleted] " 0] 10 = [Keyword "deleted" 1].
Proof. split; vm_compute; reflexivity. Qed.

(** ** SentimentAggregator *)

Section Scoring.

Variable score : string → float * float.

Lemma analyze_posts_total (posts_data : list post) (sentiments : list scored) :
  analyze_posts (total_scorer score) posts_data sentiments
  = Ok (sentiments ++ omap (post_scored_item score) posts_data).
Proof.
  revert sentiments. induction posts_data as [|post rest IH]; intros sentiments; simpl.
  - by rewrite app_nil_r.
  - unfold post_scored_item at 1. simpl.
    destruct (Py.truthy (Py.strip (post_title post ++ " " ++ post_text post))) eqn:Htext.
    + apply truthy_nonempty in Htext. rewrite decide_True by done.
      unfold total_scorer at 1. simpl.
      destruct (score _) as [polarity subjectivity] eqn:Hscore.
      simpl. rewrite IH. by rewrite <- app_assoc.
    + rewrite decide_False; [apply IH|].
      intros Hne. apply truthy_nonempty in Hne. congruence.
Qed.

Lemma analyze_comments_total (comments_data : list comment) (sentiments : list scored) :
  analyze_comments (total_scorer score) comments_data sentiments
  = Ok (sentiments ++ omap (comment_scored_item score) comments_data).
Proof.
  revert sentiments. induction comments_data as [|comment rest IH]; intros sentiments; simpl.
  - by rewrite app_nil_r.
  - unfold comment_scored_item at 1. simpl.
    destruct (Py.truthy (Py.strip (comment_text comment))) eqn:Htext; simpl.
    + apply truthy_nonempty in Htext.
      destruct (String.eqb_spec (comment_text comment) deleted_marker) as [Hdel|Hdel]; simpl.
      * rewrite decide_False; [apply IH|]. intros [_ Hne]. by apply Hne.
      * rewrite decide_True by done.
        unfold total_scorer at 1. simpl.
        destruct (score _) as [polarity subjectivity] eqn:Hscore.
        simpl. rewrite IH. by rewrite <- app_assoc.
    + rewrite decide_False; [apply IH|].
      intros [Hne _]. apply truthy_nonempty in Hne. congruence.
Qed.

Lemma sentiments_of_total (posts_data : list post) (comments_data : list comment) :
  sentiments_of (total_scorer score) posts_data comments_data
  = Ok (omap (post_scored_item score) posts_data
        ++ omap (comment_scored_item score) comments_data).
Proof.
  unfold sentiments_of. rewrite analyze_posts_total. simpl.
  by rewrite analyze_comments_total.
Qed.

End Scoring.

Section Summary.

Variable round : float → Z → float.
Variable format_1f : float → string.

Lemma get_sentiment_summary_total (polarity positive negative : float) :
  ∃ line,
    _get_sentiment_summary format_1f
      (<["overall_polarity" := VFloat polarity]>
         (<["positive_ratio" := VFloat positive]>
            (<["negative_ratio" := VFloat negative]> ∅)))
    = Ok line.
Proof.
  vm_compute.
  destruct (PrimFloat.ltb _ polarity); [eauto|].
  destruct (PrimFloat.ltb polarity _); eauto.
Qed.

Lemma full_summary_distribution (v1 v2 v3 v4 v5 v6 v7 v8 : value) :
  (list_to_map [("overall_polarity", v1); ("overall_subjectivity", v2);
                ("positive_ratio", v3); ("negative_ratio", v4); ("neutral_ratio", v5);
                ("sentiment_distribution", v6); ("total_analyzed", v7);
                ("sentiment_summary", v8)] : gmap string value)
    !! "sentiment_distribution" = Some v6.
Proof. vm_compute. reflexivity. Qed.

Lemma analyze_sentiment_unscored (sentiment : string → result (float * float))
    (posts_data : list post) (comments_data : list comment) :
  sentiments_of sentiment posts_data comments_data = Ok [] →
  _analyze_sentiment sentiment round format_1f posts_data comments_data = Ok empty_sentiment.
Proof. unfold _analyze_sentiment. by intros ->. Qed.

(** C3, as the code has it. With a scorer that returns, a post yields
    a scored item exactly when title, space and body together are not
    blank, with no test for the deletion marker; a comment yields one
    exactly when its body is not blank and is not, untrimmed, the
    deletion marker.  The items come out in input order, posts first,
    and are the [sentiment_distribution] of the summary. *)
Theorem scored_items_of_content (score : string → float * float)
    (posts_data : list post) (comments_data : list comment) :
  sentiments_of (total_scorer score) posts_data comments_data
  = Ok (omap (post_scored_item score) posts_data
        ++ omap (comment_scored_item score) comments_data)
  ∧ ∃ summary,
      _analyze_sentiment (total_scorer score) round format_1f posts_data comments_data
      = Ok summary
      ∧ summary !! "sentiment_distribution"
        = Some (VList (omap (post_scored_item score) posts_data
                       ++ omap (comment_scored_item score) comments_data)).
Proof.
  split; [apply sentiments_of_total|].
  unfold _analyze_sentiment. rewrite sentiments_of_total. simpl.
  destruct (omap _ posts_data ++ omap _ comments_data) as [|item items].
  - eexists. split; [reflexivity|]. vm_compute. reflexivity.
  - match goal with
    | |- context [_get_sentiment_summary _
                    (<[_ := VFloat ?a]> (<[_ := VFloat ?b]> (<[_ := VFloat ?c]> ∅)))] =>
        destruct (get_sentiment_summary_total a b c) as [line Hline]
    end.
    rewrite Hline. simpl.
    eexists. split; [reflexivity|]. apply full_summary_distribution.
Qed.

(** C3 as stated fails: a comment whose body trims to the deletion
    marker and a post whose title and body trim to it are both
    scored. *)
Lemma marker_texts_are_scored :
  Py.strip " [deleted] " = deleted_marker
  ∧ sentiments_of flat_scorer [] [sample_comment " [deleted] " 0]
    = Ok [Scored "comment" 0 0 5 0]
  ∧ Py.strip ("" ++ " " ++ "[deleted]")%string = deleted_marker
  ∧ sentiments_of flat_scorer [sample_post "" "[deleted]"] []
    = Ok [Scored "post" 0 0 7 0].
Proof. repeat split; vm_compute; reflexivity. Qed.

(** C2, on the code. When nothing is scored the summary has zero in
    its five numeric fields and an empty distribution, and no
    [total_analyzed] key at all. *)
Theorem unscored_summary_lacks_total_analyzed (sentiment : string → result (float * float))
    (posts_data : list post) (comments_data : list comment) :
  sentiments_of sentiment posts_data comments_data = Ok [] →
  ∃ summary,
    _analyze_sentiment sentiment round format_1f posts_data comments_data = Ok summary
    ∧ summary !! "overall_polarity" = Some (VInt 0)
    ∧ summary !! "overall_subjectivity" = Some (VInt 0)
    ∧ summary !! "positive_ratio" = Some (VInt 0)
    ∧ summary !! "negative_ratio" = Some (VInt 0)
    ∧ summary !! "neutral_ratio" = Some (VInt 0)
    ∧ summary !! "sentiment_distribution" = Some (VList [])
    ∧ summary !! "total_analyzed" = None.
Proof.
  intros Hnone. exists empty_sentiment.
  split; [by apply analyze_sentiment_unscored|].
  repeat split; vm_compute; reflexivity.
Qed.

(** ** CharacterProfiler *)

Lemma analyze_character_empty_sentiment (posts_data : list post)
    (comments_data : list comment) :
  _analyze_character empty_sentiment posts_data comments_data
  = Raise (KeyError "total_analyzed").
Proof. vm_compute. reflexivity. Qed.

(** The guard does its work on a summary that carries the key. *)
Lemma analyze_character_zero_total (summary : gmap string value) (v : value)
    (posts_data : list post) (comments_data : list comment) :
  summary !! "total_analyzed" = Some v → py_eq_zero v = true →
  _analyze_character summary posts_data comments_data = Ok insufficient_profile.
Proof.
  intros Hkey Hzero. unfold _analyze_character, getitem.
  case_bool_decide; [done|]. rewrite Hkey. simpl. by rewrite Hzero.
Qed.

(** C1, on the code. When nothing is scored, the summary that
    [_analyze_sentiment] returns makes [_analyze_character] raise
    [KeyError] on [total_analyzed] instead of returning the
    insufficient-data profile. *)
Theorem character_raises_on_unscored_summary (sentiment : string → result (float * float))
    (posts_data : list post) (comments_data : list comment) :
  sentiments_of sentiment posts_data comments_data = Ok [] →
  ∃ summary,
    _analyze_sentiment sentiment round format_1f posts_data comments_data = Ok summary
    ∧ _analyze_character summary posts_data comments_data
      = Raise (KeyError "total_analyzed").
Proof.
  intros Hnone. exists empty_sentiment.
  split; [by apply analyze_sentiment_unscored|apply analyze_character_empty_sentiment].
Qed.

End Summary.

Lemma unscored_summary_lacks_total_analyzed_witness :
  ∃ summary,
    _analyze_sentiment flat_scorer plain_round plain_format [] [sample_comment "[deleted]" 0]
    = Ok summary
    ∧ summary !! "overall_polarity" = Some (VInt 0)
    ∧ summary !! "overall_subjectivity" = Some (VInt 0)
    ∧ summary !! "positive_ratio" = Some (VInt 0)
    ∧ summary !! "negative_ratio" = Some (VInt 0)
    ∧ summary !! "neutral_ratio" = Some (VInt 0)
    ∧ summary !! "sentiment_distribution" = Some (VList [])
    ∧ summary !! "total_analyzed" = None.
Proof.
  apply (unscored_summary_lacks_total_analyzed plain_round plain_format flat_scorer
           [] [sample_comment "[deleted]" 0]).
  vm_compute. reflexivity.
Defined.

Lemma character_raises_on_unscored_summary_witness :
  ∃ summary,
    _analyze_sentiment flat_scorer plain_round plain_format [] [sample_comment "[deleted]" 0]
    = Ok summary
    ∧ _analyze_character summary [] [sample_comment "[deleted]" 0]
      = Raise (KeyError "total_analyzed").
Proof.
  apply (character_raises_on_unscored_summary plain_round plain_format flat_scorer
           [] [sample_comment "[deleted]" 0]).
  vm_compute. reflexivity.
Defined.

Lemma tone_of_polarity (summary : gmap string value) (posts_data : list post)
    (comments_data : list comment) (n : Z) (polarity subjectivity : float) :
  summary !! "total_analyzed" = Some (VInt n) → n ≠ 0%Z →
  summary !! "overall_polarity" = Some (VFloat polarity) →
  summary !! "overall_subjectivity" = Some (VFloat subjectivity) →
  ∃ p, _analyze_character summary posts_data comments_data = Ok p
       ∧ head (personality_traits p)
         = Some (if PrimFloat.ltb 0.2 polarity then "Optimistic"
                 else if PrimFloat.ltb polarity (-0.2) then "Critical"
                 else "Balanced").
Proof.
  intros Htotal Hn Hpol Hsub. unfold _analyze_character, getitem.
  rewrite bool_decide_eq_false_2
    by (apply (map_size_ne_0_lookup_2 _ "total_analyzed"); eauto).
  rewrite Htotal, Hpol, Hsub. simpl.
  destruct (Z.eqb_spec n 0) as [|_]; [done|]. simpl.
  destruct (PrimFloat.ltb 0.2 polarity); simpl;
    [|destruct (PrimFloat.ltb polarity (-0.2)); simpl];
    (destruct (PrimFloat.ltb 0.6 subjectivity); simpl;
     [|destruct (PrimFloat.ltb subjectivity 0.3) eqn:Hf; simpl]);
    destruct (PrimFloat.ltb 0.7 subjectivity); simpl; rewrite ?Hf; simpl; eauto.
Qed.

(** C6, as the code has it. On a summary with a non-zero
    [total_analyzed], polarity exactly 0.3 gives the tone trait
    "Optimistic", 0.3 being above the threshold 0.2; the strict
    comparison shows at polarity exactly 0.2, which gives
    "Balanced". *)
Theorem tone_trait_at_the_boundary (summary : gmap string value) (posts_data : list post)
    (comments_data : list comment) (n : Z) (polarity subjectivity : float) :
  summary !! "total_analyzed" = Some (VInt n) → n ≠ 0%Z →
  summary !! "overall_polarity" = Some (VFloat polarity) →
  summary !! "overall_subjectivity" = Some (VFloat subjectivity) →
  ∃ p, _analyze_character summary posts_data comments_data = Ok p
       ∧ (polarity = 0.3%float → head (personality_traits p) = Some "Optimistic")
       ∧ (polarity = 0.2%float → head (personality_traits p) = Some "Balanced").
Proof.
  intros Htotal Hn Hpol Hsub.
  destruct (tone_of_polarity summary posts_data comments_data n polarity subjectivity)
    as (p & Hrun & Htone); [done..|].
  exists p. split; [done|]. rewrite Htone. split; by intros ->.
Qed.

Lemma tone_trait_at_the_boundary_witness :
  ∃ p, _analyze_character (summary_with_polarity 0.2) [] [sample_comment "hello" 0] = Ok p
       ∧ (0.2%float = 0.3%float → head (personality_traits p) = Some "Optimistic")
       ∧ (0.2%float = 0.2%float → head (personality_traits p) = Some "Balanced").
Proof.
  apply (tone_trait_at_the_boundary (summary_with_polarity 0.2) []
           [sample_comment "hello" 0] 1 0.2 0.5).
  - vm_compute. reflexivity.
  - discriminate.
  - vm_compute. reflexivity.
  - vm_compute. reflexivity.
Defined.

(** C6 as stated fails: at polarity exactly 0.3 the first trait is
    "Optimistic". *)
Lemma polarity_03_is_optimistic :
  _analyze_character (summary_with_polarity 0.3) [] [sample_comment "hello" 0]
  = Ok (Profile ["Optimistic"; "Moderate"; "Active Commenter"]
          "Balanced and Thoughtful" "Casual User" ["hiking"])
  ∧ head ["Optimistic"; "Moderate"; "Active Commenter"] ≠ Some "Balanced".
Proof. split; [vm_compute; reflexivity|discriminate]. Qed.

(** ** TimelineBuilder: totals and order *)

Section Timeline.

Variable utcoffset : Z → Z.

Local Open Scope Z_scope.

Lemma sum_by_perm {A : Type} (f : A → Z) (l k : list A) :
  l ≡ₚ k → sum_by f l = sum_by f k.
Proof. induction 1; simpl; lia. Qed.

Lemma sum_by_fmap {A B : Type} (g : A → B) (f : B → Z) (l : list A) :
  sum_by f (g <$> l) = sum_by (f ∘ g) l.
Proof. induction l as [|x l IH]; csimpl; [done|]. by rewrite IH. Qed.

Lemma field_total_empty (g : bucket → Z) : field_total g ∅ = 0.
Proof. unfold field_total. by rewrite map_to_list_empty. Qed.

Lemma field_total_insert_fresh (g : bucket → Z) (date : string) (b : bucket)
    (timeline : gmap string bucket) :
  timeline !! date = None →
  field_total g (<[date := b]> timeline) = g b + field_total g timeline.
Proof.
  intros Hnone. unfold field_total.
  by rewrite (sum_by_perm _ _ _ (map_to_list_insert timeline date b Hnone)).
Qed.

Lemma field_total_bump (g : bucket → Z) (f : bucket → bucket) (date : string)
    (timeline : gmap string bucket) :
  g (Bucket 0 0 0) = 0 →
  field_total g (bump f date timeline)
  = field_total g timeline
    + (g (f (default (Bucket 0 0 0) (timeline !! date)))
       - g (default (Bucket 0 0 0) (timeline !! date))).
Proof.
  intros Hzero. unfold bump.
  destruct (timeline !! date) as [b|] eqn:Hlook; simpl.
  - rewrite <- (insert_delete_eq timeline).
    rewrite <- (insert_delete_id timeline date b Hlook) at 2.
    rewrite !field_total_insert_fresh by apply lookup_delete_eq. lia.
  - rewrite field_total_insert_fresh by done. lia.
Qed.

Lemma bump_lookup (f : bucket → bucket) (date : string) (timeline : gmap string bucket) :
  bump f date timeline !! date = Some (f (default (Bucket 0 0 0) (timeline !! date))).
Proof. unfold bump. apply lookup_insert_eq. Qed.

(** One item filed: one field grows by one, the other count stays. *)
Lemma field_total_file (g : bucket → Z) (f : bucket → bucket) (k score : Z)
    (date : string) (timeline : gmap string bucket) :
  g (Bucket 0 0 0) = 0 →
  (∀ b, g (f b) = g b + k) →
  (∀ b, g (add_total_score score b) = g b) →
  field_total g (bump (add_total_score score) date (bump f date timeline))
  = field_total g timeline + k.
Proof.
  intros Hzero Hf Hs.
  rewrite !field_total_bump, bump_lookup by done. simpl.
  rewrite Hs, Hf. lia.
Qed.

Lemma process_posts_totals (posts_data : list post) (timeline timeline' : gmap string bucket) :
  process_posts utcoffset posts_data timeline = Ok timeline' →
  field_total bucket_posts timeline'
    = field_total bucket_posts timeline + Z.of_nat (length posts_data)
  ∧ field_total bucket_comments timeline' = field_total bucket_comments timeline.
Proof.
  revert timeline. induction posts_data as [|post rest IH]; simpl; intros timeline Hrun.
  - injection Hrun as <-. lia.
  - destruct (timeline_date utcoffset (post_created_utc post)) as [date|e];
      simpl in Hrun; [|discriminate].
    apply IH in Hrun as [-> ->].
    rewrite (field_total_file bucket_posts (add_posts 1) 1) by done.
    rewrite (field_total_file bucket_comments (add_posts 1) 0) by (done || intros; simpl; lia).
    lia.
Qed.

Lemma process_comments_totals (comments_data : list comment)
    (timeline timeline' : gmap string bucket) :
  process_comments utcoffset comments_data timeline = Ok timeline' →
  field_total bucket_comments timeline'
    = field_total bucket_comments timeline + Z.of_nat (length comments_data)
  ∧ field_total bucket_posts timeline' = field_total bucket_posts timeline.
Proof.
  revert timeline. induction comments_data as [|comment rest IH]; simpl; intros timeline Hrun.
  - injection Hrun as <-. lia.
  - destruct (timeline_date utcoffset (comment_created_utc comment)) as [date|e];
      simpl in Hrun; [|discriminate].
    apply IH in Hrun as [-> ->].
    rewrite (field_total_file bucket_comments (add_comments 1) 1) by done.
    rewrite (field_total_file bucket_posts (add_comments 1) 0) by (done || intros; simpl; lia).
    lia.
Qed.

(** The conversion succeeds on representable instants. *)
Lemma timeline_date_ok (timestamp : Z) :
  representable utcoffset timestamp → ∃ date, timeline_date utcoffset timestamp = Ok date.
Proof.
  unfold representable, timeline_date, Datetime.fromtimestamp. intros Hrange.
  set (local := timestamp + utcoffset timestamp) in *.
  assert (0 ≤ local / 86400 ≤ 2932896) as Hdays.
  { split; [apply Z.div_pos; lia|].
    apply Z.lt_succ_r, Z.div_lt_upper_bound; lia. }
  unfold Datetime.EPOCH_ORDINAL, Datetime.MAX_ORDINAL.
  destruct (Z.ltb_spec (719163 + local / 86400) 1); [lia|].
  destruct (Z.ltb_spec 3652059 (719163 + local / 86400)); [lia|].
  simpl. eauto.
Qed.

Lemma process_posts_ok (posts_data : list post) (timeline : gmap string bucket) :
  Forall (representable utcoffset) (post_created_utc <$> posts_data) →
  ∃ timeline', process_posts utcoffset posts_data timeline = Ok timeline'.
Proof.
  revert timeline. induction posts_data as [|post rest IH]; simpl; intros timeline Hall.
  - eauto.
  - apply Forall_cons in Hall as [Hpost Hrest].
    destruct (timeline_date_ok _ Hpost) as [date ->]. simpl. by apply IH.
Qed.

Lemma process_comments_ok (comments_data : list comment) (timeline : gmap string bucket) :
  Forall (representable utcoffset) (comment_created_utc <$> comments_data) →
  ∃ timeline', process_comments utcoffset comments_data timeline = Ok timeline'.
Proof.
  revert timeline. induction comments_data as [|comment rest IH]; simpl; intros timeline Hall.
  - eauto.
  - apply Forall_cons in Hall as [Hcomment Hrest].
    destruct (timeline_date_ok _ Hcomment) as [date ->]. simpl. by apply IH.
Qed.

(** *** The sorted items *)

Global Instance item_le_trans : Transitive item_le.
Proof. intros a b c. unfold item_le. apply transitivity. Qed.

Global Instance item_le_total : Total item_le.
Proof. intros a b. unfold item_le. apply total, _. Qed.

Lemma str_le_neq_lt (a b : string) : String.le a b → a ≠ b → str_lt a b.
Proof.
  unfold String.le, String.leb, str_lt. intros Hle Hne.
  destruct (a ?= b)%string eqn:Hcmp; [|done..].
  by apply String.compare_eq_iff in Hcmp.
Qed.

Lemma sorted_distinct_keys_strict (items : list (string * bucket)) :
  StronglySorted item_le items → NoDup items.*1 →
  StronglySorted (fun a b => str_lt a.1 b.1) items.
Proof.
  induction 1 as [|item items Hsorted IH Hhead]; intros Hnodup; [constructor|].
  simpl in Hnodup. apply NoDup_cons in Hnodup as [Hfresh Hnodup].
  constructor; [by apply IH|].
  apply Forall_forall. intros other Hin.
  apply str_le_neq_lt.
  - rewrite Forall_forall in Hhead. by apply Hhead.
  - intros Heq. apply Hfresh. rewrite Heq. by apply list_elem_of_fmap_2.
Qed.

End Timeline.

Lemma create_timeline_unfold (utcoffset : Z → Z) (posts_data : list post)
    (comments_data : list comment) (timeline : list timeline_entry) :
  _create_timeline utcoffset posts_data comments_data = Ok timeline →
  ∃ after_posts buckets,
    process_posts utcoffset posts_data ∅ = Ok after_posts
    ∧ process_comments utcoffset comments_data after_posts = Ok buckets
    ∧ timeline
      = (fun item : string * bucket =>
           TimelineEntry item.1 (bucket_posts item.2) (bucket_comments item.2)
             (bucket_posts item.2 + bucket_comments item.2) (bucket_total_score item.2))
        <$> merge_sort item_le (map_to_list buckets).
Proof.
  unfold _create_timeline. intros Hrun.
  destruct (process_posts utcoffset posts_data ∅) as [after_posts|e] eqn:Hposts;
    [|discriminate].
  simpl in Hrun.
  destruct (process_comments utcoffset comments_data after_posts) as [buckets|e] eqn:Hcomments;
    [|discriminate].
  simpl in Hrun. injection Hrun as <-. by eexists _, _.
Qed.

(** C7. Whatever the host zone, a timeline that [_create_timeline]
    returns accounts for every post and every comment exactly once,
    and its entries are strictly ascending by date string; and a
    timeline is returned whenever every timestamp has a representable
    local date. *)
Theorem timeline_counts_and_order (utcoffset : Z → Z) (posts_data : list post)
    (comments_data : list comment) :
  (Forall (representable utcoffset)
     ((post_created_utc <$> posts_data) ++ (comment_created_utc <$> comments_data)) →
   ∃ timeline, _create_timeline utcoffset posts_data comments_data = Ok timeline)
  ∧ ∀ timeline,
      _create_timeline utcoffset posts_data comments_data = Ok timeline →
      sum_by posts timeline = Z.of_nat (length posts_data)
      ∧ sum_by comments timeline = Z.of_nat (length comments_data)
      ∧ StronglySorted (fun a b => str_lt (date a) (date b)) timeline.
Proof.
  split.
  - intros [Hposts Hcomments]%Forall_app. unfold _create_timeline.
    destruct (process_posts_ok utcoffset posts_data ∅ Hposts) as [after_posts ->]. simpl.
    destruct (process_comments_ok utcoffset comments_data after_posts Hcomments)
      as [buckets ->]. simpl. eauto.
  - intros timeline (after_posts & buckets & Hposts & Hcomments & ->)%create_timeline_unfold.
    apply process_posts_totals in Hposts as [Hpp Hpc].
    apply process_comments_totals in Hcomments as [Hcc Hcp].
    rewrite field_total_empty in Hpp, Hpc.
    split; [|split].
    + rewrite sum_by_fmap.
      rewrite (sum_by_perm _ _ _ (merge_sort_Permutation item_le (map_to_list buckets))).
      change (field_total bucket_posts buckets = Z.of_nat (length posts_data)). lia.
    + rewrite sum_by_fmap.
      rewrite (sum_by_perm _ _ _ (merge_sort_Permutation item_le (map_to_list buckets))).
      change (field_total bucket_comments buckets = Z.of_nat (length comments_data)). lia.
    + apply (StronglySorted_fmap _ (fun a b : string * bucket => str_lt a.1 b.1)); [done|].
      apply sorted_distinct_keys_strict.
      * apply StronglySorted_merge_sort; apply _.
      * rewrite (merge_sort_Permutation item_le (map_to_list buckets)).
        apply NoDup_fst_map_to_list.
Qed.

Lemma timeline_counts_and_order_witness :
  (∃ timeline,
     _create_timeline utc_plus_2 [sample_post "Trip report" "[deleted]"]
       [sample_comment "hello" 1700000000; sample_comment "" 1700000500]
     = Ok timeline)
  ∧ sum_by posts [TimelineEntry "1970-01-01" 1 0 1 7; TimelineEntry "2023-11-15" 0 2 2 10]
    = 1%Z
  ∧ sum_by comments [TimelineEntry "1970-01-01" 1 0 1 7; TimelineEntry "2023-11-15" 0 2 2 10]
    = 2%Z
  ∧ StronglySorted (fun a b => str_lt (date a) (date b))
      [TimelineEntry "1970-01-01" 1 0 1 7; TimelineEntry "2023-11-15" 0 2 2 10].
Proof.
  split.
  - apply (proj1 (timeline_counts_and_order utc_plus_2
                    [sample_post "Trip report" "[deleted]"]
                    [sample_comment "hello" 1700000000; sample_comment "" 1700000500])).
    repeat constructor; vm_compute; congruence.
  - apply (proj2 (timeline_counts_and_order utc_plus_2
                    [sample_post "Trip report" "[deleted]"]
                    [sample_comment "hello" 1700000000; sample_comment "" 1700000500])).
    vm_compute. reflexivity.
Defined.

Lemma timeline_date_on_utc_host (timestamp : Z) :
  timeline_date host_utc timestamp
  = Datetime.strftime_ymd <$> Datetime.fromtimestamp host_utc timestamp (Some Datetime.utc).
Proof. reflexivity. Qed.

(** C4, on the code. On a host two hours east of UTC a comment made
    at 22:13:20 UTC on 2023-11-14 is filed under 2023-11-15, the local
    date, while the UTC date of that instant, computed the way
    [_get_user_info] computes dates, is 2023-11-14. *)
Theorem timeline_date_follows_host_zone :
  _create_timeline utc_plus_2 [] [sample_comment "hello" 1700000000]
  = Ok [TimelineEntry "2023-11-15" 0 1 1 5]
  ∧ Datetime.strftime_ymd <$> Datetime.fromtimestamp utc_plus_2 1700000000 (Some Datetime.utc)
    = Ok "2023-11-14".
Proof. split; vm_compute; reflexivity. Qed.

(** ** AnalysisOrchestrator *)

Section Orchestrator.

Variable sentiment : string → result (float * float).
Variable round : float → Z → float.
Variable format_1f : float → string.
Variable utcoffset : Z → Z.
Variable now : Z.

(** C9. Once the account is known to exist, an exception raised by
    any later stage (scoring, the timeline, the character profile)
    does not leave [analyze_user]: the answer is the failure record,
    [success] false, whose message ends with the text of the
    exception. *)
Theorem analyze_user_reports_stage_failures (reddit : string → result redditor)
    (username : string) (user : redditor) (created : Z) (e : exn) :
  reddit username = Ok user →
  user_created_utc user = Ok created →
  stage_raises sentiment round format_1f utcoffset
    (_get_user_content user 100).1 (_get_user_content user 100).2 e →
  analyze_user sentiment round format_1f utcoffset now (Some reddit) username
  = Failure ("Failed to analyze user: " ++ str_exn e)%string
  ∧ success (analyze_user sentiment round format_1f utcoffset now (Some reddit) username)
    = false.
Proof.
  intros Huser Hcreated Hstage.
  assert (analyze_user_body sentiment round format_1f utcoffset now reddit username = Raise e)
    as Hbody.
  { unfold analyze_user_body. rewrite Huser.
    cbn [mbind result_bind]. rewrite Hcreated.
    destruct Hstage as [Hs | (summary & Hs & [Ht | (timeline & Ht & Hc)])].
    - by rewrite Hs.
    - rewrite Hs. cbn [mbind result_bind]. by rewrite Ht.
    - rewrite Hs. cbn [mbind result_bind]. rewrite Ht. cbn [mbind result_bind].
      by rewrite Hc. }
  unfold analyze_user. by rewrite Hbody.
Qed.

End Orchestrator.

Lemma analyze_user_reports_stage_failures_witness :
  analyze_user flat_scorer plain_round plain_format host_utc 1700000000
    (Some (fun _ => Ok quiet_user)) "quiet"
  = Failure "Failed to analyze user: 'total_analyzed'"
  ∧ success (analyze_user flat_scorer plain_round plain_format host_utc 1700000000
               (Some (fun _ => Ok quiet_user)) "quiet")
    = false.
Proof.
  apply (analyze_user_reports_stage_failures flat_scorer plain_round plain_format host_utc
           1700000000 (fun _ => Ok quiet_user) "quiet" quiet_user 1600000000
           (KeyError "total_analyzed")).
  - reflexivity.
  - reflexivity.
  - right. exists empty_sentiment.
    split; [apply analyze_sentiment_unscored; vm_compute; reflexivity|].
    right. eexists. split; vm_compute; reflexivity.
Defined.

Example scorer_failure_is_reported :
  analyze_user failing_scorer plain_round plain_format host_utc 1700000000
    (Some (fun _ => Ok one_comment_user)) "talker"
  = Failure "Failed to analyze user: corpus not found".
Proof. vm_compute. reflexivity. Qed.

(** * Further properties *)

(** ** [Counter] *)

Section CounterFacts.

Implicit Types (c : list (string * Z)) (k w : string) (l : list string).

Lemma counter_get_incr_same k c :
  counter_get k (Counter.incr k c) = (counter_get k c + 1)%Z.
Proof.
  induction c as [|[k' n] r IH]; simpl.
  - by rewrite String.eqb_refl.
  - destruct (String.eqb k k') eqn:Hk; simpl; by rewrite Hk.
Qed.

Lemma counter_get_incr_other k k' c :
  k ≠ k' → counter_get k' (Counter.incr k c) = counter_get k' c.
Proof.
  intros Hne. induction c as [|[k'' n] r IH]; simpl.
  - by rewrite (proj2 (String.eqb_neq k' k)).
  - destruct (String.eqb k k'') eqn:Hk; simpl; [|by rewrite IH].
    apply String.eqb_eq in Hk as <-.
    by rewrite (proj2 (String.eqb_neq k' k)).
Qed.

Lemma incr_keys k c :
  (Counter.incr k c).*1 = if str_in k c.*1 then c.*1 else c.*1 ++ [k].
Proof.
  induction c as [|[k' n] r IH]; csimpl; [done|].
  unfold str_in in *. cbn [existsb]. destruct (String.eqb k k') eqn:Hk; csimpl; [done|].
  rewrite IH. by destruct (existsb _ _).
Qed.

Lemma incr_keys_NoDup k c : NoDup c.*1 → NoDup (Counter.incr k c).*1.
Proof.
  intros Hc. rewrite incr_keys. destruct (str_in k c.*1) eqn:Hin; [done|].
  apply NoDup_app. split; [done|]. split; [|apply NoDup_singleton].
  intros x Hx ->%list_elem_of_singleton. by apply str_in_false in Hin.
Qed.

Lemma incr_positive k c :
  Forall (fun e => (1 ≤ e.2)%Z) c → Forall (fun e => (1 ≤ e.2)%Z) (Counter.incr k c).
Proof.
  induction 1 as [|[k' n] r Hn Hr IH]; simpl.
  - constructor; [simpl; lia|constructor].
  - destruct (String.eqb k k'); constructor; simpl in *; (lia || done).
Qed.

Lemma occurrences_cons w x l :
  occurrences w (x :: l) = ((if String.eqb w x then 1 else 0) + occurrences w l)%Z.
Proof. unfold occurrences. simpl. destruct (String.eqb w x); simpl; lia. Qed.

Lemma counter_run_get w l c :
  counter_get w (fold_left (fun c k => Counter.incr k c) l c)
  = (counter_get w c + occurrences w l)%Z.
Proof.
  revert c. induction l as [|x l IH]; intros c; simpl.
  - unfold occurrences. simpl. lia.
  - rewrite IH, occurrences_cons.
    destruct (String.eqb_spec w x) as [->|Hne].
    + rewrite counter_get_incr_same. lia.
    + rewrite counter_get_incr_other by done. lia.
Qed.

Lemma counter_run_NoDup l c :
  NoDup c.*1 → NoDup (fold_left (fun c k => Counter.incr k c) l c).*1.
Proof.
  revert c. induction l as [|x l IH]; intros c Hc; simpl; [done|].
  by apply IH, incr_keys_NoDup.
Qed.

Lemma counter_run_positive l c :
  Forall (fun e => (1 ≤ e.2)%Z) c →
  Forall (fun e => (1 ≤ e.2)%Z) (fold_left (fun c k => Counter.incr k c) l c).
Proof.
  revert c. induction l as [|x l IH]; intros c Hc; simpl; [done|].
  by apply IH, incr_positive.
Qed.

Lemma counter_get_elem k n c : NoDup c.*1 → (k, n) ∈ c → counter_get k c = n.
Proof.
  induction c as [|[k' n'] r IH]; simpl; intros Hnd Hin.
  - by apply elem_of_nil in Hin.
  - apply NoDup_cons in Hnd as [Hfresh Hnd].
    apply elem_of_cons in Hin as [[= <- <-]|Hin].
    + by rewrite String.eqb_refl.
    + destruct (String.eqb_spec k k') as [->|_]; [|by apply IH].
      exfalso. apply Hfresh. by apply (list_elem_of_fmap_2 fst) in Hin.
Qed.

Lemma counter_get_zero k c : k ∉ c.*1 → counter_get k c = 0%Z.
Proof.
  induction c as [|[k' n] r IH]; simpl; [done|].
  intros Hk. apply not_elem_of_cons in Hk as [Hne Hk].
  by rewrite (proj2 (String.eqb_neq k k')), IH.
Qed.

(** A word is counted as often as it occurs. *)
Lemma counter_of_list_elem k n l :
  (k, n) ∈ Counter.of_list l → n = occurrences k l ∧ (1 ≤ n)%Z.
Proof.
  unfold Counter.of_list. intros Hin. split.
  - rewrite <- (counter_get_elem k n _ (counter_run_NoDup l [] (NoDup_nil_2)) Hin).
    by rewrite counter_run_get.
  - pose proof (counter_run_positive l [] (Forall_nil_2 _)) as Hpos.
    rewrite Forall_forall in Hpos. by apply Hpos in Hin.
Qed.

(** *** The keys come in order of first appearance *)

Lemma list_filter_filter {A} (p q : A → bool) (xs : list A) :
  List.filter p (List.filter q xs) = List.filter (fun x => q x && p x) xs.
Proof.
  induction xs as [|x xs IH]; simpl; [done|].
  destruct (q x); simpl; [destruct (p x)|]; by rewrite IH.
Qed.

Lemma list_filter_ext {A} (p q : A → bool) (xs : list A) :
  (∀ x, p x = q x) → List.filter p xs = List.filter q xs.
Proof. intros Hpq. induction xs as [|x xs IH]; simpl; [done|]. by rewrite Hpq, IH. Qed.

Lemma str_in_app w l1 l2 : str_in w (l1 ++ l2) = str_in w l1 || str_in w l2.
Proof. unfold str_in. apply existsb_app. Qed.

Lemma counter_run_keys l c :
  (fold_left (fun c k => Counter.incr k c) l c).*1
  = c.*1 ++ List.filter (fun y => negb (str_in y c.*1)) (first_appearances l).
Proof.
  revert c. induction l as [|x l IH]; intros c; simpl.
  - by rewrite app_nil_r.
  - rewrite IH, incr_keys, list_filter_filter.
    destruct (str_in x c.*1) eqn:Hx; simpl.
    + f_equal. apply list_filter_ext. intros y.
      destruct (String.eqb_spec y x) as [->|Hne]; simpl; [by rewrite Hx|done].
    + rewrite <- app_assoc. simpl. f_equal. f_equal.
      apply list_filter_ext. intros y. rewrite str_in_app. unfold str_in at 2. simpl.
      rewrite orb_false_r, negb_orb. apply andb_comm.
Qed.

Lemma counter_of_list_keys l : (Counter.of_list l).*1 = first_appearances l.
Proof.
  unfold Counter.of_list. rewrite counter_run_keys. simpl.
  induction (first_appearances l) as [|y ys IH]; simpl; [done|]. by rewrite IH.
Qed.

(** *** [most_common] is a stable descending sort, cut at [n] *)

Lemma insert_desc_perm (x : string * Z) c : Counter.insert_desc x c ≡ₚ x :: c.
Proof.
  induction c as [|y r IH]; simpl; [done|].
  destruct (x.2 <? y.2)%Z; [|done]. by rewrite IH, Permutation_swap.
Qed.

Lemma sorted_desc_perm c : Counter.sorted_desc c ≡ₚ c.
Proof.
  induction c as [|x r IH]; simpl; [done|]. by rewrite insert_desc_perm, IH.
Qed.

Lemma insert_desc_sorted (x : string * Z) c :
  StronglySorted (fun a b => (b.2 ≤ a.2)%Z) c →
  StronglySorted (fun a b => (b.2 ≤ a.2)%Z) (Counter.insert_desc x c).
Proof.
  induction 1 as [|y r Hr IH Hy]; simpl; [repeat constructor|].
  destruct (Z.ltb_spec x.2 y.2).
  - constructor; [done|]. rewrite insert_desc_perm. constructor; [lia|done].
  - constructor; [by constructor|]. constructor; [lia|].
    eapply Forall_impl; [exact Hy|]. simpl. intros; lia.
Qed.

Lemma sorted_desc_sorted c :
  StronglySorted (fun a b => (b.2 ≤ a.2)%Z) (Counter.sorted_desc c).
Proof.
  induction c as [|x r IH]; simpl; [constructor|]. by apply insert_desc_sorted.
Qed.

Lemma insert_desc_stable (n : Z) (x : string * Z) c :
  List.filter (fun e => (e.2 =? n)%Z) (Counter.insert_desc x c)
  = List.filter (fun e => (e.2 =? n)%Z) (x :: c).
Proof.
  induction c as [|y r IH]; [done|]. cbn [Counter.insert_desc].
  destruct (Z.ltb_spec x.2 y.2) as [Hlt|Hge]; [|done].
  cbn [List.filter] in *.
  destruct (Z.eqb_spec y.2 n) as [Hy|Hy]; destruct (Z.eqb_spec x.2 n) as [Hx|Hx];
    rewrite IH; (lia || done).
Qed.

Lemma sorted_desc_stable (n : Z) c :
  List.filter (fun e => (e.2 =? n)%Z) (Counter.sorted_desc c)
  = List.filter (fun e => (e.2 =? n)%Z) c.
Proof.
  induction c as [|x r IH]; [done|].
  cbn [Counter.sorted_desc foldr]. rewrite insert_desc_stable.
  cbn [List.filter]. fold (Counter.sorted_desc r). by rewrite IH.
Qed.

End CounterFacts.

(** ** Blank text yields no token *)

Lemma rstrip_empty_blank (s : string) :
  Py.rstrip s = "" → all_chars Py.isspace s = true.
Proof.
  induction s as [|c r IH]; simpl; [done|].
  destruct (Py.rstrip r) as [|c' r']; [|done].
  destruct (Py.isspace c); [|done]. intros _. by rewrite IH.
Qed.

Lemma lstrip_blank (s : string) :
  all_chars Py.isspace (Py.lstrip s) = true → all_chars Py.isspace s = true.
Proof.
  induction s as [|c r IH]; simpl; [done|].
  destruct (Py.isspace c) eqn:Hc; simpl; [done|]. by rewrite Hc.
Qed.

Lemma strip_empty_blank (s : string) :
  Py.strip s = "" → all_chars Py.isspace s = true.
Proof. unfold Py.strip. intros H. by apply lstrip_blank, rstrip_empty_blank. Qed.

Lemma blank_strip_empty (s : string) :
  all_chars Py.isspace s = true → Py.strip s = "".
Proof.
  unfold Py.strip. induction s as [|c r IH]; simpl; [done|].
  intros [Hc Hr]%andb_true_iff. rewrite Hc. by apply IH.
Qed.

Lemma sub_go_blank (m : string → option nat) (s : string) :
  (∀ c r, Py.isspace c = true → m (String c r) = None) →
  all_chars Py.isspace s = true → Py.sub_go m 0 s = s.
Proof.
  intros Hm. induction s as [|c r IH]; simpl; [done|].
  intros [Hc Hr]%andb_true_iff. by rewrite (Hm c r Hc), IH.
Qed.

Lemma match_url_space (c : ascii) (r : string) :
  Py.isspace c = true → match_url (String c r) = None.
Proof.
  destruct c as [[] [] [] [] [] [] [] []]; intros H; try discriminate H; reflexivity.
Qed.

Lemma match_mention_space (sigil c : ascii) (r : string) :
  Py.isspace sigil = false → Py.isspace c = true → match_mention sigil (String c r) = None.
Proof.
  intros Hs Hc.
  assert (Ascii.eqb c sigil = false) as Hne.
  { destruct (Ascii.eqb_spec c sigil) as [->|_]; [congruence|done]. }
  unfold match_mention. destruct r as [|c' r']; [reflexivity|].
  destruct c' as [[] [] [] [] [] [] [] []]; rewrite ?Hne; reflexivity.
Qed.

Lemma keep_all (p : ascii → bool) (s : string) :
  all_chars p s = true → Py.keep p s = s.
Proof.
  induction s as [|c r IH]; simpl; [done|].
  intros [Hc Hr]%andb_true_iff. by rewrite Hc, IH.
Qed.

Lemma all_chars_impl (p q : ascii → bool) (s : string) :
  (∀ c, p c = true → q c = true) → all_chars p s = true → all_chars q s = true.
Proof.
  intros Hpq. induction s as [|c r IH]; simpl; [done|].
  intros [Hc Hr]%andb_true_iff. by rewrite (Hpq c Hc), IH.
Qed.

Lemma lower_char_space (c : ascii) : Py.isspace c = true → Py.lower_char c = c.
Proof.
  destruct c as [[] [] [] [] [] [] [] []]; intros H; try discriminate H; reflexivity.
Qed.

Lemma lower_blank (s : string) :
  all_chars Py.isspace s = true → Py.lower s = s.
Proof.
  induction s as [|c r IH]; simpl; [done|].
  intros [Hc Hr]%andb_true_iff. by rewrite lower_char_space, IH.
Qed.

Lemma split_go_blank (s : string) :
  all_chars Py.isspace s = true → Py.split_go "" s = [].
Proof.
  induction s as [|c r IH]; simpl; [done|].
  intros [Hc Hr]%andb_true_iff. by rewrite Hc, IH.
Qed.

Lemma words_blank (text : string) :
  all_chars Py.isspace text = true → words text = [].
Proof.
  intros Hblank. unfold words, clean_text, Py.re_sub.
  rewrite (sub_go_blank match_url text match_url_space Hblank).
  rewrite (sub_go_blank _ text (fun c r => match_mention_space "u" c r eq_refl) Hblank).
  rewrite (sub_go_blank _ text (fun c r => match_mention_space "r" c r eq_refl) Hblank).
  rewrite keep_all.
  - rewrite lower_blank by done. by apply split_go_blank.
  - eapply all_chars_impl; [|done]. intros c ->. apply orb_true_r.
Qed.

(** ** KeywordExtractor: the ranking *)

(** The two early returns agree with the general path. *)
Lemma extract_keywords_ranking (comments_data : list comment) (top_n : nat) :
  _extract_keywords comments_data top_n
  = (fun wc => Keyword wc.1 wc.2)
      <$> Counter.most_common top_n (Counter.of_list (keyword_stream comments_data)).
Proof.
  unfold _extract_keywords, keyword_stream.
  destruct comments_data as [|c rest]; [by destruct top_n|].
  destruct (Py.truthy (Py.strip (all_text (c :: rest)))) eqn:Htext; [done|].
  simpl. destruct (Py.strip (all_text (c :: rest))) eqn:Hstrip; [|done].
  rewrite words_blank by by apply strip_empty_blank.
  by destruct top_n.
Qed.

Lemma occurrences_elem (w : string) (l : list string) :
  (1 ≤ occurrences w l)%Z → w ∈ l.
Proof.
  induction l as [|x l IH]; [unfold occurrences; simpl; lia|].
  rewrite occurrences_cons. destruct (String.eqb_spec w x) as [->|_].
  - intros _. left.
  - intros H. right. apply IH. lia.
Qed.

Lemma filtered_words_elem (w : string) (ws : list string) :
  w ∈ filtered_words ws →
  w ∈ ws ∧ (2 < Py.len w)%Z ∧ (w ∉ stop_words).
Proof.
  unfold filtered_words. rewrite list_elem_of_In, filter_In, <- list_elem_of_In.
  intros [Hin [Hlen Hstop]%andb_true_iff]. split; [done|]. split.
  - by apply Z.ltb_lt.
  - apply str_in_false. by destruct (str_in w stop_words).
Qed.

Lemma most_common_elem (e : string * Z) (n : nat) (c : list (string * Z)) :
  e ∈ Counter.most_common n c → e ∈ c.
Proof.
  unfold Counter.most_common. intros Hin%subseteq_take.
  by rewrite sorted_desc_perm in Hin.
Qed.

(** Every ranked entry is a token of the stream: longer than two
    characters, lower-case letters only, not a stop word, and counted
    as often as it occurs. *)
Theorem keyword_entries_are_counted_tokens (comments_data : list comment) (top_n : nat)
    (kw : keyword) :
  kw ∈ _extract_keywords comments_data top_n →
  (2 < Py.len (word kw))%Z
  ∧ (word kw ∉ stop_words)
  ∧ all_chars Py.is_lower (word kw) = true
  ∧ count kw = occurrences (word kw) (keyword_stream comments_data)
  ∧ (1 ≤ count kw)%Z.
Proof.
  rewrite extract_keywords_ranking.
  intros ([w n] & -> & Hin%most_common_elem)%list_elem_of_fmap. simpl.
  apply counter_of_list_elem in Hin as [-> Hpos].
  pose proof (occurrences_elem _ _ Hpos) as Hw.
  apply filtered_words_elem in Hw as (Hw & Hlen & Hstop).
  apply words_lower_case in Hw. done.
Qed.

Lemma keyword_entries_are_counted_tokens_witness :
  (2 < Py.len "kayaking")%Z
  ∧ ("kayaking" ∉ stop_words)
  ∧ all_chars Py.is_lower "kayaking" = true
  ∧ 2%Z = occurrences "kayaking"
            (keyword_stream [sample_comment "Kayaking!" 0; sample_comment "try kayaking" 0])
  ∧ (1 ≤ 2)%Z.
Proof.
  apply (keyword_entries_are_counted_tokens
           [sample_comment "Kayaking!" 0; sample_comment "try kayaking" 0] 10
           (Keyword "kayaking" 2)).
  vm_compute. left.
Defined.

Lemma StronglySorted_take {A} (R : relation A) (n : nat) (l : list A) :
  StronglySorted R l → StronglySorted R (take n l).
Proof.
  intros Hl. rewrite <- (take_drop n l) in Hl.
  by apply StronglySorted_app in Hl as (_ & Hl & _).
Qed.

Lemma keyword_words_keys (c : list (string * Z)) :
  word <$> ((fun wc => Keyword wc.1 wc.2) <$> c) = c.*1.
Proof. induction c as [|e c IH]; csimpl; [done|]. by rewrite IH. Qed.

(** The ranking has at most [top_n] entries, no word twice, and
    counts that never increase along it. *)
Theorem keyword_ranking_shape (comments_data : list comment) (top_n : nat) :
  (length (_extract_keywords comments_data top_n) ≤ top_n)%nat
  ∧ NoDup (word <$> _extract_keywords comments_data top_n)
  ∧ StronglySorted (fun a b => (count b ≤ count a)%Z)
      (_extract_keywords comments_data top_n).
Proof.
  rewrite extract_keywords_ranking. unfold Counter.most_common.
  split; [|split].
  - rewrite length_fmap, length_take. lia.
  - rewrite keyword_words_keys, fmap_take.
    eapply sublist_NoDup; [|apply sublist_take].
    rewrite sorted_desc_perm. unfold Counter.of_list.
    apply counter_run_NoDup. constructor.
  - apply (StronglySorted_fmap _ (fun a b : string * Z => (b.2 ≤ a.2)%Z)); [done|].
    apply StronglySorted_take, sorted_desc_sorted.
Qed.

(** Asking for fewer keywords gives the start of the longer
    ranking. *)
Theorem keyword_ranking_prefix (comments_data : list comment) (m n : nat) :
  (m ≤ n)%nat →
  _extract_keywords comments_data m = take m (_extract_keywords comments_data n).
Proof.
  intros Hmn. rewrite !extract_keywords_ranking. unfold Counter.most_common.
  rewrite <- fmap_take, take_take. by rewrite Nat.min_l.
Qed.

Lemma keyword_ranking_prefix_witness :
  _extract_keywords [sample_comment "kayaking mountains kayaking" 0] 1
  = take 1 (_extract_keywords [sample_comment "kayaking mountains kayaking" 0] 10).
Proof.
  apply (keyword_ranking_prefix [sample_comment "kayaking mountains kayaking" 0] 1 10). lia.
Defined.

Lemma counter_items_by_key (f : string → Z) (c : list (string * Z)) :
  (∀ e, e ∈ c → e.2 = f e.1) → c = (fun k => (k, f k)) <$> c.*1.
Proof.
  induction c as [|[k n] r IH]; csimpl; intros Hf; [done|].
  rewrite <- IH by (intros e He; apply Hf; by right).
  pose proof (Hf (k, n) (list_elem_of_here _ _)) as Hk. simpl in Hk. by rewrite Hk.
Qed.

Lemma counter_of_list_items (l : list string) :
  Counter.of_list l = (fun w => (w, occurrences w l)) <$> first_appearances l.
Proof.
  rewrite <- counter_of_list_keys. apply counter_items_by_key.
  intros [k n] Hin. by apply counter_of_list_elem in Hin as [-> _].
Qed.

Lemma list_filter_fmap {A B} (f : A → B) (p : B → bool) (xs : list A) :
  List.filter p (f <$> xs) = f <$> List.filter (fun x => p (f x)) xs.
Proof.
  induction xs as [|x xs IH]; csimpl; [done|].
  destruct (p (f x)); csimpl; by rewrite IH.
Qed.

Lemma first_appearances_length (l : list string) :
  (length (first_appearances l) ≤ length l)%nat.
Proof.
  induction l as [|x l IH]; simpl; [done|].
  pose proof (filter_length_le (fun y => negb (String.eqb y x)) (first_appearances l)). lia.
Qed.

Lemma most_common_all (n : nat) (l : list string) :
  (length (first_appearances l) ≤ n)%nat →
  Counter.most_common n (Counter.of_list l) = Counter.sorted_desc (Counter.of_list l).
Proof.
  intros Hn. unfold Counter.most_common. apply take_ge.
  rewrite sorted_desc_perm. rewrite <- (length_fmap fst), counter_of_list_keys. done.
Qed.

(** With room for every distinct word, the words that share a count
    are ranked in the order in which they first appear in the
    stream. *)
Theorem keyword_ties_keep_first_appearance (comments_data : list comment) (top_n : nat)
    (k : Z) :
  (length (first_appearances (keyword_stream comments_data)) ≤ top_n)%nat →
  word <$> List.filter (fun kw => (count kw =? k)%Z) (_extract_keywords comments_data top_n)
  = List.filter (fun w => (occurrences w (keyword_stream comments_data) =? k)%Z)
      (first_appearances (keyword_stream comments_data)).
Proof.
  intros Hroom. rewrite extract_keywords_ranking, most_common_all by done.
  rewrite list_filter_fmap, keyword_words_keys. simpl.
  rewrite sorted_desc_stable, counter_of_list_items, list_filter_fmap. simpl.
  rewrite <- list_fmap_compose. apply list_fmap_id.
Qed.

Lemma keyword_ties_keep_first_appearance_witness :
  word <$> List.filter (fun kw => (count kw =? 1)%Z)
             (_extract_keywords
                [sample_comment "rivers kayaking mountains kayaking glaciers" 0] 10)
  = List.filter
      (fun w => (occurrences w
                   (keyword_stream
                      [sample_comment "rivers kayaking mountains kayaking glaciers" 0])
                 =? 1)%Z)
      (first_appearances
         (keyword_stream [sample_comment "rivers kayaking mountains kayaking glaciers" 0])).
Proof.
  apply (keyword_ties_keep_first_appearance
           [sample_comment "rivers kayaking mountains kayaking glaciers" 0] 10 1).
  vm_compute. lia.
Defined.

Lemma sum_by_incr (k : string) (c : list (string * Z)) :
  sum_by snd (Counter.incr k c) = (sum_by snd c + 1)%Z.
Proof.
  induction c as [|[k' n] r IH]; simpl; [done|].
  destruct (String.eqb k k'); simpl; [lia|]. rewrite IH. lia.
Qed.

Lemma sum_by_counter_run (l : list string) (c : list (string * Z)) :
  sum_by snd (fold_left (fun c k => Counter.incr k c) l c)
  = (sum_by snd c + Z.of_nat (length l))%Z.
Proof.
  revert c. induction l as [|x l IH]; intros c; simpl; [lia|].
  rewrite IH, sum_by_incr. lia.
Qed.

Lemma sum_by_take_le {A} (f : A → Z) (n : nat) (l : list A) :
  Forall (fun x => (0 ≤ f x)%Z) l → (sum_by f (take n l) ≤ sum_by f l)%Z.
Proof.
  intros Hl. revert n. induction Hl as [|x l Hx Hl IH]; intros [|n]; simpl; try lia.
  - assert (0 ≤ sum_by f l)%Z; [|lia].
    clear IH. induction Hl; simpl; lia.
  - specialize (IH n). lia.
Qed.

(** The counts of the ranking never add up to more than the number of
    tokens; with room for every distinct word they add up to exactly
    that, and every token of the stream is ranked. *)
Theorem keyword_counts_cover_stream (comments_data : list comment) (top_n : nat) :
  (sum_by count (_extract_keywords comments_data top_n)
   ≤ Z.of_nat (length (keyword_stream comments_data)))%Z
  ∧ ((length (first_appearances (keyword_stream comments_data)) ≤ top_n)%nat →
     sum_by count (_extract_keywords comments_data top_n)
     = Z.of_nat (length (keyword_stream comments_data))
     ∧ ∀ w, w ∈ keyword_stream comments_data →
            w ∈ word <$> _extract_keywords comments_data top_n).
Proof.
  rewrite extract_keywords_ranking.
  set (stream := keyword_stream comments_data).
  assert (sum_by snd (Counter.sorted_desc (Counter.of_list stream))
          = Z.of_nat (length stream)) as Htotal.
  { rewrite (sum_by_perm _ _ _ (sorted_desc_perm _)).
    unfold Counter.of_list. by rewrite sum_by_counter_run. }
  split.
  - rewrite sum_by_fmap. simpl. rewrite <- Htotal. unfold Counter.most_common.
    apply sum_by_take_le. rewrite sorted_desc_perm.
    eapply Forall_impl; [apply (counter_run_positive stream []); constructor|].
    simpl. intros; lia.
  - intros Hroom. rewrite most_common_all by done. split.
    + by rewrite sum_by_fmap.
    + intros w Hw. rewrite keyword_words_keys, sorted_desc_perm, counter_of_list_keys.
      clear -Hw. induction stream as [|x l IH]; [by apply elem_of_nil in Hw|].
      simpl. destruct (String.eqb_spec w x) as [->|Hne]; [left|right].
      apply elem_of_cons in Hw as [->|Hw]; [done|].
      apply list_elem_of_In, filter_In. split; [by apply list_elem_of_In, IH|].
      by rewrite (proj2 (String.eqb_neq w x)).
Qed.

Lemma keyword_counts_cover_stream_witness :
  sum_by count (_extract_keywords [sample_comment "kayaking mountains kayaking" 0] 10)
  = Z.of_nat (length (keyword_stream [sample_comment "kayaking mountains kayaking" 0]))
  ∧ ∀ w, w ∈ keyword_stream [sample_comment "kayaking mountains kayaking" 0] →
         w ∈ word <$> _extract_keywords [sample_comment "kayaking mountains kayaking" 0] 10.
Proof.
  apply (proj2 (keyword_counts_cover_stream
                  [sample_comment "kayaking mountains kayaking" 0] 10)).
  vm_compute. lia.
Defined.

Lemma all_chars_app (p : ascii → bool) (a b : string) :
  all_chars p (a ++ b)%string = all_chars p a && all_chars p b.
Proof. induction a as [|c r IH]; simpl; [done|]. by rewrite IH, andb_assoc. Qed.

Lemma join_blank (l : list string) :
  Forall (fun s => all_chars Py.isspace s = true) l →
  all_chars Py.isspace (Py.join " " l) = true.
Proof.
  induction 1 as [|s l Hs Hl IH]; [done|].
  destruct l as [|s' l']; [done|].
  change (Py.join " " (s :: s' :: l')) with (s ++ " " ++ Py.join " " (s' :: l'))%string.
  by rewrite !all_chars_app, Hs, IH.
Qed.

(** Comments that are blank, or exactly the deletion marker, give an
    empty ranking, whatever their number. *)
Theorem keywords_of_blank_or_deleted_comments (comments_data : list comment)
    (top_n : nat) :
  (∀ c, c ∈ comments_data →
        Py.strip (comment_text c) = "" ∨ comment_text c = "[deleted]") →
  _extract_keywords comments_data top_n = [].
Proof.
  intros Hall. rewrite extract_keywords_ranking. unfold keyword_stream.
  rewrite words_blank; [by destruct top_n|].
  rewrite all_text_keyword_bodies. apply join_blank.
  apply Forall_forall. intros body (c & Hc & Hbody)%list_elem_of_omap.
  unfold keyword_body in Hbody. case_decide as Hkeep; [|done].
  injection Hbody as <-. destruct (Hall c Hc) as [Hblank|Hdel].
  - by apply strip_empty_blank.
  - by destruct Hkeep.
Qed.

Lemma keywords_of_blank_or_deleted_comments_witness :
  _extract_keywords [sample_comment "[deleted]" 0; sample_comment "   " 0;
                     sample_comment "" 0] 10 = [].
Proof.
  apply (keywords_of_blank_or_deleted_comments
           [sample_comment "[deleted]" 0; sample_comment "   " 0; sample_comment "" 0] 10).
  intros c Hc. repeat (apply elem_of_cons in Hc as [->|Hc]);
    [right; reflexivity|left; reflexivity|left; reflexivity|by apply elem_of_nil in Hc].
Defined.

(** ** SentimentAggregator: what the summary holds *)

Section SummaryFacts.

Variable sentiment : string → result (float * float).
Variable round : float → Z → float.
Variable format_1f : float → string.

Lemma full_summary_lookups (v1 v2 v3 v4 v5 v6 v7 v8 : value) :
  let summary : gmap string value :=
    list_to_map [("overall_polarity", v1); ("overall_subjectivity", v2);
                 ("positive_ratio", v3); ("negative_ratio", v4); ("neutral_ratio", v5);
                 ("sentiment_distribution", v6); ("total_analyzed", v7);
                 ("sentiment_summary", v8)] in
  summary !! "overall_polarity" = Some v1
  ∧ summary !! "overall_subjectivity" = Some v2
  ∧ summary !! "total_analyzed" = Some v7
  ∧ summary !! "sentiment_summary" = Some v8
  ∧ size summary = 8.
Proof. repeat split; vm_compute; reflexivity. Qed.

(** What a returned summary is made of. *)
Lemma analyze_sentiment_inv (posts_data : list post) (comments_data : list comment)
    (summary : gmap string value) :
  _analyze_sentiment sentiment round format_1f posts_data comments_data = Ok summary →
  ∃ items,
    sentiments_of sentiment posts_data comments_data = Ok items
    ∧ ((items = [] ∧ summary = empty_sentiment)
       ∨ (items ≠ []
          ∧ ∃ polarity subjectivity positive negative neutral line,
              summary
              = list_to_map [("overall_polarity", VFloat polarity);
                             ("overall_subjectivity", VFloat subjectivity);
                             ("positive_ratio", VFloat positive);
                             ("negative_ratio", VFloat negative);
                             ("neutral_ratio", VFloat neutral);
                             ("sentiment_distribution", VList items);
                             ("total_analyzed", VInt (Z.of_nat (length items)));
                             ("sentiment_summary", VStr line)])).
Proof.
  unfold _analyze_sentiment. intros Hrun.
  destruct (sentiments_of sentiment posts_data comments_data) as [items|e] eqn:Hitems;
    [|discriminate].
  exists items. split; [done|]. cbn [mbind result_bind] in Hrun.
  destruct items as [|item items]; [left; split; [done|congruence]|].
  right. split; [done|].
  simpl in Hrun.
  match type of Hrun with
  | context [_get_sentiment_summary _
               (<[_ := VFloat ?a]> (<[_ := VFloat ?b]> (<[_ := VFloat ?c]> ∅)))] =>
      destruct (get_sentiment_summary_total format_1f a b c) as [line Hline]
  end.
  rewrite Hline in Hrun. simpl in Hrun. injection Hrun as <-.
  by eexists _, _, _, _, _, _.
Qed.

Lemma analyze_sentiment_raise_inv (posts_data : list post) (comments_data : list comment)
    (e : exn) :
  _analyze_sentiment sentiment round format_1f posts_data comments_data = Raise e →
  sentiments_of sentiment posts_data comments_data = Raise e.
Proof.
  unfold _analyze_sentiment. intros Hrun.
  destruct (sentiments_of sentiment posts_data comments_data) as [items|e'] eqn:Hitems;
    [|cbn [mbind result_bind] in Hrun; congruence].
  exfalso. cbn [mbind result_bind] in Hrun.
  destruct items as [|item items]; [discriminate|].
  simpl in Hrun.
  match type of Hrun with
  | context [_get_sentiment_summary _
               (<[_ := VFloat ?a]> (<[_ := VFloat ?b]> (<[_ := VFloat ?c]> ∅)))] =>
      destruct (get_sentiment_summary_total format_1f a b c) as [line Hline]
  end.
  rewrite Hline in Hrun. discriminate.
Qed.

Lemma analyze_posts_length (posts_data : list post) (acc items : list scored) :
  analyze_posts sentiment posts_data acc = Ok items →
  (length acc ≤ length items ≤ length acc + length posts_data)%nat.
Proof.
  revert acc. induction posts_data as [|post rest IH]; simpl; intros acc Hrun.
  - injection Hrun as <-. lia.
  - destruct (Py.truthy _).
    + destruct (sentiment _) as [[polarity subjectivity]|e]; [|discriminate].
      simpl in Hrun. apply IH in Hrun. rewrite length_app in Hrun. simpl in Hrun. lia.
    + apply IH in Hrun. lia.
Qed.

Lemma analyze_comments_length (comments_data : list comment) (acc items : list scored) :
  analyze_comments sentiment comments_data acc = Ok items →
  (length acc ≤ length items ≤ length acc + length comments_data)%nat.
Proof.
  revert acc. induction comments_data as [|comment rest IH]; simpl; intros acc Hrun.
  - injection Hrun as <-. lia.
  - destruct (Py.truthy _ && negb _).
    + destruct (sentiment _) as [[polarity subjectivity]|e]; [|discriminate].
      simpl in Hrun. apply IH in Hrun. rewrite length_app in Hrun. simpl in Hrun. lia.
    + apply IH in Hrun. lia.
Qed.

Lemma sentiments_of_length (posts_data : list post) (comments_data : list comment)
    (items : list scored) :
  sentiments_of sentiment posts_data comments_data = Ok items →
  (length items ≤ length posts_data + length comments_data)%nat.
Proof.
  unfold sentiments_of. intros Hrun.
  destruct (analyze_posts sentiment posts_data []) as [after|e] eqn:Hposts; [|discriminate].
  apply analyze_posts_length in Hposts. apply analyze_comments_length in Hrun.
  simpl in *. lia.
Qed.

(** A returned summary lists the scored items it was computed from;
    when there is at least one, [total_analyzed] is their number, which
    is at most the number of posts and comments, and all eight keys
    are there. *)
Theorem summary_counts_scored_items (posts_data : list post)
    (comments_data : list comment) (summary : gmap string value) :
  _analyze_sentiment sentiment round format_1f posts_data comments_data = Ok summary →
  ∃ items,
    sentiments_of sentiment posts_data comments_data = Ok items
    ∧ summary !! "sentiment_distribution" = Some (VList items)
    ∧ (length items ≤ length posts_data + length comments_data)%nat
    ∧ (items ≠ [] →
       summary !! "total_analyzed" = Some (VInt (Z.of_nat (length items)))
       ∧ size summary = 8).
Proof.
  intros (items & Hitems & Hcases)%analyze_sentiment_inv.
  exists items. split; [done|].
  pose proof (sentiments_of_length _ _ _ Hitems) as Hlen.
  destruct Hcases as [[-> ->]|(Hne & p & s & pos & neg & neu & line & ->)].
  - split; [by vm_compute|]. split; [done|]. by intros [].
  - split; [apply full_summary_distribution|]. split; [done|]. intros _.
    split; apply full_summary_lookups.
Qed.

End SummaryFacts.

Lemma summary_counts_scored_items_witness :
  ∃ items,
    sentiments_of flat_scorer [sample_post "Trip report" "[deleted]"]
      [sample_comment "hello" 0; sample_comment "[deleted]" 0] = Ok items
    ∧ two_item_summary !! "sentiment_distribution" = Some (VList items)
    ∧ (length items ≤ 1 + 2)%nat
    ∧ (items ≠ [] →
       two_item_summary !! "total_analyzed" = Some (VInt (Z.of_nat (length items)))
       ∧ size two_item_summary = 8).
Proof.
  apply (summary_counts_scored_items flat_scorer plain_round plain_format
           [sample_post "Trip report" "[deleted]"]
           [sample_comment "hello" 0; sample_comment "[deleted]" 0]).
  unfold _analyze_sentiment.
  replace (sentiments_of flat_scorer [sample_post "Trip report" "[deleted]"]
             [sample_comment "hello" 0; sample_comment "[deleted]" 0])
    with (Ok [Scored "post" 0 0 7 0; Scored "comment" 0 0 5 0] : result (list scored))
    by (vm_compute; reflexivity).
  cbn [mbind result_bind].
  replace (_get_sentiment_summary plain_format _)
    with (Ok "Balanced perspective (0.0% positive, 0.0% negative)" : result string)
    by (vm_compute; reflexivity).
  reflexivity.
Defined.

(** ** SentimentAggregator: when the scorer is asked *)

Lemma has_char_app (c : ascii) (a b : string) :
  has_char c (a ++ b)%string = has_char c a || has_char c b.
Proof. induction a as [|c' r IH]; simpl; [done|]. by rewrite IH, orb_assoc. Qed.

Lemma post_text_not_marker (title body : string) :
  (title ++ " " ++ body)%string ≠ "[deleted]".
Proof.
  intros Heq. assert (has_char " " (title ++ " " ++ body)%string = true) as Hsp.
  { rewrite !has_char_app. simpl. apply orb_true_r. }
  rewrite Heq in Hsp. discriminate.
Qed.

Section ScorerCalls.

Variable round : float → Z → float.
Variable format_1f : float → string.

Lemma analyze_posts_agree (s1 s2 : string → result (float * float))
    (posts_data : list post) (acc : list scored) :
  (∀ text, Py.strip text ≠ "" → text ≠ "[deleted]" → s1 text = s2 text) →
  analyze_posts s1 posts_data acc = analyze_posts s2 posts_data acc.
Proof.
  intros Hagree. revert acc. induction posts_data as [|post rest IH]; intros acc; simpl.
  - done.
  - destruct (Py.truthy _) eqn:Htext; [|apply IH].
    apply truthy_nonempty in Htext.
    rewrite (Hagree _ Htext (post_text_not_marker _ _)).
    destruct (s2 _) as [[polarity subjectivity]|e]; simpl; [apply IH|done].
Qed.

Lemma analyze_comments_agree (s1 s2 : string → result (float * float))
    (comments_data : list comment) (acc : list scored) :
  (∀ text, Py.strip text ≠ "" → text ≠ "[deleted]" → s1 text = s2 text) →
  analyze_comments s1 comments_data acc = analyze_comments s2 comments_data acc.
Proof.
  intros Hagree. revert acc.
  induction comments_data as [|comment rest IH]; intros acc; simpl.
  - done.
  - destruct (Py.truthy _) eqn:Htext; simpl; [|apply IH].
    apply truthy_nonempty in Htext.
    destruct (String.eqb_spec (comment_text comment) deleted_marker) as [Hdel|Hdel];
      simpl; [apply IH|].
    rewrite (Hagree _ Htext Hdel).
    destruct (s2 _) as [[polarity subjectivity]|e]; simpl; [apply IH|done].
Qed.

(** The scorer is only ever asked about text that is not blank and is
    not the bare deletion marker: two scorers that agree on such text
    give the same summary, or the same exception. *)
Theorem scorer_sees_only_analyzable_text (s1 s2 : string → result (float * float))
    (posts_data : list post) (comments_data : list comment) :
  (∀ text, Py.strip text ≠ "" → text ≠ "[deleted]" → s1 text = s2 text) →
  _analyze_sentiment s1 round format_1f posts_data comments_data
  = _analyze_sentiment s2 round format_1f posts_data comments_data.
Proof.
  intros Hagree. unfold _analyze_sentiment, sentiments_of.
  rewrite (analyze_posts_agree s1 s2) by done.
  destruct (analyze_posts s2 posts_data []) as [after|e]; [|done].
  cbn [mbind result_bind]. by rewrite (analyze_comments_agree s1 s2).
Qed.

Lemma analyze_posts_raise (sentiment : string → result (float * float))
    (posts_data : list post) (acc : list scored) (e : exn) :
  analyze_posts sentiment posts_data acc = Raise e →
  ∃ post, post ∈ posts_data
          ∧ Py.strip (post_title post ++ " " ++ post_text post)%string ≠ ""
          ∧ sentiment (post_title post ++ " " ++ post_text post)%string = Raise e.
Proof.
  revert acc. induction posts_data as [|post rest IH]; simpl; intros acc Hrun; [done|].
  destruct (Py.truthy _) eqn:Htext.
  - apply truthy_nonempty in Htext.
    destruct (sentiment _) as [[polarity subjectivity]|e'] eqn:Hscore.
    + simpl in Hrun. apply IH in Hrun as (p & Hp & Hrest). exists p. split; [by right|done].
    + simpl in Hrun. injection Hrun as ->. exists post. split; [left|done].
  - apply IH in Hrun as (p & Hp & Hrest). exists p. split; [by right|done].
Qed.

Lemma analyze_comments_raise (sentiment : string → result (float * float))
    (comments_data : list comment) (acc : list scored) (e : exn) :
  analyze_comments sentiment comments_data acc = Raise e →
  ∃ comment, comment ∈ comments_data
             ∧ Py.strip (comment_text comment) ≠ ""
             ∧ comment_text comment ≠ "[deleted]"
             ∧ sentiment (comment_text comment) = Raise e.
Proof.
  revert acc. induction comments_data as [|comment rest IH]; simpl; intros acc Hrun;
    [done|].
  destruct (Py.truthy _) eqn:Htext; simpl in Hrun.
  - apply truthy_nonempty in Htext.
    destruct (String.eqb_spec (comment_text comment) deleted_marker) as [Hdel|Hdel];
      simpl in Hrun.
    + apply IH in Hrun as (c & Hc & Hrest). exists c. split; [by right|done].
    + destruct (sentiment _) as [[polarity subjectivity]|e'] eqn:Hscore.
      * simpl in Hrun. apply IH in Hrun as (c & Hc & Hrest).
        exists c. split; [by right|done].
      * simpl in Hrun. injection Hrun as ->. exists comment. split; [left|done].
  - apply IH in Hrun as (c & Hc & Hrest). exists c. split; [by right|done].
Qed.

(** [_analyze_sentiment] raises nothing of its own: an exception that
    leaves it was raised by the scorer on the text of one of the
    posts or comments, and that text was not blank. *)
Theorem sentiment_failures_come_from_the_scorer
    (sentiment : string → result (float * float))
    (posts_data : list post) (comments_data : list comment) (e : exn) :
  _analyze_sentiment sentiment round format_1f posts_data comments_data = Raise e →
  ∃ text, text ∈ analyzable_texts posts_data comments_data
          ∧ Py.strip text ≠ ""
          ∧ sentiment text = Raise e.
Proof.
  intros Hrun%analyze_sentiment_raise_inv. unfold sentiments_of in Hrun.
  unfold analyzable_texts.
  destruct (analyze_posts sentiment posts_data []) as [after|e'] eqn:Hposts.
  - cbn [mbind result_bind] in Hrun.
    apply analyze_comments_raise in Hrun as (c & Hc & Hne & _ & Hscore).
    exists (comment_text c). split; [|done].
    apply elem_of_app. right. by apply (list_elem_of_fmap_2 comment_text).
  - cbn [mbind result_bind] in Hrun. injection Hrun as ->.
    apply analyze_posts_raise in Hposts as (p & Hp & Hne & Hscore).
    exists (post_title p ++ " " ++ post_text p)%string. split; [|done].
    apply elem_of_app. left.
    by apply (list_elem_of_fmap_2 (fun p => post_title p ++ " " ++ post_text p)%string).
Qed.

End ScorerCalls.

Lemma scorer_sees_only_analyzable_text_witness :
  _analyze_sentiment flat_scorer plain_round plain_format
    [sample_post "Trip report" ""] [sample_comment "[deleted]" 0]
  = _analyze_sentiment
      (fun text => if String.eqb text "[deleted]" then Raise (OtherError "asked")
                   else flat_scorer text)
      plain_round plain_format
      [sample_post "Trip report" ""] [sample_comment "[deleted]" 0].
Proof.
  apply (scorer_sees_only_analyzable_text plain_round plain_format flat_scorer
           (fun text => if String.eqb text "[deleted]" then Raise (OtherError "asked")
                        else flat_scorer text)).
  intros text _ Hdel. by rewrite (proj2 (String.eqb_neq _ _) Hdel).
Defined.

Lemma sentiment_failures_come_from_the_scorer_witness :
  ∃ text, text ∈ analyzable_texts [] [sample_comment "hello" 0]
          ∧ Py.strip text ≠ ""
          ∧ failing_scorer text = Raise (OtherError "corpus not found").
Proof.
  apply (sentiment_failures_come_from_the_scorer plain_round plain_format failing_scorer
           [] [sample_comment "hello" 0] (OtherError "corpus not found")).
  vm_compute. reflexivity.
Defined.

(** ** CharacterProfiler: the profile of a scored account *)

Section ProfileFacts.

Implicit Types (summary : gmap string value) (posts_data : list post)
  (comments_data : list comment).

(** The profile computed past the guard, from numeric readings. *)
Lemma analyze_character_numeric (polarity subjectivity : float) posts_data comments_data :
  ∃ p,
    (optimistic ← Ok (PrimFloat.ltb 0.2 polarity);
     tone ← (if (optimistic : bool) then Ok "Optimistic"
             else critical ← Ok (PrimFloat.ltb polarity (-0.2));
                  Ok (if (critical : bool) then "Critical" else "Balanced"));
     opinionated ← Ok (PrimFloat.ltb 0.6 subjectivity);
     style ← (if (opinionated : bool) then Ok "Opinionated"
              else factual ← Ok (PrimFloat.ltb subjectivity 0.3);
                   Ok (if (factual : bool) then "Factual" else "Moderate"));
     expressive ← Ok (PrimFloat.ltb 0.7 subjectivity);
     communication_style ←
       (if (expressive : bool) then Ok "Expressive and Personal"
        else objective ← Ok (PrimFloat.ltb subjectivity 0.3);
             Ok (if (objective : bool) then "Objective and Factual"
                 else "Balanced and Thoughtful"));
     Ok (Profile ([tone; style] ++ activity_trait posts_data comments_data) communication_style
           (engagement_of posts_data comments_data)
           (Counter.most_common 5
              (Counter.of_list (communities posts_data comments_data))).*1))
    = Ok p
    ∧ computed_profile posts_data comments_data p.
Proof.
  cbn [mbind result_bind].
  repeat (cbn [mbind result_bind];
          match goal with
          | |- context [if PrimFloat.ltb ?a ?b then _ else _] =>
              destruct (PrimFloat.ltb a b)
          end);
    cbn [mbind result_bind];
    eexists; (split; [reflexivity|]); eexists _, _, _; (split; [reflexivity|]);
    repeat split; apply list_elem_of_In; simpl; auto 10.
Qed.

(** Whatever [_analyze_character] returns is the insufficient-data
    profile or a computed one. *)
Lemma analyze_character_inv summary posts_data comments_data (p : profile) :
  _analyze_character summary posts_data comments_data = Ok p →
  p = insufficient_profile ∨ computed_profile posts_data comments_data p.
Proof.
  unfold _analyze_character, getitem. intros Hrun.
  case_bool_decide; [left; cbn in Hrun; congruence|].
  destruct (summary !! "total_analyzed") as [total|]; [|discriminate].
  cbn [fmap result_fmap mbind result_bind] in Hrun.
  destruct (py_eq_zero total); [left; congruence|].
  destruct (summary !! "overall_polarity") as [vp|]; [|discriminate].
  destruct (summary !! "overall_subjectivity") as [vs|]; [|discriminate].
  cbn [mbind result_bind] in Hrun. right.
  unfold py_gt, py_lt in Hrun.
  destruct (as_number ">" vp) as [polarity|] eqn:Hp; [|discriminate].
  assert (as_number "<" vp = Ok polarity) as Hp' by (destruct vp; simpl in *; congruence).
  rewrite Hp' in Hrun.
  destruct (as_number ">" vs) as [subjectivity|] eqn:Hs.
  - assert (as_number "<" vs = Ok subjectivity) as Hs'
      by (destruct vs; simpl in *; congruence).
    rewrite Hs' in Hrun.
    destruct (analyze_character_numeric polarity subjectivity posts_data comments_data)
      as (p' & Hp'' & Hcomputed).
    assert (Ok p' = Ok p) as Heq by exact (eq_trans (eq_sym Hp'') Hrun).
    by injection Heq as <-.
  - exfalso. cbn [mbind result_bind] in Hrun.
    destruct (PrimFloat.ltb 0.2 polarity); cbn [mbind result_bind] in Hrun;
      [discriminate|].
    destruct (PrimFloat.ltb polarity (-0.2)); discriminate.
Qed.

(** And a summary with a non-zero total and numeric readings gets a
    computed profile. *)
Lemma analyze_character_run summary posts_data comments_data (total : value)
    (polarity subjectivity : float) :
  summary !! "total_analyzed" = Some total → py_eq_zero total = false →
  summary !! "overall_polarity" = Some (VFloat polarity) →
  summary !! "overall_subjectivity" = Some (VFloat subjectivity) →
  ∃ p, _analyze_character summary posts_data comments_data = Ok p
       ∧ computed_profile posts_data comments_data p.
Proof.
  intros Htotal Hnonzero Hpol Hsub.
  destruct (analyze_character_numeric polarity subjectivity posts_data comments_data)
    as (p & Hp & Hcomputed).
  exists p. split; [|done].
  unfold _analyze_character, getitem.
  rewrite bool_decide_eq_false_2
    by (apply (map_size_ne_0_lookup_2 _ "total_analyzed"); eauto).
  rewrite Htotal, Hpol, Hsub. cbn [fmap result_fmap mbind result_bind].
  rewrite Hnonzero. unfold py_gt, py_lt, as_number.
  cbn [mbind result_bind] in *. exact Hp.
Qed.

End ProfileFacts.

Section ProfileProperties.

Implicit Types (summary : gmap string value) (posts_data : list post)
  (comments_data : list comment).

(** A returned profile is the insufficient-data one or has two or
    three traits.  The third is "Content Creator" exactly when the
    posts outnumber the comments, "Active Commenter" exactly when the
    comments are more than three times the posts, and there is none
    in between. *)
Theorem profile_activity_trait summary posts_data comments_data (p : profile) :
  _analyze_character summary posts_data comments_data = Ok p →
  p = insufficient_profile
  ∨ ((2 ≤ length (personality_traits p) ≤ 3)%nat
     ∧ ("Content Creator" ∈ personality_traits p
        ↔ (length comments_data < length posts_data)%nat)
     ∧ ("Active Commenter" ∈ personality_traits p
        ↔ (3 * length posts_data < length comments_data)%nat)
     ∧ (length (personality_traits p) = 2%nat
        ↔ (length posts_data ≤ length comments_data ≤ 3 * length posts_data)%nat)).
Proof.
  intros [->|(tone & style & communication & -> & Htone & Hstyle & _)]%analyze_character_inv;
    [by left|right].
  cbn [personality_traits]. unfold activity_trait.
  assert (tone ≠ "Content Creator" ∧ tone ≠ "Active Commenter"
          ∧ style ≠ "Content Creator" ∧ style ≠ "Active Commenter")
    as (Ht1 & Ht2 & Hs1 & Hs2).
  { repeat (apply elem_of_cons in Htone as [->|Htone]);
      try (by apply elem_of_nil in Htone);
      repeat (apply elem_of_cons in Hstyle as [->|Hstyle]);
      try (by apply elem_of_nil in Hstyle); done. }
  destruct (Z.ltb_spec (Z.of_nat (length comments_data)) (Z.of_nat (length posts_data)));
    [|destruct (Z.ltb_spec (Z.of_nat (length posts_data) * 3)
                 (Z.of_nat (length comments_data)))];
    simpl; rewrite ?elem_of_cons, ?elem_of_nil;
    repeat split; intros; try lia; intuition (discriminate || congruence || lia).
Qed.

(** In a returned profile other than the insufficient-data one the
    engagement level follows the number of posts and comments: above
    50 "Highly Active", from 21 to 50 "Moderately Active", up to 20
    "Casual User". *)
Theorem profile_engagement_level summary posts_data comments_data (p : profile) :
  _analyze_character summary posts_data comments_data = Ok p →
  p = insufficient_profile
  ∨ ((engagement_level p = "Highly Active"
      ↔ (50 < length posts_data + length comments_data)%nat)
     ∧ (engagement_level p = "Moderately Active"
        ↔ (20 < length posts_data + length comments_data ≤ 50)%nat)
     ∧ (engagement_level p = "Casual User"
        ↔ (length posts_data + length comments_data ≤ 20)%nat)).
Proof.
  intros [->|(tone & style & communication & -> & _)]%analyze_character_inv;
    [by left|right].
  cbn [engagement_level]. unfold engagement_of.
  destruct (Z.ltb_spec 50 (Z.of_nat (length posts_data) + Z.of_nat (length comments_data)));
    [|destruct (Z.ltb_spec 20
                 (Z.of_nat (length posts_data) + Z.of_nat (length comments_data)))];
    repeat split; intros; (lia || done).
Qed.

Lemma first_appearances_elem (w : string) (l : list string) :
  w ∈ l → w ∈ first_appearances l.
Proof.
  induction l as [|x l IH]; intros Hw; [by apply elem_of_nil in Hw|].
  simpl. destruct (String.eqb_spec w x) as [->|Hne]; [left|right].
  apply elem_of_cons in Hw as [->|Hw]; [done|].
  apply list_elem_of_In, filter_In. split; [by apply list_elem_of_In, IH|].
  by rewrite (proj2 (String.eqb_neq w x)).
Qed.

Lemma occurrences_nonneg (w : string) (l : list string) : (0 ≤ occurrences w l)%Z.
Proof. unfold occurrences. lia. Qed.

(** The first key of the sorted counter is a most frequent element. *)
Lemma sorted_desc_head_max (l : list string) (first g : string) :
  head (Counter.sorted_desc (Counter.of_list l)).*1 = Some first →
  (occurrences g l ≤ occurrences first l)%Z.
Proof.
  pose proof (sorted_desc_sorted (Counter.of_list l)) as Hsorted.
  pose proof (sorted_desc_perm (Counter.of_list l)) as Hperm.
  destruct (Counter.sorted_desc (Counter.of_list l)) as [|[k n] rest] eqn:Hs; [done|].
  intros [= <-].
  assert ((k, n) ∈ Counter.of_list l) as Hk by (rewrite <- Hperm; left).
  apply counter_of_list_elem in Hk as [-> Hpos].
  destruct (Z.le_gt_cases (occurrences g l) 0) as [|Hg]; [lia|].
  assert ((g, occurrences g l) ∈ (k, occurrences k l) :: rest) as Hin.
  { rewrite Hperm, counter_of_list_items.
    apply (list_elem_of_fmap_2 (fun w => (w, occurrences w l))).
    apply first_appearances_elem, occurrences_elem. lia. }
  apply StronglySorted_cons in Hsorted as [Hall _]. rewrite Forall_forall in Hall.
  apply elem_of_cons in Hin as [[= -> _]|Hin]; [lia|].
  by apply Hall in Hin.
Qed.

Lemma head_take_fmap {A B} (f : A → B) (n : nat) (l : list A) :
  head (f <$> take (S n) l) = head (f <$> l).
Proof. by destruct l. Qed.

(** The content focus of a returned profile names at most five
    communities, none twice, each the community of some post or
    comment; the first one is a most frequent community, and the list
    is empty only when there is no content or the profile is the
    insufficient-data one. *)
Theorem content_focus_ranks_communities summary posts_data comments_data (p : profile) :
  _analyze_character summary posts_data comments_data = Ok p →
  (length (content_focus p) ≤ 5)%nat
  ∧ NoDup (content_focus p)
  ∧ (∀ g, g ∈ content_focus p → g ∈ communities posts_data comments_data)
  ∧ (∀ first g, head (content_focus p) = Some first →
       (occurrences g (communities posts_data comments_data)
        ≤ occurrences first (communities posts_data comments_data))%Z)
  ∧ (p ≠ insufficient_profile → communities posts_data comments_data ≠ [] →
     content_focus p ≠ []).
Proof.
  intros [->|(tone & style & communication & -> & _)]%analyze_character_inv.
  { simpl. repeat split; try done; [lia|constructor|by intros g ?%elem_of_nil]. }
  cbn [content_focus]. unfold Counter.most_common.
  set (l := communities posts_data comments_data).
  split; [|split; [|split; [|split]]].
  - rewrite length_fmap, length_take. lia.
  - rewrite fmap_take. eapply sublist_NoDup; [|apply sublist_take].
    rewrite sorted_desc_perm. apply counter_run_NoDup. constructor.
  - intros g ([g' n] & -> & Hin%subseteq_take)%list_elem_of_fmap.
    rewrite sorted_desc_perm in Hin. apply counter_of_list_elem in Hin as [-> Hpos].
    simpl. by apply occurrences_elem.
  - intros first g. rewrite head_take_fmap. apply sorted_desc_head_max.
  - intros _ Hne Hfocus. apply fmap_nil_inv in Hfocus.
    assert (Counter.sorted_desc (Counter.of_list l) = []) as Hs.
    { destruct (Counter.sorted_desc (Counter.of_list l)); [done|discriminate]. }
    pose proof (sorted_desc_perm (Counter.of_list l)) as Hperm.
    rewrite Hs in Hperm. apply Permutation_nil_l in Hperm.
    pose proof (counter_of_list_keys l) as Hkeys. rewrite <- Hperm in Hkeys.
    destruct l as [|x l']; [done|]. discriminate.
Qed.

End ProfileProperties.

Lemma profile_activity_trait_witness :
  Profile ["Optimistic"; "Moderate"; "Active Commenter"]
    "Balanced and Thoughtful" "Casual User" ["hiking"] = insufficient_profile
  ∨ ((2 ≤ 3 ≤ 3)%nat
     ∧ ("Content Creator" ∈ ["Optimistic"; "Moderate"; "Active Commenter"] ↔ (1 < 0)%nat)
     ∧ ("Active Commenter" ∈ ["Optimistic"; "Moderate"; "Active Commenter"]
        ↔ (3 * 0 < 1)%nat)
     ∧ (3%nat = 2%nat ↔ (0 ≤ 1 ≤ 3 * 0)%nat)).
Proof.
  apply (profile_activity_trait (summary_with_polarity 0.3) [] [sample_comment "hello" 0]
           (Profile ["Optimistic"; "Moderate"; "Active Commenter"]
              "Balanced and Thoughtful" "Casual User" ["hiking"])).
  vm_compute. reflexivity.
Defined.

Lemma profile_engagement_level_witness :
  Profile ["Optimistic"; "Moderate"; "Active Commenter"]
    "Balanced and Thoughtful" "Casual User" ["hiking"] = insufficient_profile
  ∨ (("Casual User" = "Highly Active" ↔ (50 < 0 + 1)%nat)
     ∧ ("Casual User" = "Moderately Active" ↔ (20 < 0 + 1 ≤ 50)%nat)
     ∧ ("Casual User" = "Casual User" ↔ (0 + 1 ≤ 20)%nat)).
Proof.
  apply (profile_engagement_level (summary_with_polarity 0.3) []
           [sample_comment "hello" 0]
           (Profile ["Optimistic"; "Moderate"; "Active Commenter"]
              "Balanced and Thoughtful" "Casual User" ["hiking"])).
  vm_compute. reflexivity.
Defined.

Lemma content_focus_ranks_communities_witness :
  (length ["hiking"] ≤ 5)%nat
  ∧ NoDup ["hiking"]
  ∧ (∀ g, g ∈ ["hiking"] → g ∈ communities [] [sample_comment "hello" 0])
  ∧ (∀ first g, head ["hiking"] = Some first →
       (occurrences g (communities [] [sample_comment "hello" 0])
        ≤ occurrences first (communities [] [sample_comment "hello" 0]))%Z)
  ∧ (Profile ["Optimistic"; "Moderate"; "Active Commenter"]
       "Balanced and Thoughtful" "Casual User" ["hiking"] ≠ insufficient_profile →
     communities [] [sample_comment "hello" 0] ≠ [] → ["hiking"] ≠ []).
Proof.
  apply (content_focus_ranks_communities (summary_with_polarity 0.3) []
           [sample_comment "hello" 0]
           (Profile ["Optimistic"; "Moderate"; "Active Commenter"]
              "Balanced and Thoughtful" "Casual User" ["hiking"])).
  vm_compute. reflexivity.
Defined.

(** ** The stages composed *)

Section Pipeline.

Variable sentiment : string → result (float * float).
Variable round : float → Z → float.
Variable format_1f : float → string.
Variable utcoffset : Z → Z.
Variable now : Z.

Lemma computed_profile_sufficient (posts_data : list post) (comments_data : list comment)
    (p : profile) :
  computed_profile posts_data comments_data p → p ≠ insufficient_profile.
Proof. intros (tone & style & communication & -> & _). discriminate. Qed.

Lemma analyze_character_after_sentiment (posts_data : list post)
    (comments_data : list comment) (summary : gmap string value) :
  _analyze_sentiment sentiment round format_1f posts_data comments_data = Ok summary →
  (sentiments_of sentiment posts_data comments_data = Ok []
   ∧ _analyze_character summary posts_data comments_data
     = Raise (KeyError "total_analyzed"))
  ∨ (∃ items p,
       sentiments_of sentiment posts_data comments_data = Ok items ∧ items ≠ []
       ∧ summary !! "total_analyzed" = Some (VInt (Z.of_nat (length items)))
       ∧ _analyze_character summary posts_data comments_data = Ok p
       ∧ computed_profile posts_data comments_data p).
Proof.
  intros (items & Hitems & [[-> ->]|(Hne & pol & sub & pos & neg & neu & line & ->)])
    %analyze_sentiment_inv.
  - left. split; [done|apply analyze_character_empty_sentiment].
  - right.
    destruct (full_summary_lookups (VFloat pol) (VFloat sub) (VFloat pos) (VFloat neg)
                (VFloat neu) (VList items) (VInt (Z.of_nat (length items))) (VStr line))
      as (Hpol & Hsub & Htotal & _).
    destruct (analyze_character_run _ posts_data comments_data _ pol sub Htotal)
      as (p & Hrun & Hcomputed); [|done..|].
    { simpl. destruct items; [done|]. by apply Z.eqb_neq. }
    exists items, p. split; [exact Hitems|]. split; [exact Hne|].
    split; [exact Htotal|]. split; [exact Hrun|exact Hcomputed].
Qed.


(** *** The orchestrator *)

Lemma create_timeline_sums (posts_data : list post) (comments_data : list comment)
    (timeline : list timeline_entry) :
  _create_timeline utcoffset posts_data comments_data = Ok timeline →
  sum_by posts timeline = Z.of_nat (length posts_data)
  ∧ sum_by comments timeline = Z.of_nat (length comments_data).
Proof.
  intros (after_posts & buckets & Hposts & Hcomments & ->)%create_timeline_unfold.
  apply process_posts_totals in Hposts as [Hpp Hpc].
  apply process_comments_totals in Hcomments as [Hcc Hcp].
  rewrite field_total_empty in Hpp, Hpc.
  split; rewrite sum_by_fmap;
    rewrite (sum_by_perm _ _ _ (merge_sort_Permutation item_le (map_to_list buckets)));
    [change (field_total bucket_posts buckets = Z.of_nat (length posts_data))
    |change (field_total bucket_comments buckets = Z.of_nat (length comments_data))];
    lia.
Qed.

Lemma create_timeline_ok (posts_data : list post) (comments_data : list comment) :
  Forall (representable utcoffset) (creation_times posts_data comments_data) →
  ∃ timeline, _create_timeline utcoffset posts_data comments_data = Ok timeline.
Proof.
  intros [Hposts Hcomments]%Forall_app. unfold _create_timeline.
  destruct (process_posts_ok utcoffset posts_data ∅ Hposts) as [after_posts ->].
  cbn [mbind result_bind].
  destruct (process_comments_ok utcoffset comments_data after_posts Hcomments)
    as [buckets ->].
  cbn [mbind result_bind]. eauto.
Qed.

(** What a successful answer was made from. *)
Lemma analyze_user_success_inv (reddit : option (string → result redditor))
    (username name : string) (info : option user_info) (summary : gmap string value)
    (timeline : list timeline_entry) (keywords : list keyword) (p : profile)
    (stats : content_stats) :
  analyze_user sentiment round format_1f utcoffset now reddit username
  = Analysis name info summary timeline keywords p stats →
  ∃ client user created,
    reddit = Some client ∧ client username = Ok user
    ∧ user_created_utc user = Ok created
    ∧ name = username
    ∧ info = _get_user_info round utcoffset now user
    ∧ _analyze_sentiment sentiment round format_1f
        (_get_user_content user 100).1 (_get_user_content user 100).2 = Ok summary
    ∧ _create_timeline utcoffset
        (_get_user_content user 100).1 (_get_user_content user 100).2 = Ok timeline
    ∧ keywords = _extract_keywords (_get_user_content user 100).2 10
    ∧ _analyze_character summary
        (_get_user_content user 100).1 (_get_user_content user 100).2 = Ok p
    ∧ stats = ContentStats (Z.of_nat (length (_get_user_content user 100).1))
                (Z.of_nat (length (_get_user_content user 100).2))
                (Z.of_nat (length (_get_user_content user 100).1)
                 + Z.of_nat (length (_get_user_content user 100).2)).
Proof.
  unfold analyze_user, analyze_user_body. intros Hrun.
  destruct reddit as [client|]; [|discriminate]. exists client.
  destruct (client username) as [user|e]; [|discriminate]. exists user.
  cbn [mbind result_bind] in Hrun.
  destruct (user_created_utc user) as [created|e]; [|discriminate]. exists created.
  destruct (_analyze_sentiment _ _ _ _ _) as [summary'|e]; [|discriminate].
  cbn [mbind result_bind] in Hrun.
  destruct (_create_timeline _ _ _) as [timeline'|e]; [|discriminate].
  cbn [mbind result_bind] in Hrun.
  destruct (_analyze_character _ _ _) as [p'|e] eqn:Hp; [|discriminate].
  cbn [mbind result_bind] in Hrun.
  injection Hrun as <- <- <- <- <- <- <-. by rewrite Hp.
Qed.

(** A successful answer is consistent with itself: the user name is
    the one asked for, the counts add up, the timeline accounts for
    every post and comment counted, at least one item was scored and
    no more than were fetched, and the profile is a computed one. *)
Theorem successful_analysis_is_consistent (reddit : option (string → result redditor))
    (username name : string) (info : option user_info) (summary : gmap string value)
    (timeline : list timeline_entry) (keywords : list keyword) (p : profile)
    (stats : content_stats) :
  analyze_user sentiment round format_1f utcoffset now reddit username
  = Analysis name info summary timeline keywords p stats →
  name = username
  ∧ total_content stats = (total_posts stats + total_comments stats)%Z
  ∧ sum_by posts timeline = total_posts stats
  ∧ sum_by comments timeline = total_comments stats
  ∧ (∃ n, summary !! "total_analyzed" = Some (VInt n)
          ∧ (1 ≤ n ≤ total_content stats)%Z)
  ∧ p ≠ insufficient_profile
  ∧ (length keywords ≤ 10)%nat.
Proof.
  intros (client & user & created & _ & _ & _ & -> & _ & Hs & Ht & -> & Hp & ->)
    %analyze_user_success_inv.
  apply create_timeline_sums in Ht as [Hposts Hcomments].
  apply analyze_character_after_sentiment in Hs
    as [[_ Hraise]|(items & p' & Hitems & Hne & Htotal & Hrun & Hcomputed)];
    [congruence|].
  assert (p' = p) as -> by congruence.
  apply sentiments_of_length in Hitems.
  repeat split; try done.
  - exists (Z.of_nat (length items)). split; [done|]. simpl.
    destruct items; [done|]. simpl in *. lia.
  - by apply computed_profile_sufficient in Hcomputed.
  - rewrite extract_keywords_ranking. unfold Counter.most_common.
    rewrite length_fmap, length_take. lia.
Qed.

(** An account that exists but has nothing to score (no content, or
    only blank and deleted content) is always answered with the
    failure for the missing [total_analyzed], provided its timestamps
    have a local date. *)
Theorem unscorable_account_always_fails (client : string → result redditor)
    (username : string) (user : redditor) (created : Z) :
  client username = Ok user →
  user_created_utc user = Ok created →
  sentiments_of sentiment (_get_user_content user 100).1 (_get_user_content user 100).2
  = Ok [] →
  Forall (representable utcoffset)
    (creation_times (_get_user_content user 100).1 (_get_user_content user 100).2) →
  analyze_user sentiment round format_1f utcoffset now (Some client) username
  = Failure "Failed to analyze user: 'total_analyzed'".
Proof.
  intros Huser Hcreated Hnone Htimes.
  unfold analyze_user, analyze_user_body. rewrite Huser.
  cbn [mbind result_bind]. rewrite Hcreated.
  rewrite (analyze_sentiment_unscored round format_1f sentiment _ _ Hnone).
  cbn [mbind result_bind].
  destruct (create_timeline_ok _ _ Htimes) as [timeline ->].
  cbn [mbind result_bind]. by rewrite analyze_character_empty_sentiment.
Qed.

(** Every failure message of [analyze_user] is one of three: the
    client is not configured, the user was not found, or a stage
    failed and its exception text follows the fixed prefix. *)
Theorem analyze_user_failure_messages (reddit : option (string → result redditor))
    (username error : string) :
  analyze_user sentiment round format_1f utcoffset now reddit username = Failure error →
  (reddit = None ∧ error = not_configured_message)
  ∨ (∃ client user e,
       reddit = Some client ∧ client username = Ok user
       ∧ user_created_utc user = Raise e ∧ error = not_found_message username)
  ∨ (∃ e, error = failed_message e).
Proof.
  unfold analyze_user. intros Hrun.
  destruct reddit as [client|];
    [|left; split; [reflexivity|by injection Hrun as <-]]. right.
  destruct (analyze_user_body _ _ _ _ _ client username) as [r|e] eqn:Hbody;
    [|right; exists e; by injection Hrun as <-].
  subst r. left. unfold analyze_user_body in Hbody.
  destruct (client username) as [user|e] eqn:Huser; [|discriminate].
  cbn [mbind result_bind] in Hbody.
  destruct (user_created_utc user) as [created|e] eqn:Hcreated.
  - destruct (_analyze_sentiment _ _ _ _ _) as [summary|?]; [|discriminate].
    cbn [mbind result_bind] in Hbody.
    destruct (_create_timeline _ _ _) as [timeline|?]; [|discriminate].
    cbn [mbind result_bind] in Hbody.
    destruct (_analyze_character _ _ _) as [p|?]; discriminate.
  - injection Hbody as <-. exists client, user, e.
    split; [reflexivity|]. split; [exact Huser|]. split; [exact Hcreated|reflexivity].
Qed.

End Pipeline.

(** If building the client or the connection test raises, the
    analyzer is left without a client and answers every user name
    with the configuration failure. *)
Theorem failed_init_disables_analysis (sentiment : string → result (float * float))
    (round : float → Z → float) (format_1f : float → string) (utcoffset : Z → Z)
    (now : Z) (environ : gmap string string)
    (Reddit : string → string → string → result (string → result redditor))
    (user_me : (string → result redditor) → result unit) (username : string) :
  (∀ id secret agent client, Reddit id secret agent = Ok client →
     ∃ e, user_me client = Raise e) →
  __init__ environ Reddit user_me = None
  ∧ analyze_user sentiment round format_1f utcoffset now
      (__init__ environ Reddit user_me) username
    = Failure not_configured_message.
Proof.
  intros Hfail.
  assert (__init__ environ Reddit user_me = None) as ->; [|done].
  unfold __init__.
  destruct (Reddit _ _ _) as [client|e] eqn:Hclient; [|done].
  cbn [mbind result_bind]. by destruct (Hfail _ _ _ _ Hclient) as [e ->].
Qed.

(** *** The stages composed, on sample accounts *)

Lemma active_user_summary :
  _analyze_sentiment flat_scorer plain_round plain_format
    [sample_post "Trip report" "[deleted]"]
    [sample_comment "hello" 0; sample_comment "[deleted]" 0]
  = Ok two_item_summary.
Proof.
  unfold _analyze_sentiment.
  replace (sentiments_of flat_scorer [sample_post "Trip report" "[deleted]"]
             [sample_comment "hello" 0; sample_comment "[deleted]" 0])
    with (Ok [Scored "post" 0 0 7 0; Scored "comment" 0 0 5 0] : result (list scored))
    by (vm_compute; reflexivity).
  cbn [mbind result_bind].
  replace (_get_sentiment_summary plain_format _)
    with (Ok "Balanced perspective (0.0% positive, 0.0% negative)" : result string)
    by (vm_compute; reflexivity).
  reflexivity.
Qed.

Lemma active_user_analysis :
  analyze_user flat_scorer plain_round plain_format host_utc 1700000000
    (Some (fun _ => Ok active_user)) "walker"
  = Analysis "walker" (_get_user_info plain_round host_utc 1700000000 active_user)
      two_item_summary [TimelineEntry "1970-01-01" 1 2 3 17] []
      (Profile ["Balanced"; "Factual"] "Objective and Factual" "Casual User" ["hiking"])
      (ContentStats 1 2 3).
Proof.
  unfold analyze_user, analyze_user_body.
  cbn [mbind result_bind active_user user_created_utc].
  change (_get_user_content _ 100).1 with [sample_post "Trip report" "[deleted]"].
  change (_get_user_content _ 100).2
    with [sample_comment "hello" 0; sample_comment "[deleted]" 0].
  rewrite active_user_summary. cbn [mbind result_bind].
  replace (_create_timeline host_utc _ _)
    with (Ok [TimelineEntry "1970-01-01" 1 2 3 17] : result (list timeline_entry))
    by (vm_compute; reflexivity).
  cbn [mbind result_bind].
  replace (_analyze_character two_item_summary _ _)
    with (Ok (Profile ["Balanced"; "Factual"] "Objective and Factual" "Casual User"
                ["hiking"]) : result profile)
    by (vm_compute; reflexivity).
  cbn [mbind result_bind].
  replace (_extract_keywords _ 10) with ([] : list keyword) by (vm_compute; reflexivity).
  reflexivity.
Qed.


Lemma successful_analysis_is_consistent_witness :
  "walker" = "walker"
  ∧ total_content (ContentStats 1 2 3)
    = (total_posts (ContentStats 1 2 3) + total_comments (ContentStats 1 2 3))%Z
  ∧ sum_by posts [TimelineEntry "1970-01-01" 1 2 3 17] = total_posts (ContentStats 1 2 3)
  ∧ sum_by comments [TimelineEntry "1970-01-01" 1 2 3 17]
    = total_comments (ContentStats 1 2 3)
  ∧ (∃ n, two_item_summary !! "total_analyzed" = Some (VInt n)
          ∧ (1 ≤ n ≤ total_content (ContentStats 1 2 3))%Z)
  ∧ Profile ["Balanced"; "Factual"] "Objective and Factual" "Casual User" ["hiking"]
    ≠ insufficient_profile
  ∧ (length ([] : list keyword) ≤ 10)%nat.
Proof.
  apply (successful_analysis_is_consistent flat_scorer plain_round plain_format host_utc
           1700000000 (Some (fun _ => Ok active_user)) "walker" "walker"
           (_get_user_info plain_round host_utc 1700000000 active_user)).
  exact active_user_analysis.
Defined.

Lemma unscorable_account_always_fails_witness :
  analyze_user flat_scorer plain_round plain_format host_utc 1700000000
    (Some (fun _ => Ok quiet_user)) "quiet"
  = Failure "Failed to analyze user: 'total_analyzed'".
Proof.
  apply (unscorable_account_always_fails flat_scorer plain_round plain_format host_utc
           1700000000 (fun _ => Ok quiet_user) "quiet" quiet_user 1600000000).
  - reflexivity.
  - reflexivity.
  - vm_compute. reflexivity.
  - repeat constructor; vm_compute; congruence.
Defined.

Lemma analyze_user_failure_messages_witness :
  ((Some (fun _ : string => Ok suspended_user) = None
    ∧ not_found_message "ghost" = not_configured_message)
   ∨ (∃ client user e,
        Some (fun _ : string => Ok suspended_user) = Some client
        ∧ client "ghost" = Ok user
        ∧ user_created_utc user = Raise e
        ∧ not_found_message "ghost" = not_found_message "ghost")
   ∨ (∃ e, not_found_message "ghost" = failed_message e)).
Proof.
  apply (analyze_user_failure_messages flat_scorer plain_round plain_format host_utc
           1700000000 (Some (fun _ => Ok suspended_user)) "ghost").
  reflexivity.
Defined.

Lemma failed_init_disables_analysis_witness :
  __init__ ∅ (fun _ _ _ => Ok (fun _ => Ok quiet_user))
    (fun _ => Raise (OtherError "received 401 HTTP response")) = None
  ∧ analyze_user flat_scorer plain_round plain_format host_utc 1700000000
      (__init__ ∅ (fun _ _ _ => Ok (fun _ => Ok quiet_user))
         (fun _ => Raise (OtherError "received 401 HTTP response"))) "quiet"
    = Failure not_configured_message.
Proof.
  apply (failed_init_disables_analysis flat_scorer plain_round plain_format host_utc
           1700000000 ∅ (fun _ _ _ => Ok (fun _ => Ok quiet_user))
           (fun _ => Raise (OtherError "received 401 HTTP response")) "quiet").
  intros id secret agent client _. by eexists.
Defined.

(** ** The timeline, day by day *)

Section TimelineEntries.

Variable utcoffset : Z → Z.

Local Open Scope Z_scope.

Lemma sum_by_cons {A : Type} (f : A → Z) (x : A) (l : list A) :
  sum_by f (x :: l) = f x + sum_by f l.
Proof. reflexivity. Qed.

(** What filing one item under [date] does to the bucket of [d]. *)
Lemma file_lookup (f : bucket → bucket) (score : Z) (date d : string)
    (timeline : gmap string bucket) :
  default (Bucket 0 0 0)
    (bump (add_total_score score) date (bump f date timeline) !! d)
  = if String.eqb date d
    then add_total_score score (f (default (Bucket 0 0 0) (timeline !! d)))
    else default (Bucket 0 0 0) (timeline !! d).
Proof.
  destruct (String.eqb_spec date d) as [->|Hne].
  - by rewrite !bump_lookup.
  - unfold bump. by rewrite !lookup_insert_ne.
Qed.

Lemma file_is_Some (f g : bucket → bucket) (date d : string)
    (timeline : gmap string bucket) :
  is_Some (bump g date (bump f date timeline) !! d)
  ↔ String.eqb date d = true ∨ is_Some (timeline !! d).
Proof.
  destruct (String.eqb_spec date d) as [->|Hne].
  - rewrite bump_lookup. split; [by left|eauto].
  - unfold bump. rewrite !lookup_insert_ne by done. split; [by right|].
    by intros [|].
Qed.

Lemma process_posts_lookup (posts_data : list post) (timeline timeline' : gmap string bucket)
    (d : string) :
  process_posts utcoffset posts_data timeline = Ok timeline' →
  default (Bucket 0 0 0) (timeline' !! d)
  = Bucket
      (bucket_posts (default (Bucket 0 0 0) (timeline !! d))
       + Z.of_nat (length (posts_on utcoffset d posts_data)))
      (bucket_comments (default (Bucket 0 0 0) (timeline !! d)))
      (bucket_total_score (default (Bucket 0 0 0) (timeline !! d))
       + sum_by post_score (posts_on utcoffset d posts_data))
  ∧ (is_Some (timeline' !! d)
     ↔ is_Some (timeline !! d) ∨ posts_on utcoffset d posts_data ≠ []).
Proof.
  revert timeline.
  induction posts_data as [|post rest IH]; intros timeline Hrun.
  - injection Hrun as <-. cbn. split.
    + destruct (default _ _) as [bp bc bs]. simpl. f_equal; lia.
    + split; [by left|]. by intros [|].
  - cbn [process_posts] in Hrun.
    destruct (timeline_date utcoffset (post_created_utc post)) as [date|e] eqn:Hdate;
      cbn [mbind result_bind] in Hrun; [|discriminate].
    apply IH in Hrun as [-> ->].
    rewrite file_lookup, file_is_Some.
    assert (posts_on utcoffset d (post :: rest)
            = if String.eqb date d then post :: posts_on utcoffset d rest
              else posts_on utcoffset d rest) as ->.
    { unfold posts_on. cbn [List.filter]. unfold on_date at 1. by rewrite Hdate. }
    destruct (String.eqb date d).
    + rewrite sum_by_cons. cbn [length]. rewrite Nat2Z.inj_succ.
      destruct (default _ _) as [bp bc bs].
      cbn [add_total_score add_posts bucket_posts bucket_comments bucket_total_score].
      split; [f_equal; lia|]. split; [by right|]. intros _. by left; left.
    + split; [done|]. split; [intros [[|]|]; auto; done|]. intros [|]; auto.
Qed.

Lemma process_comments_lookup (comments_data : list comment)
    (timeline timeline' : gmap string bucket) (d : string) :
  process_comments utcoffset comments_data timeline = Ok timeline' →
  default (Bucket 0 0 0) (timeline' !! d)
  = Bucket
      (bucket_posts (default (Bucket 0 0 0) (timeline !! d)))
      (bucket_comments (default (Bucket 0 0 0) (timeline !! d))
       + Z.of_nat (length (comments_on utcoffset d comments_data)))
      (bucket_total_score (default (Bucket 0 0 0) (timeline !! d))
       + sum_by comment_score (comments_on utcoffset d comments_data))
  ∧ (is_Some (timeline' !! d)
     ↔ is_Some (timeline !! d) ∨ comments_on utcoffset d comments_data ≠ []).
Proof.
  revert timeline.
  induction comments_data as [|comment rest IH]; intros timeline Hrun.
  - injection Hrun as <-. cbn. split.
    + destruct (default _ _) as [bp bc bs]. simpl. f_equal; lia.
    + split; [by left|]. by intros [|].
  - cbn [process_comments] in Hrun.
    destruct (timeline_date utcoffset (comment_created_utc comment)) as [date|e] eqn:Hdate;
      cbn [mbind result_bind] in Hrun; [|discriminate].
    apply IH in Hrun as [-> ->].
    rewrite file_lookup, file_is_Some.
    assert (comments_on utcoffset d (comment :: rest)
            = if String.eqb date d then comment :: comments_on utcoffset d rest
              else comments_on utcoffset d rest) as ->.
    { unfold comments_on. cbn [List.filter]. unfold on_date at 1. by rewrite Hdate. }
    destruct (String.eqb date d).
    + rewrite sum_by_cons. cbn [length]. rewrite Nat2Z.inj_succ.
      destruct (default _ _) as [bp bc bs].
      cbn [add_total_score add_comments bucket_posts bucket_comments bucket_total_score].
      split; [f_equal; lia|]. split; [by right|]. intros _. by left; left.
    + split; [done|]. split; [intros [[|]|]; auto; done|]. intros [|]; auto.
Qed.

(** The buckets after both loops, read at one date. *)
Lemma buckets_lookup (posts_data : list post) (comments_data : list comment)
    (after_posts buckets : gmap string bucket) (d : string) :
  process_posts utcoffset posts_data ∅ = Ok after_posts →
  process_comments utcoffset comments_data after_posts = Ok buckets →
  buckets !! d
  = if bool_decide (posts_on utcoffset d posts_data = []
                    ∧ comments_on utcoffset d comments_data = [])
    then None
    else Some (Bucket (Z.of_nat (length (posts_on utcoffset d posts_data)))
                 (Z.of_nat (length (comments_on utcoffset d comments_data)))
                 (sum_by post_score (posts_on utcoffset d posts_data)
                  + sum_by comment_score (comments_on utcoffset d comments_data))).
Proof.
  intros Hposts Hcomments.
  destruct (process_posts_lookup _ _ _ d Hposts) as [Hp Hp'].
  destruct (process_comments_lookup _ _ _ d Hcomments) as [Hc Hc'].
  rewrite Hp in Hc. rewrite Hp' in Hc'. rewrite lookup_empty in Hc, Hc'. cbn in Hc.
  case_bool_decide as Hnone.
  - apply eq_None_not_Some. rewrite Hc'. destruct Hnone as [Hn1 Hn2].
    intros [[[? [=]]|]|]; done.
  - destruct (buckets !! d) as [b|] eqn:Hlook.
    + cbn in Hc. by rewrite Hc.
    + exfalso. assert (is_Some (None : option bucket)) as [? [=]].
      apply Hc'.
      destruct (decide (posts_on utcoffset d posts_data = [])); [|by left; right].
      destruct (decide (comments_on utcoffset d comments_data = [])); [|by right].
      by destruct Hnone.
Qed.

Lemma create_timeline_elem (posts_data : list post) (comments_data : list comment)
    (timeline : list timeline_entry) (e : timeline_entry) :
  _create_timeline utcoffset posts_data comments_data = Ok timeline →
  e ∈ timeline
  ↔ e = day_entry utcoffset posts_data comments_data (date e)
    ∧ (posts_on utcoffset (date e) posts_data ≠ []
       ∨ comments_on utcoffset (date e) comments_data ≠ []).
Proof.
  intros (after_posts & buckets & Hposts & Hcomments & ->)%create_timeline_unfold.
  rewrite list_elem_of_fmap.
  setoid_rewrite (merge_sort_Permutation item_le (map_to_list buckets)).
  split.
  - intros ([d b] & -> & Hin). apply elem_of_map_to_list in Hin. cbn.
    rewrite (buckets_lookup _ _ _ _ d Hposts Hcomments) in Hin.
    case_bool_decide as Hnone; [done|]. injection Hin as <-. split; [done|].
    destruct (decide (posts_on utcoffset d posts_data = [])); [|by left].
    destruct (decide (comments_on utcoffset d comments_data = [])); [|by right].
    by destruct Hnone.
  - intros [He Hsome].
    exists (date e, Bucket (posts e) (comments e) (total_score e)). split.
    + rewrite He. reflexivity.
    + apply elem_of_map_to_list.
      rewrite (buckets_lookup _ _ _ _ (date e) Hposts Hcomments).
      rewrite bool_decide_eq_false_2 by (intros [? ?]; by destruct Hsome).
      pose proof (f_equal posts He) as Hp.
      pose proof (f_equal comments He) as Hc.
      pose proof (f_equal total_score He) as Hs.
      unfold day_entry in Hp, Hc, Hs. cbn [posts comments total_score] in Hp, Hc, Hs.
      by rewrite <- Hp, <- Hc, <- Hs.
Qed.

End TimelineEntries.

Section TimelineProperties.

Variable utcoffset : Z → Z.

Local Open Scope Z_scope.

Lemma posts_on_nonempty (d : string) (posts_data : list post) :
  posts_on utcoffset d posts_data ≠ []
  ↔ ∃ p, p ∈ posts_data ∧ timeline_date utcoffset (post_created_utc p) = Ok d.
Proof.
  unfold posts_on, on_date. induction posts_data as [|p rest IH]; cbn [List.filter].
  - split; [done|]. intros (p & []%elem_of_nil & _).
  - destruct (timeline_date utcoffset (post_created_utc p)) as [d'|e] eqn:Hdate.
    + destruct (String.eqb_spec d' d) as [->|Hne].
      * split; [|done]. intros _. exists p. split; [left|done].
      * rewrite IH. split.
        -- intros (q & Hin & Hq). exists q. split; [by right|done].
        -- intros (q & [->|Hin]%elem_of_cons & Hq); [congruence|eauto].
    + rewrite IH. split.
      * intros (q & Hin & Hq). exists q. split; [by right|done].
      * intros (q & [->|Hin]%elem_of_cons & Hq); [congruence|eauto].
Qed.

Lemma comments_on_nonempty (d : string) (comments_data : list comment) :
  comments_on utcoffset d comments_data ≠ []
  ↔ ∃ c, c ∈ comments_data ∧ timeline_date utcoffset (comment_created_utc c) = Ok d.
Proof.
  unfold comments_on, on_date. induction comments_data as [|c rest IH]; cbn [List.filter].
  - split; [done|]. intros (c & []%elem_of_nil & _).
  - destruct (timeline_date utcoffset (comment_created_utc c)) as [d'|e] eqn:Hdate.
    + destruct (String.eqb_spec d' d) as [->|Hne].
      * split; [|done]. intros _. exists c. split; [left|done].
      * rewrite IH. split.
        -- intros (q & Hin & Hq). exists q. split; [by right|done].
        -- intros (q & [->|Hin]%elem_of_cons & Hq); [congruence|eauto].
    + rewrite IH. split.
      * intros (q & Hin & Hq). exists q. split; [by right|done].
      * intros (q & [->|Hin]%elem_of_cons & Hq); [congruence|eauto].
Qed.

(** The timeline has exactly one entry for each date under which a
    post or a comment is filed, and each entry is computed from the
    items of its date alone: their numbers, and the sum of their
    scores. *)
Theorem timeline_entry_per_active_day (posts_data : list post)
    (comments_data : list comment) (timeline : list timeline_entry) :
  _create_timeline utcoffset posts_data comments_data = Ok timeline →
  (∀ d, d ∈ date <$> timeline
        ↔ ∃ created, created ∈ creation_times posts_data comments_data
                     ∧ timeline_date utcoffset created = Ok d)
  ∧ NoDup (date <$> timeline)
  ∧ Forall (fun e => e = day_entry utcoffset posts_data comments_data (date e)) timeline.
Proof.
  intros Hrun. split; [|split].
  - intros d. rewrite list_elem_of_fmap. unfold creation_times. split.
    + intros (e & -> & [_ Hsome]%(create_timeline_elem _ _ _ _ _ Hrun)).
      destruct Hsome as [(p & Hin & Hp)%posts_on_nonempty|(c & Hin & Hc)%comments_on_nonempty].
      * exists (post_created_utc p). split; [|done].
        apply elem_of_app. left. by apply list_elem_of_fmap_2.
      * exists (comment_created_utc c). split; [|done].
        apply elem_of_app. right. by apply list_elem_of_fmap_2.
    + intros (created & Hin & Hd).
      exists (day_entry utcoffset posts_data comments_data d). split; [done|].
      apply (create_timeline_elem _ _ _ _ _ Hrun). split; [done|]. cbn [day_entry date].
      apply elem_of_app in Hin as [(p & -> & Hin)%list_elem_of_fmap
                                  |(c & -> & Hin)%list_elem_of_fmap].
      * left. apply posts_on_nonempty. eauto.
      * right. apply comments_on_nonempty. eauto.
  - apply create_timeline_unfold in Hrun
      as (after_posts & buckets & _ & _ & ->).
    rewrite <- list_fmap_compose.
    rewrite (merge_sort_Permutation item_le (map_to_list buckets)).
    apply (NoDup_fst_map_to_list buckets).
  - apply Forall_forall. intros e Hin.
    by apply (create_timeline_elem _ _ _ _ _ Hrun) in Hin as [He _].
Qed.

Lemma sum_by_add {A : Type} (f g : A → Z) (l : list A) :
  sum_by (fun x => f x + g x) l = sum_by f l + sum_by g l.
Proof. induction l as [|x l IH]; [done|]. rewrite !sum_by_cons, IH. lia. Qed.

Lemma sum_by_ext {A : Type} (f g : A → Z) (l : list A) :
  Forall (fun x => f x = g x) l → sum_by f l = sum_by g l.
Proof. induction 1 as [|x l Hx _ IH]; [done|]. by rewrite !sum_by_cons, Hx, IH. Qed.

Lemma length_le_sum_by {A : Type} (g : A → Z) (l : list A) :
  Forall (fun x => 1 ≤ g x) l → Z.of_nat (length l) ≤ sum_by g l.
Proof.
  induction 1 as [|x l Hx _ IH]; [done|].
  rewrite sum_by_cons. cbn [length]. lia.
Qed.

Lemma timeline_entry_active (posts_data : list post) (comments_data : list comment)
    (timeline : list timeline_entry) :
  _create_timeline utcoffset posts_data comments_data = Ok timeline →
  Forall (fun e => 0 ≤ posts e ∧ 0 ≤ comments e
                   ∧ total_activity e = posts e + comments e
                   ∧ 1 ≤ total_activity e) timeline.
Proof.
  intros Hrun. apply Forall_forall. intros e Hin.
  apply (create_timeline_elem _ _ _ _ _ Hrun) in Hin as [-> Hsome].
  cbn [day_entry date posts comments total_activity] in *.
  assert (∀ {A} (l : list A), l ≠ [] → 1 ≤ Z.of_nat (length l)) as Hlen.
  { intros A [|x l] Hne; [done|]. cbn [length]. lia. }
  destruct Hsome as [H%Hlen|H%Hlen]; lia.
Qed.

(** No entry of the timeline is idle: each counts at least one item,
    its total is the sum of its two counts, and so the timeline has at
    most as many entries as there are items, and none exactly when
    there is no content. *)
Theorem timeline_has_no_idle_days (posts_data : list post) (comments_data : list comment)
    (timeline : list timeline_entry) :
  _create_timeline utcoffset posts_data comments_data = Ok timeline →
  Forall (fun e => 0 ≤ posts e ∧ 0 ≤ comments e
                   ∧ total_activity e = posts e + comments e
                   ∧ 1 ≤ total_activity e) timeline
  ∧ sum_by total_activity timeline
    = Z.of_nat (length posts_data) + Z.of_nat (length comments_data)
  ∧ (length timeline ≤ length posts_data + length comments_data)%nat
  ∧ (timeline = [] ↔ posts_data = [] ∧ comments_data = []).
Proof.
  intros Hrun.
  pose proof (timeline_entry_active _ _ _ Hrun) as Hactive.
  destruct (create_timeline_sums utcoffset _ _ _ Hrun) as [Hposts Hcomments].
  assert (sum_by total_activity timeline
          = Z.of_nat (length posts_data) + Z.of_nat (length comments_data)) as Hsum.
  { rewrite <- Hposts, <- Hcomments, <- sum_by_add. apply sum_by_ext.
    eapply Forall_impl; [exact Hactive|]. by intros e (_ & _ & ? & _). }
  assert (Z.of_nat (length timeline) ≤ sum_by total_activity timeline) as Hlen.
  { apply length_le_sum_by. eapply Forall_impl; [exact Hactive|].
    by intros e (_ & _ & _ & ?). }
  split; [done|]. split; [done|]. split; [lia|]. split.
  - intros ->. cbn in Hsum.
    destruct posts_data, comments_data; cbn [length] in Hsum; (done || lia).
  - intros [-> ->]. cbn [length] in *. destruct timeline; [done|]. cbn [length] in Hlen. lia.
Qed.

(** *** Scores *)

Lemma field_total_file_score (f : bucket → bucket) (score : Z) (date : string)
    (timeline : gmap string bucket) :
  (∀ b, bucket_total_score (f b) = bucket_total_score b) →
  field_total bucket_total_score (bump (add_total_score score) date (bump f date timeline))
  = field_total bucket_total_score timeline + score.
Proof.
  intros Hf. rewrite !field_total_bump, bump_lookup by done.
  cbn [default add_total_score bucket_total_score]. rewrite !Hf.
  destruct (f _). cbn. lia.
Qed.

Lemma process_posts_score (posts_data : list post) (timeline timeline' : gmap string bucket) :
  process_posts utcoffset posts_data timeline = Ok timeline' →
  field_total bucket_total_score timeline'
  = field_total bucket_total_score timeline + sum_by post_score posts_data.
Proof.
  revert timeline. induction posts_data as [|post rest IH]; intros timeline Hrun.
  - injection Hrun as <-. cbn. lia.
  - cbn [process_posts] in Hrun.
    destruct (timeline_date utcoffset (post_created_utc post)) as [date|e];
      cbn [mbind result_bind] in Hrun; [|discriminate].
    apply IH in Hrun as ->.
    rewrite field_total_file_score by done. rewrite sum_by_cons. lia.
Qed.

Lemma process_comments_score (comments_data : list comment)
    (timeline timeline' : gmap string bucket) :
  process_comments utcoffset comments_data timeline = Ok timeline' →
  field_total bucket_total_score timeline'
  = field_total bucket_total_score timeline + sum_by comment_score comments_data.
Proof.
  revert timeline. induction comments_data as [|comment rest IH]; intros timeline Hrun.
  - injection Hrun as <-. cbn. lia.
  - cbn [process_comments] in Hrun.
    destruct (timeline_date utcoffset (comment_created_utc comment)) as [date|e];
      cbn [mbind result_bind] in Hrun; [|discriminate].
    apply IH in Hrun as ->.
    rewrite field_total_file_score by done. rewrite sum_by_cons. lia.
Qed.

(** The scores of the timeline add up to the scores of all posts and
    comments: no item's score is lost or counted twice. *)
Theorem timeline_scores_add_up (posts_data : list post) (comments_data : list comment)
    (timeline : list timeline_entry) :
  _create_timeline utcoffset posts_data comments_data = Ok timeline →
  sum_by total_score timeline
  = sum_by post_score posts_data + sum_by comment_score comments_data.
Proof.
  intros (after_posts & buckets & Hposts & Hcomments & ->)%create_timeline_unfold.
  apply process_posts_score in Hposts. apply process_comments_score in Hcomments.
  rewrite field_total_empty in Hposts.
  rewrite sum_by_fmap.
  rewrite (sum_by_perm _ _ _ (merge_sort_Permutation item_le (map_to_list buckets))).
  change (field_total bucket_total_score buckets
          = sum_by post_score posts_data + sum_by comment_score comments_data).
  lia.
Qed.

(** *** When the timeline can be built *)

Lemma timeline_date_datable (timestamp : Z) :
  (∃ date, timeline_date utcoffset timestamp = Ok date) ↔ datable utcoffset timestamp.
Proof.
  unfold datable, timeline_date, Datetime.fromtimestamp.
  set (local := timestamp + utcoffset timestamp).
  unfold Datetime.EPOCH_ORDINAL, Datetime.MAX_ORDINAL.
  assert (-62135596800 ≤ local ↔ -719162 ≤ local / 86400) as Hlow.
  { split; intros H.
    - apply Z.div_le_lower_bound; lia.
    - pose proof (Z.mul_div_le local 86400). lia. }
  assert (local < 253402300800 ↔ local / 86400 ≤ 2932896) as Hhigh.
  { split; intros H.
    - apply Z.lt_succ_r, Z.div_lt_upper_bound; lia.
    - pose proof (Z.mod_pos_bound local 86400).
      pose proof (Z.div_mod local 86400). lia. }
  destruct (Z.ltb_spec (719163 + local / 86400) 1).
  { split; [by intros [? [=]]|lia]. }
  destruct (Z.ltb_spec 3652059 (719163 + local / 86400)).
  { split; [by intros [? [=]]|lia]. }
  split; [lia|]. intros _. cbn. eauto.
Qed.

Lemma process_posts_datable (posts_data : list post) (timeline : gmap string bucket) :
  (∃ timeline', process_posts utcoffset posts_data timeline = Ok timeline')
  ↔ Forall (datable utcoffset) (post_created_utc <$> posts_data).
Proof.
  revert timeline. induction posts_data as [|post rest IH]; intros timeline.
  - split; [constructor|]. cbn. eauto.
  - cbn [process_posts]. rewrite fmap_cons, Forall_cons, <- timeline_date_datable.
    destruct (timeline_date utcoffset (post_created_utc post)) as [date|e];
      cbn [mbind result_bind].
    + rewrite IH. split; [by eauto|]. by intros [_ ?].
    + split; [by intros [? [=]]|]. by intros [[? [=]] _].
Qed.

Lemma process_comments_datable (comments_data : list comment)
    (timeline : gmap string bucket) :
  (∃ timeline', process_comments utcoffset comments_data timeline = Ok timeline')
  ↔ Forall (datable utcoffset) (comment_created_utc <$> comments_data).
Proof.
  revert timeline. induction comments_data as [|comment rest IH]; intros timeline.
  - split; [constructor|]. cbn. eauto.
  - cbn [process_comments]. rewrite fmap_cons, Forall_cons, <- timeline_date_datable.
    destruct (timeline_date utcoffset (comment_created_utc comment)) as [date|e];
      cbn [mbind result_bind].
    + rewrite IH. split; [by eauto|]. by intros [_ ?].
    + split; [by intros [? [=]]|]. by intros [[? [=]] _].
Qed.

Lemma create_timeline_datable (posts_data : list post) (comments_data : list comment) :
  (∃ timeline, _create_timeline utcoffset posts_data comments_data = Ok timeline)
  ↔ Forall (datable utcoffset) (creation_times posts_data comments_data).
Proof.
  unfold creation_times. rewrite Forall_app.
  rewrite <- (process_posts_datable posts_data ∅). unfold _create_timeline. split.
  - intros [timeline Hrun].
    destruct (process_posts utcoffset posts_data ∅) as [after_posts|e];
      cbn [mbind result_bind] in Hrun; [|discriminate].
    split; [by eauto|]. apply (process_comments_datable _ after_posts).
    destruct (process_comments utcoffset comments_data after_posts) as [buckets|e];
      [by eauto|discriminate].
  - intros [[after_posts ->] Hcomments]. cbn [mbind result_bind].
    apply (process_comments_datable _ after_posts) in Hcomments as [buckets ->].
    cbn [mbind result_bind]. eauto.
Qed.

Local Instance datable_dec (timestamp : Z) : Decision (datable utcoffset timestamp).
Proof. unfold datable. apply _. Defined.


(** *** Listing order *)

Lemma list_filter_perm {A : Type} (f : A → bool) (l k : list A) :
  l ≡ₚ k → List.filter f l ≡ₚ List.filter f k.
Proof.
  induction 1 as [|x l k _ IH|x y l|l k m _ IH1 _ IH2]; cbn [List.filter].
  - done.
  - destruct (f x); [by constructor|done].
  - destruct (f x), (f y); (done || by constructor).
  - by etrans.
Qed.

Lemma buckets_perm (posts_data posts_data' : list post)
    (comments_data comments_data' : list comment)
    (after_posts after_posts' buckets buckets' : gmap string bucket) :
  posts_data ≡ₚ posts_data' → comments_data ≡ₚ comments_data' →
  process_posts utcoffset posts_data ∅ = Ok after_posts →
  process_comments utcoffset comments_data after_posts = Ok buckets →
  process_posts utcoffset posts_data' ∅ = Ok after_posts' →
  process_comments utcoffset comments_data' after_posts' = Ok buckets' →
  buckets = buckets'.
Proof.
  intros Hp Hc H1 H2 H1' H2'. apply map_eq. intros d.
  rewrite (buckets_lookup _ _ _ _ _ d H1 H2), (buckets_lookup _ _ _ _ _ d H1' H2').
  pose proof (list_filter_perm (fun p => on_date utcoffset d (post_created_utc p)) _ _ Hp)
    as Hp'.
  pose proof (list_filter_perm (fun c => on_date utcoffset d (comment_created_utc c)) _ _ Hc)
    as Hc'.
  fold (posts_on utcoffset d posts_data) (posts_on utcoffset d posts_data') in Hp'.
  fold (comments_on utcoffset d comments_data)
    (comments_on utcoffset d comments_data') in Hc'.
  rewrite (Permutation_length Hp'), (Permutation_length Hc').
  rewrite (sum_by_perm _ _ _ Hp'), (sum_by_perm _ _ _ Hc').
  erewrite bool_decide_ext; [done|].
  split; intros [Hn1 Hn2].
  - rewrite Hn1 in Hp'. rewrite Hn2 in Hc'.
    by apply Permutation_nil_l in Hp'; apply Permutation_nil_l in Hc'.
  - rewrite Hn1 in Hp'. rewrite Hn2 in Hc'.
    by apply Permutation_nil_r in Hp'; apply Permutation_nil_r in Hc'.
Qed.

(** The timeline does not depend on the order in which the platform
    lists the posts and the comments. *)
Theorem timeline_ignores_listing_order (posts_data posts_data' : list post)
    (comments_data comments_data' : list comment) (timeline : list timeline_entry) :
  posts_data ≡ₚ posts_data' → comments_data ≡ₚ comments_data' →
  _create_timeline utcoffset posts_data comments_data = Ok timeline →
  _create_timeline utcoffset posts_data' comments_data' = Ok timeline.
Proof.
  intros Hp Hc Hrun.
  assert (∃ timeline', _create_timeline utcoffset posts_data' comments_data' = Ok timeline')
    as [timeline' Hrun'].
  { apply create_timeline_datable. unfold creation_times. rewrite <- Hp, <- Hc.
    apply create_timeline_datable. eauto. }
  rewrite Hrun'. f_equal.
  apply create_timeline_unfold in Hrun as (ap & b & H1 & H2 & ->).
  apply create_timeline_unfold in Hrun' as (ap' & b' & H1' & H2' & ->).
  by rewrite (buckets_perm _ _ _ _ _ _ _ _ Hp Hc H1 H2 H1' H2').
Qed.

End TimelineProperties.

Lemma two_day_timeline_run :
  _create_timeline utc_plus_2 two_day_posts two_day_comments = Ok two_day_timeline.
Proof. vm_compute. reflexivity. Qed.

Lemma timeline_entry_per_active_day_witness :
  (∀ d, d ∈ date <$> two_day_timeline
        ↔ ∃ created, created ∈ creation_times two_day_posts two_day_comments
                     ∧ timeline_date utc_plus_2 created = Ok d)
  ∧ NoDup (date <$> two_day_timeline)
  ∧ Forall (fun e => e = day_entry utc_plus_2 two_day_posts two_day_comments (date e))
      two_day_timeline.
Proof.
  apply (timeline_entry_per_active_day utc_plus_2 two_day_posts two_day_comments).
  exact two_day_timeline_run.
Defined.

Lemma timeline_has_no_idle_days_witness :
  Forall (fun e => 0 ≤ posts e ∧ 0 ≤ comments e
                   ∧ total_activity e = posts e + comments e
                   ∧ 1 ≤ total_activity e)%Z two_day_timeline
  ∧ sum_by total_activity two_day_timeline
    = (Z.of_nat (length two_day_posts) + Z.of_nat (length two_day_comments))%Z
  ∧ (length two_day_timeline ≤ length two_day_posts + length two_day_comments)%nat
  ∧ (two_day_timeline = [] ↔ two_day_posts = [] ∧ two_day_comments = []).
Proof.
  apply (timeline_has_no_idle_days utc_plus_2 two_day_posts two_day_comments).
  exact two_day_timeline_run.
Defined.

Lemma timeline_scores_add_up_witness :
  sum_by total_score two_day_timeline
  = (sum_by post_score two_day_posts + sum_by comment_score two_day_comments)%Z.
Proof.
  apply (timeline_scores_add_up utc_plus_2 two_day_posts two_day_comments).
  exact two_day_timeline_run.
Defined.

Lemma timeline_ignores_listing_order_witness :
  _create_timeline utc_plus_2 two_day_posts
    [sample_comment "" 1700000500; sample_comment "hello" 1700000000]
  = Ok two_day_timeline.
Proof.
  apply (timeline_ignores_listing_order utc_plus_2 two_day_posts two_day_posts
           two_day_comments).
  - reflexivity.
  - apply perm_swap.
  - exact two_day_timeline_run.
Defined.

(** ** When the analysis succeeds *)

Section Outcome.

Variable sentiment : string → result (float * float).
Variable round : float → Z → float.
Variable format_1f : float → string.
Variable utcoffset : Z → Z.
Variable now : Z.


End Outcome.


(** ** [_get_user_info] *)

Section UserInfo.

Variable round : float → Z → float.
Variable utcoffset : Z → Z.
Variable now : Z.

Local Open Scope Z_scope.

Lemma fromtimestamp_utc (utcoffset' : Z → Z) (timestamp : Z) :
  Datetime.fromtimestamp utcoffset timestamp (Some Datetime.utc)
  = Datetime.fromtimestamp utcoffset' timestamp (Some Datetime.utc).
Proof. reflexivity. Qed.

Lemma get_user_info_inv (user : redditor) (info : user_info) :
  _get_user_info round utcoffset now user = Some info →
  ∃ created created_date,
    user_created_utc user = Ok created
    ∧ Datetime.fromtimestamp host_utc created None = Ok created_date
    ∧ info = UserInfo (user_name user)
               (getattr (user_link_karma user) 0) (getattr (user_comment_karma user) 0)
               (getattr (user_link_karma user) 0 + getattr (user_comment_karma user) 0)
               (Datetime.strftime_ymd created_date)
               ((now - created) / 86400)
               (round (PrimFloat.div (float_of_Z ((now - created) / 86400)) 365.25%float) 1)
               (getattr (user_verified user) false) (getattr (user_is_gold user) false).
Proof.
  unfold _get_user_info. intros Hrun.
  destruct (user_created_utc user) as [created|e] eqn:Hcreated; [|discriminate].
  cbn [mbind result_bind] in Hrun.
  change (Datetime.fromtimestamp utcoffset created (Some Datetime.utc))
    with (Datetime.fromtimestamp host_utc created None) in Hrun.
  destruct (Datetime.fromtimestamp host_utc created None) as [created_date|e] eqn:Hdate;
    [|discriminate].
  cbn [mbind result_bind] in Hrun. injection Hrun as <-.
  exists created, created_date. split; [reflexivity|]. split; [exact Hdate|reflexivity].
Qed.

(** The user information, when there is any, is the same on every
    host: its date is the UTC date of the creation time, the one that
    the timeline of a host on UTC gives that instant.  The total karma
    is the sum of the two karmas shown, and the age in days is the
    number of whole days from creation to now, rounded down. *)
Theorem user_info_fields (user : redditor) (info : user_info) :
  _get_user_info round utcoffset now user = Some info →
  ∃ created,
    user_created_utc user = Ok created
    ∧ (∀ utcoffset', _get_user_info round utcoffset' now user = Some info)
    ∧ timeline_date host_utc created = Ok (info_account_created info)
    ∧ info_username info = user_name user
    ∧ info_total_karma info = info_post_karma info + info_comment_karma info
    ∧ info_account_age_days info * 86400 ≤ now - created
      < (info_account_age_days info + 1) * 86400.
Proof.
  intros Hrun.
  destruct (get_user_info_inv _ _ Hrun) as (created & created_date & Hcreated & Hdate & ->).
  exists created. split; [done|]. split; [|split; [|split; [|split]]].
  - intros utcoffset'. rewrite <- Hrun. reflexivity.
  - unfold timeline_date. by rewrite Hdate.
  - reflexivity.
  - reflexivity.
  - cbn [info_account_age_days].
    pose proof (Z.div_mod (now - created) 86400).
    pose proof (Z.mod_pos_bound (now - created) 86400). lia.
Qed.

(** The user information is the empty dict exactly when reading the
    creation time raises or that time lies outside the years 1 to 9999
    of UTC; no other attribute of the account can empty it. *)
Theorem user_info_is_empty_iff (user : redditor) :
  _get_user_info round utcoffset now user = None
  ↔ match user_created_utc user with
    | Ok created => ¬ datable host_utc created
    | Raise _ => True
    end.
Proof.
  unfold _get_user_info.
  destruct (user_created_utc user) as [created|e]; cbn [mbind result_bind]; [|done].
  rewrite <- (timeline_date_datable host_utc created). unfold timeline_date.
  change (Datetime.fromtimestamp utcoffset created (Some Datetime.utc))
    with (Datetime.fromtimestamp host_utc created None).
  destruct (Datetime.fromtimestamp host_utc created None) as [created_date|e];
    cbn [mbind result_bind fmap result_fmap].
  - split; [done|]. intros []. eauto.
  - split; [|done]. intros _ [? [=]].
Qed.

End UserInfo.

Lemma user_info_fields_witness :
  ∃ created,
    user_created_utc active_user = Ok created
    ∧ (∀ utcoffset',
         _get_user_info plain_round utcoffset' 1700000000 active_user
         = Some (UserInfo "walker" 12 0 12 "2020-09-13" 1157 (float_of_Z 1157 / 365.25)
                   false false))
    ∧ timeline_date host_utc created = Ok "2020-09-13"
    ∧ "walker" = user_name active_user
    ∧ 12%Z = (12 + 0)%Z
    ∧ (1157 * 86400 ≤ 1700000000 - created < (1157 + 1) * 86400)%Z.
Proof.
  apply (user_info_fields plain_round utc_plus_2 1700000000 active_user
           (UserInfo "walker" 12 0 12 "2020-09-13" 1157 (float_of_Z 1157 / 365.25)
              false false)).
  vm_compute. reflexivity.
Defined.

(** ** The routes of [app.py] *)

Lemma rstrip_tail (c : ascii) (r : string) :
  Py.rstrip (String c r) = String c r → Py.rstrip r = r.
Proof.
  cbn [Py.rstrip]. destruct (Py.rstrip r) as [|c' r'] eqn:Hr.
  - destruct (Py.isspace c); [discriminate|]. by intros [= <-].
  - by intros [= <-].
Qed.

Lemma rstrip_idemp (s : string) : Py.rstrip (Py.rstrip s) = Py.rstrip s.
Proof.
  induction s as [|c r IH]; [done|]. cbn [Py.rstrip].
  destruct (Py.rstrip r) as [|c' r'] eqn:Hr.
  - destruct (Py.isspace c) eqn:Hc; [done|]. cbn [Py.rstrip]. by rewrite Hc.
  - cbn [Py.rstrip] in *. by rewrite IH.
Qed.

Lemma rstrip_drop (n : nat) (s : string) :
  Py.rstrip s = s → Py.rstrip (Py.drop n s) = Py.drop n s.
Proof.
  revert s. induction n as [|n IH]; intros [|c r] Hs; try done.
  cbn [Py.drop]. by apply IH, (rstrip_tail c).
Qed.

Lemma rstrip_cons (c : ascii) (r : string) :
  Py.isspace c = false → Py.rstrip r = r → Py.rstrip (String c r) = String c r.
Proof.
  intros Hc Hr. cbn [Py.rstrip]. rewrite Hr, Hc. by destruct r.
Qed.

Lemma strip_prefixed (name : string) :
  Py.rstrip name = name → Py.strip ("u/" ++ name)%string = ("u/" ++ name)%string.
Proof.
  intros Hname. unfold Py.strip. cbn [String.append Py.lstrip].
  change (Py.isspace "u") with false. cbn iota.
  apply rstrip_cons; [done|]. by apply rstrip_cons.
Qed.

Lemma normalised_prefixed (name : string) :
  Py.rstrip name = name → normalised (Some ("u/" ++ name)%string) = name.
Proof.
  intros Hname. unfold normalised. cbn [getattr]. rewrite (strip_prefixed _ Hname).
  cbn [String.append]. unfold Py.startswith. by destruct name.
Qed.

Section AppRoutes.

Variable sentiment : string → result (float * float).
Variable round : float → Z → float.
Variable format_1f : float → string.
Variable utcoffset : Z → Z.
Variable now : Z.
Variable reddit : option (string → result redditor).

(** A missing or blank user name is turned away by the route itself:
    the answer is the validation failure whatever the state of the
    analyzer, which is not consulted. *)
Theorem route_rejects_blank_username (form_username : option string) :
  all_chars Py.isspace (getattr form_username "") = true →
  App.analyze_user sentiment round format_1f utcoffset now reddit form_username
  = Failure "Please enter a valid Reddit username".
Proof.
  intros Hblank%blank_strip_empty. unfold App.analyze_user. by rewrite Hblank.
Qed.

Lemma app_analyze_user_nonblank (form_username : option string) :
  Py.strip (getattr form_username "") ≠ "" →
  App.analyze_user sentiment round format_1f utcoffset now reddit form_username
  = analyze_user sentiment round format_1f utcoffset now reddit (normalised form_username).
Proof.
  intros Hstrip. unfold App.analyze_user, normalised.
  destruct (Py.strip (getattr form_username "")) as [|c r]; [done|].
  cbn [Py.truthy negb]. by destruct (analyze_user _ _ _ _ _ _ _).
Qed.

(** For any other user name the route answers what the analyzer
    answers for the normalised name, success or failure, unchanged;
    that name never ends in a blank. *)
Theorem route_forwards_analyzer_answer (form_username : option string) :
  all_chars Py.isspace (getattr form_username "") = false →
  App.analyze_user sentiment round format_1f utcoffset now reddit form_username
  = analyze_user sentiment round format_1f utcoffset now reddit (normalised form_username)
  ∧ Py.rstrip (normalised form_username) = normalised form_username.
Proof.
  intros Hblank. split.
  - apply app_analyze_user_nonblank. intros Hstrip%strip_empty_blank. congruence.
  - unfold normalised.
    assert (Py.rstrip (Py.strip (getattr form_username ""))
            = Py.strip (getattr form_username "")) as Hfixed by apply rstrip_idemp.
    destruct (Py.startswith _ _); [by apply rstrip_drop|done].
Qed.

(** The prefix is removed once and after trimming: what follows
    [u/] is passed on as it stands, even when it is empty, begins
    with a blank or is prefixed again; and both routes agree on
    it. *)
Theorem routes_drop_one_prefix (name : string) :
  Py.rstrip name = name →
  App.results "POST" (Some ("u/" ++ name)%string) = App.redirect "results" name
  ∧ App.analyze_user sentiment round format_1f utcoffset now reddit
      (Some ("u/" ++ name)%string)
    = analyze_user sentiment round format_1f utcoffset now reddit name.
Proof.
  intros Hname. split.
  - unfold App.results. cbn [String.eqb getattr].
    change (App.redirect "results" (normalised (Some ("u/" ++ name)%string))
            = App.redirect "results" name).
    by rewrite normalised_prefixed.
  - rewrite app_analyze_user_nonblank.
    + by rewrite normalised_prefixed.
    + cbn [getattr]. by rewrite strip_prefixed.
Qed.

End AppRoutes.

Lemma route_rejects_blank_username_witness :
  App.analyze_user flat_scorer plain_round plain_format host_utc 1700000000
    (Some (fun _ => Ok active_user)) (Some "  ")
  = Failure "Please enter a valid Reddit username".
Proof.
  apply (route_rejects_blank_username flat_scorer plain_round plain_format host_utc
           1700000000 (Some (fun _ => Ok active_user)) (Some "  ")).
  reflexivity.
Defined.

Lemma route_forwards_analyzer_answer_witness :
  App.analyze_user flat_scorer plain_round plain_format host_utc 1700000000
    (Some (fun _ => Ok active_user)) (Some " u/walker ")
  = analyze_user flat_scorer plain_round plain_format host_utc 1700000000
      (Some (fun _ => Ok active_user)) (normalised (Some " u/walker "))
  ∧ Py.rstrip (normalised (Some " u/walker ")) = normalised (Some " u/walker ").
Proof.
  apply (route_forwards_analyzer_answer flat_scorer plain_round plain_format host_utc
           1700000000 (Some (fun _ => Ok active_user)) (Some " u/walker ")).
  reflexivity.
Defined.

Lemma routes_drop_one_prefix_witness :
  App.results "POST" (Some ("u/" ++ " u/walker")%string) = App.redirect "results" " u/walker"
  ∧ App.analyze_user flat_scorer plain_round plain_format host_utc 1700000000
      (Some (fun _ => Ok active_user)) (Some ("u/" ++ " u/walker")%string)
    = analyze_user flat_scorer plain_round plain_format host_utc 1700000000
        (Some (fun _ => Ok active_user)) " u/walker".
Proof.
  apply (routes_drop_one_prefix flat_scorer plain_round plain_format host_utc
           1700000000 (Some (fun _ => Ok active_user)) " u/walker").
  reflexivity.
Defined.
